(** * The key-management client of the GPG signing service

    A shallow embedding of [examples/python/manage_keys.py]: the class
    [GPGSigningServiceClient], its retrying HTTP session and its
    operations, with the theorems that settle the client's contract.

    Layout:
    - [Py]       the Python values the client handles (str, dict, JSON);
    - [Wire]     requests, responses, the remote server and the record of
                 what happens on the network;
    - [Exc]      exceptions and the monad client code runs in;
    - [Requests] the session with the urllib3 retry policy mounted on it;
    - [Client]   the methods of [GPGSigningServiceClient];
    - [Cli]      [main], from the parsed arguments on;
    - the theorems. *)

From Stdlib Require Import List Bool Ascii String NArith ZArith Lia.
From Stdlib Require Import DecimalString.
Import ListNotations.

Set Implicit Arguments.

(* ================================================================== *)
(** ** Python values *)
(* ================================================================== *)

Module Py.

(** A Python [str] is a sequence of Unicode code points; [len] counts
    code points. *)
Definition char := N.
Definition str := list char.

(** An ASCII literal of the source, as a [str]. *)
Definition lit (x : string) : str :=
  List.map N_of_ascii (list_ascii_of_string x).

Fixpoint str_eqb (a b : str) : bool :=
  match a, b with
  | [], [] => true
  | x :: a', y :: b' => N.eqb x y && str_eqb a' b'
  | _, _ => false
  end.

(** [len(s)] *)
Definition len (x : str) : nat := List.length x.

(** [s.startswith(p)] *)
Fixpoint startswith (x p : str) : bool :=
  match p, x with
  | [], _ => true
  | c :: p', d :: x' => N.eqb c d && startswith x' p'
  | _ :: _, [] => false
  end.

(** [sub in s] on strings: [sub] occurs in [s] as a substring. *)
Fixpoint str_in (sub x : str) : bool :=
  startswith x sub ||
  match x with
  | [] => false
  | _ :: x' => str_in sub x'
  end.

(** [all(f(c) for c in s)]: iterating a [str] yields its one-character
    substrings. *)
Definition all_chars (f : str -> bool) (x : str) : bool :=
  forallb (fun c => f [c]) x.

Fixpoint lstrip (chars x : str) : str :=
  match x with
  | [] => []
  | c :: x' => if str_in [c] chars then lstrip chars x' else x
  end.

(** [s.rstrip(chars)] *)
Definition rstrip (chars x : str) : str :=
  rev (lstrip chars (rev x)).

(** [str(n)] for a non-negative [int]: its decimal digits. *)
Definition str_of_nat (n : nat) : str :=
  lit (NilEmpty.string_of_uint (Nat.to_uint n)).

(** Truthiness of [str | None]: [None] and [""] are falsy. *)
Definition truthy (o : option str) : bool :=
  match o with
  | None => false
  | Some [] => false
  | Some (_ :: _) => true
  end.

(** A [dict] with [str] keys, in insertion order. *)
Definition dict (V : Type) := list (str * V).

Fixpoint dict_get {V} (k : str) (d : dict V) : option V :=
  match d with
  | [] => None
  | (k', v) :: d' => if str_eqb k k' then Some v else dict_get k d'
  end.

(** [d[k] = v]: overwrite in place, or append a new key. *)
Fixpoint dict_set {V} (k : str) (v : V) (d : dict V) : dict V :=
  match d with
  | [] => [(k, v)]
  | (k', v') :: d' =>
      if str_eqb k k' then (k', v) :: d' else (k', v') :: dict_set k v d'
  end.

(** [k in d] *)
Definition dict_mem {V} (k : str) (d : dict V) : bool :=
  match dict_get k d with Some _ => true | None => false end.

(** The values that travel through the client: what [json.loads]
    produces, and what the client puts in payloads and query
    parameters. *)
#[local] Set Warnings "-register-all".
Inductive value : Type :=
| VNone
| VBool (b : bool)
| VInt (z : Z)
| VFloat (repr : str)
| VStr (x : str)
| VList (items : list value)
| VDict (fields : list (str * value)).
#[local] Set Warnings "register-all".

(** A [str | None] that was tested truthy, as the [str] it then is. *)
Definition the_str (o : option str) : str :=
  match o with
  | Some x => x
  | None => []
  end.

(** A [str | None] argument as a value. *)
Definition value_of (o : option str) : value :=
  match o with
  | Some x => VStr x
  | None => VNone
  end.

End Py.

Import Py.

(* ================================================================== *)
(** ** Requests, responses and the remote service *)
(* ================================================================== *)

Module Wire.

Inductive Method := GET | POST | DELETE.

Definition Method_eqb (a b : Method) : bool :=
  match a, b with
  | GET, GET | POST, POST | DELETE, DELETE => true
  | _, _ => false
  end.

(** What the client hands to [session.get/post/delete]. *)
Record Request := {
  method : Method;
  url : str;
  headers : dict str;
  params : dict value;          (* [params=], empty when not given *)
  json_payload : option value   (* [json=] *)
}.

(** What comes back.  [json] is the body as [response.json()] decodes
    it, [None] when the body is not JSON; [retry_after] is the number of
    seconds a [Retry-After] header asks for, [None] when the header is
    absent. *)
Record Response := {
  status_code : Z;
  text : str;
  json : option value;
  retry_after : option N
}.

(** What happens on the network side of one session: each HTTP
    exchange (the number of retries that preceded it within its call,
    the request sent, the response received) and each [time.sleep]
    between attempts. *)
Inductive Event :=
| Attempt (retries_so_far : nat) (req : Request) (resp : Response)
| Sleep (seconds : N).

(** One fragment of a printed line: literal text, or a value formatted
    with [str()]. *)
Inductive Fragment :=
| Text (x : str)
| Fmt (v : value).

(** The world a client call runs in: the network history and the lines
    written to standard output. *)
Record World := {
  wire : list Event;
  stdout : list (list Fragment)
}.

Definition emit (e : Event) (w : World) : World :=
  {| wire := wire w ++ [e]; stdout := stdout w |}.

Definition print (line : list Fragment) (w : World) : World :=
  {| wire := wire w; stdout := stdout w ++ [line] |}.

(** The remote service is an external collaborator: it answers a request
    as a function of everything that happened on the wire before. *)
Definition Server := list Event -> Request -> Response.

(** The HTTP attempts of a history, and the calls among them (first
    attempts, as opposed to retries). *)
Definition attempts (h : list Event) : list (nat * Request * Response) :=
  flat_map (fun e => match e with
                     | Attempt k q a => [(k, q, a)]
                     | Sleep _ => []
                     end) h.

Definition calls (h : list Event) : list Request :=
  flat_map (fun e => match e with
                     | Attempt 0 q _ => [q]
                     | _ => []
                     end) h.

End Wire.

Import Wire.

(* ================================================================== *)
(** ** Exceptions and the monad of client code *)
(* ================================================================== *)

Module Exc.

(** The exceptions the client can raise. *)
Inductive exn : Type :=
| ValueError (msg : str)            (* spec: InvalidArgument *)
| HTTPError (response : Response)   (* spec: RemoteError; [e.response] *)
| RetryError                        (* requests: retries exhausted *)
| JSONDecodeError                   (* spec: MalformedResponse *)
| KeyError (key : str)
| TypeError
| AttributeError.

Inductive result (A : Type) : Type :=
| Ok (a : A)
| Raise (e : exn).

Arguments Ok {A} a.
Arguments Raise {A} e.

(** Client code threads the world and may raise. *)
Definition M (A : Type) : Type := World -> result A * World.

Definition ret {A} (a : A) : M A := fun w => (Ok a, w).

Definition bind {A B} (m : M A) (k : A -> M B) : M B :=
  fun w =>
    match m w with
    | (Ok a, w') => k a w'
    | (Raise e, w') => (Raise e, w')
    end.

Definition lift {A} (r : result A) : M A := fun w => (r, w).

Definition say (line : list Fragment) : M unit :=
  fun w => (Ok tt, print line w).

Notation "x <- m ;; k" := (bind m (fun x => k))
  (at level 61, m at next level, right associativity).
Notation "m ;;; k" := (bind m (fun _ => k))
  (at level 61, right associativity).

(** [v[k]] with a [str] subscript. *)
Definition getitem (v : value) (k : str) : result value :=
  match v with
  | VDict fields =>
      match dict_get k fields with
      | Some x => Ok x
      | None => Raise (KeyError k)
      end
  | _ => Raise TypeError
  end.

(** [d[k]] on a [dict] the client built itself. *)
Definition dict_item (d : dict value) (k : str) : result value :=
  match dict_get k d with
  | Some x => Ok x
  | None => Raise (KeyError k)
  end.

End Exc.

Import Exc.

(* ================================================================== *)
(** ** The retrying session *)
(* ================================================================== *)

(** The client talks through a [requests.Session] on whose [http://] and
    [https://] prefixes it mounts an [HTTPAdapter] with a
    [urllib3.util.retry.Retry] policy.  The retry loop itself is
    urllib3's ([HTTPConnectionPool.urlopen], [Retry.is_retry],
    [Retry.increment], [Retry.sleep]); it is embedded here for responses
    that carry a status.  Connection failures and URL preparation are
    outside the model, and so is the following of redirects: a session
    follows an answer with a redirect status and a [Location] header by
    requests of its own making, which are not on the [wire] of this
    model.  The model is that of a session whose answers are not
    redirects; statements about everything that reaches the network say
    so ([direct], below). *)

Module Requests.

Record Retry := {
  total : nat;                         (* retries still allowed *)
  backoff_factor : N;
  status_forcelist : list Z;
  allowed_methods : list Method;
  respect_retry_after_header : bool;
  raise_on_status : bool;
  retry_after_max : N                  (* cap on a [Retry-After] delay *)
}.

Definition RETRY_AFTER_STATUS_CODES : list Z := [413; 429; 503]%Z.
Definition DEFAULT_BACKOFF_MAX : N := 120.
Definition DEFAULT_RETRY_AFTER_MAX : N := 21600.   (* 6 hours *)

Definition status_in (code : Z) (l : list Z) : bool :=
  existsb (Z.eqb code) l.

(** [Retry._is_method_retryable] *)
Definition _is_method_retryable (p : Retry) (m : Method) : bool :=
  match allowed_methods p with
  | [] => true
  | l => existsb (Method_eqb m) l
  end.

(** [Retry.is_retry]; [left] is the [total] of the policy at this
    point of the call. *)
Definition is_retry (p : Retry) (left : nat) (m : Method) (code : Z)
    (has_retry_after : bool) : bool :=
  if negb (_is_method_retryable p m) then false
  else if status_in code (status_forcelist p) then true
  else negb (Nat.eqb left 0)
       && respect_retry_after_header p
       && has_retry_after
       && status_in code RETRY_AFTER_STATUS_CODES.

(** [Retry.get_backoff_time], after [history] failed attempts. *)
Definition get_backoff_time (p : Retry) (history : nat) : N :=
  if Nat.leb history 1 then 0%N
  else N.min DEFAULT_BACKOFF_MAX
             (backoff_factor p * 2 ^ N.of_nat (history - 1)).

Definition _sleep_backoff (p : Retry) (history : nat) (w : World) : World :=
  let backoff := get_backoff_time p history in
  if N.leb backoff 0 then w else emit (Sleep backoff) w.

(** [Retry.get_retry_after(response)]: the seconds the header asks for,
    no more than [retry_after_max] ([Retry.parse_retry_after]). *)
Definition get_retry_after (p : Retry) (response : Response) : option N :=
  match retry_after response with
  | Some seconds => Some (N.min seconds (retry_after_max p))
  | None => None
  end.

(** [Retry.sleep(response)]: the capped [Retry-After] delay when there
    is one and it is not zero, the backoff otherwise. *)
Definition sleep (p : Retry) (history : nat) (response : Response)
    (w : World) : World :=
  if respect_retry_after_header p then
    match get_retry_after p response with
    | Some (Npos s) => emit (Sleep (Npos s)) w
    | _ => _sleep_backoff p history w
    end
  else _sleep_backoff p history w.

(** [bool(response.headers.get("Retry-After"))] *)
Definition has_retry_after (response : Response) : bool :=
  match retry_after response with Some _ => true | None => false end.

Record Session := {
  max_retries : Retry     (* of the adapter mounted on http(s):// *)
}.

Section Transport.

Variable server : Server.

(** [urlopen] with [retries=]: one attempt, then either the response, a
    retry with the counter decremented ([Retry.increment]), or
    [MaxRetryError] once the counter would drop below zero, which
    requests re-raises as [RetryError]. *)
Fixpoint urlopen (p : Retry) (left history : nat) (req : Request)
    (w : World) : result Response * World :=
  let response := server (wire w) req in
  let w1 := emit (Attempt history req response) w in
  if is_retry p left (method req) (status_code response)
       (has_retry_after response)
  then
    match left with
    | 0 =>
        if raise_on_status p then (Raise RetryError, w1)
        else (Ok response, w1)
    | S left' =>
        urlopen p left' (S history) req (sleep p (S history) response w1)
    end
  else (Ok response, w1).

(** [Session.request], for answers that are not redirects: the answer
    of the adapter's retry loop is the answer of the call. *)
Definition request (s : Session) (req : Request) : M Response :=
  urlopen (max_retries s) (total (max_retries s)) 0 req.

(** [session.get(url, headers=, params=)] *)
Definition get (s : Session) (u : str) (hdrs : dict str)
    (ps : dict value) : M Response :=
  request s {| method := GET; url := u; headers := hdrs;
               params := ps; json_payload := None |}.

(** [session.post(url, headers=, json=)] *)
Definition post (s : Session) (u : str) (hdrs : dict str)
    (payload : value) : M Response :=
  request s {| method := POST; url := u; headers := hdrs;
               params := []; json_payload := Some payload |}.

(** [session.delete(url, headers=)] *)
Definition delete (s : Session) (u : str) (hdrs : dict str) : M Response :=
  request s {| method := DELETE; url := u; headers := hdrs;
               params := []; json_payload := None |}.

End Transport.

(** [response.raise_for_status()] *)
Definition raise_for_status (r : Response) : result unit :=
  if ((400 <=? status_code r) && (status_code r <? 500))%Z then
    Raise (HTTPError r)
  else if ((500 <=? status_code r) && (status_code r <? 600))%Z then
    Raise (HTTPError r)
  else Ok tt.

(** [response.json()] *)
Definition response_json (r : Response) : result value :=
  match json r with
  | Some v => Ok v
  | None => Raise JSONDecodeError
  end.

End Requests.

Import Requests.

(* ================================================================== *)
(** ** GPGSigningServiceClient *)
(* ================================================================== *)

Module Client.

Record GPGSigningServiceClient := {
  base_url : str;
  admin_token : option str;
  session : Session
}.

Definition _create_session : Session :=
  let retry_strategy :=
    {| total := 3;
       backoff_factor := 1;
       status_forcelist := [429; 503]%Z;
       allowed_methods := [GET; POST; DELETE];
       respect_retry_after_header := true;
       raise_on_status := true;
       retry_after_max := DEFAULT_RETRY_AFTER_MAX |} in
  {| max_retries := retry_strategy |}.

(** [GPGSigningServiceClient(base_url, admin_token)], with the process
    environment it reads [ADMIN_TOKEN] from. *)
Definition __init__ (environ : dict str) (url : str)
    (token : option str) : GPGSigningServiceClient :=
  {| base_url := rstrip (lit "/") url;
     admin_token :=
       if truthy token then token else dict_get (lit "ADMIN_TOKEN") environ;
     session := _create_session |}.

Definition default_base_url : str := lit "https://gpg.kajkowalski.nl".

Definition _admin_headers (self : GPGSigningServiceClient)
    : result (dict str) :=
  match admin_token self with
  | Some (c :: tok) =>
      Ok [ (lit "Authorization", lit "Bearer " ++ c :: tok);
           (lit "Content-Type", lit "application/json") ]
  | _ => Raise (ValueError (lit "Admin token not configured"))
  end.

Definition hexdigits : str := lit "0123456789ABCDEFabcdef".

Definition _validate_key_id (key_id : str) : result unit :=
  if negb (Nat.eqb (len key_id) 16) then
    Raise (ValueError (lit "Key ID must be exactly 16 characters, got "
                         ++ str_of_nat (len key_id)))
  else if negb (all_chars (fun c => str_in c hexdigits) key_id) then
    Raise (ValueError (lit "Key ID must be hexadecimal, got: " ++ key_id))
  else Ok tt.

Section Operations.

Variable server : Server.
Variable self : GPGSigningServiceClient.

Definition upload_key (key_id armored_private_key : str) : M value :=
  lift (_validate_key_id key_id) ;;;
  let payload :=
    VDict [ (lit "keyId", VStr key_id);
            (lit "armoredPrivateKey", VStr armored_private_key) ] in
  hdrs <- lift (_admin_headers self) ;;
  response <- post server (session self)
                (base_url self ++ lit "/admin/keys") hdrs payload ;;
  lift (raise_for_status response) ;;;
  lift (response_json response).

Definition list_keys : M value :=
  hdrs <- lift (_admin_headers self) ;;
  response <- get server (session self)
                (base_url self ++ lit "/admin/keys") hdrs [] ;;
  lift (raise_for_status response) ;;;
  data <- lift (response_json response) ;;
  match data with
  | VDict fields =>
      match dict_get (lit "keys") fields with
      | Some v => ret v
      | None => ret (VList [])
      end
  | _ => lift (Raise AttributeError)
  end.

Definition get_public_key (key_id : str) : M str :=
  hdrs <- lift (_admin_headers self) ;;
  response <- get server (session self)
                (base_url self ++ lit "/admin/keys/" ++ key_id
                   ++ lit "/public") hdrs [] ;;
  lift (raise_for_status response) ;;;
  ret (text response).

Definition delete_key (key_id : str) : M value :=
  lift (_validate_key_id key_id) ;;;
  hdrs <- lift (_admin_headers self) ;;
  response <- delete server (session self)
                (base_url self ++ lit "/admin/keys/" ++ key_id) hdrs ;;
  lift (raise_for_status response) ;;;
  lift (response_json response).

(** The query parameters [get_audit_logs] builds. *)
Definition audit_params (action subject start_date end_date : option str)
    (limit offset : Z) : dict value :=
  let params := [ (lit "limit", VInt limit); (lit "offset", VInt offset) ] in
  let params :=
    if truthy action
    then dict_set (lit "action") (value_of action) params else params in
  let params :=
    if truthy subject
    then dict_set (lit "subject") (value_of subject) params else params in
  let params :=
    if truthy start_date
    then dict_set (lit "startDate") (value_of start_date) params
    else params in
  let params :=
    if truthy end_date
    then dict_set (lit "endDate") (value_of end_date) params else params in
  params.

Definition get_audit_logs (action subject start_date end_date : option str)
    (limit offset : Z) : M value :=
  let params :=
    audit_params action subject start_date end_date limit offset in
  hdrs <- lift (_admin_headers self) ;;
  response <- get server (session self)
                (base_url self ++ lit "/admin/audit") hdrs params ;;
  lift (raise_for_status response) ;;;
  lift (response_json response).

(** U+2713, the check mark of the progress messages. *)
Definition check_mark : str := [10003%N].
Definition newline : str := [10%N].

Definition rotate_keys (new_key_id armored_private_key : str)
    (old_key_id : option str) (grace_period_hours : Z) : M (dict value) :=
  let results : dict value := [] in
  say [Text (lit "Uploading new key: "); Fmt (VStr new_key_id)] ;;;
  uploaded <- upload_key new_key_id armored_private_key ;;
  let results := dict_set (lit "new_key") uploaded results in
  say [Text (check_mark ++ lit " New key uploaded successfully")] ;;;
  new_key <- lift (dict_item results (lit "new_key")) ;;
  fingerprint <- lift (getitem new_key (lit "fingerprint")) ;;
  say [Text (lit "  Fingerprint: "); Fmt fingerprint] ;;;
  new_key <- lift (dict_item results (lit "new_key")) ;;
  algorithm <- lift (getitem new_key (lit "algorithm")) ;;
  say [Text (lit "  Algorithm: "); Fmt algorithm] ;;;
  new_key <- lift (dict_item results (lit "new_key")) ;;
  user_id <- lift (getitem new_key (lit "userId")) ;;
  say [Text (lit "  User ID: "); Fmt user_id] ;;;
  if truthy old_key_id then
    say [Text (newline ++ lit "Waiting "); Fmt (VInt grace_period_hours);
         Text (lit " hours grace period...")] ;;;
    say [Text (lit "Old key: "); Fmt (value_of old_key_id)] ;;;
    say [Text (lit "New key is now active, workflows should be updated")] ;;;
    (* the source does not sleep here: its [time.sleep] is commented out *)
    say [Text (newline ++ lit "Deleting old key: ");
         Fmt (value_of old_key_id)] ;;;
    deleted <- delete_key (the_str old_key_id) ;;
    let results := dict_set (lit "deleted") deleted results in
    say [Text (check_mark ++ lit " Old key deleted successfully")] ;;;
    ret results
  else
    ret results.

End Operations.

End Client.

Import Client.

(* ================================================================== *)
(** ** The command line *)
(* ================================================================== *)

(** [main], from the parsed arguments on.  What [main] takes from
    outside the program comes in as parameters: the process environment,
    the key files it can read, the clock, and the texts that
    [json.dumps], [str(e)] and [format] render.  [argparse] itself and
    the traceback of an uncaught exception are outside the model. *)

Module Cli.

(** *** Python operations on decoded JSON *)

(** [bool(v)]; whether a float literal denotes a non-zero float is left
    to [float_truthy]. *)
Definition value_truthy (float_truthy : str -> bool) (v : value) : bool :=
  match v with
  | VNone => false
  | VBool b => b
  | VInt z => negb (Z.eqb z 0)
  | VFloat repr => float_truthy repr
  | VStr [] => false
  | VStr (_ :: _) => true
  | VList [] => false
  | VList (_ :: _) => true
  | VDict [] => false
  | VDict (_ :: _) => true
  end.

(** [for x in v]: the items of a list, the keys of a dict, the
    characters of a string; nothing else is iterable. *)
Definition iter (v : value) : result (list value) :=
  match v with
  | VList items => Ok items
  | VDict fields => Ok (List.map (fun kv => VStr (fst kv)) fields)
  | VStr x => Ok (List.map (fun c => VStr [c]) x)
  | _ => Raise TypeError
  end.

(** [v.get(k, default)]: only a dict has [get]. *)
Definition value_get (v : value) (k : str) (default : value) : result value :=
  match v with
  | VDict fields =>
      match dict_get k fields with
      | Some x => Ok x
      | None => Ok default
      end
  | _ => Raise AttributeError
  end.

(** [k in v] for a [str] [k]. *)
Definition value_contains (k : str) (v : value) : result bool :=
  match v with
  | VDict fields => Ok (dict_mem k fields)
  | VList items =>
      Ok (existsb (fun x => match x with
                            | VStr y => str_eqb k y
                            | _ => false
                            end) items)
  | VStr x => Ok (str_in k x)
  | _ => Raise TypeError
  end.

(** Whether [format(v, spec)] with a width accepts [v]: [None], lists
    and dicts reject a non-empty format spec. *)
Definition formattable (v : value) : bool :=
  match v with
  | VNone | VList _ | VDict _ => false
  | _ => true
  end.

(** *** Arguments, failures and the process *)

(** [args], as [parser.parse_args()] returns it. *)
Inductive Command :=
| CmdList
| CmdUpload (key_id key_file : str)
| CmdDelete (key_id : str)
| CmdAudit (action subject : option str) (days limit : Z)
| CmdRotate (new_key_id key_file : str) (old_key_id : option str)
    (grace_hours : Z).

(** What can be raised inside [main]'s [try]: the client's exceptions,
    a key file that cannot be opened or decoded, and date arithmetic out
    of range. *)
Inductive failure :=
| ClientError (e : exn)
| FileError (path : str)
| OverflowError.

Inductive outcome (A : Type) : Type :=
| Done (a : A)
| Failed (f : failure).

Arguments Done {A} a.
Arguments Failed {A} f.

(** The process: the world of the client, and standard error. *)
Record Console := {
  world : World;
  stderr : list (list Fragment)
}.

Definition P (A : Type) : Type := Console -> outcome A * Console.

Definition pret {A} (a : A) : P A := fun c => (Done a, c).

Definition pbind {A B} (m : P A) (k : A -> P B) : P B :=
  fun c =>
    match m c with
    | (Done a, c') => k a c'
    | (Failed f, c') => (Failed f, c')
    end.

Notation "x <~ m ;; k" := (pbind m (fun x => k))
  (at level 61, m at next level, right associativity).
Notation "m ;> k" := (pbind m (fun _ => k))
  (at level 61, right associativity).

Definition fail {A} (f : failure) : P A := fun c => (Failed f, c).

(** A pure step that may raise. *)
Definition check {A} (r : result A) : P A :=
  fun c =>
    match r with
    | Ok a => (Done a, c)
    | Raise e => (Failed (ClientError e), c)
    end.

(** A method of the client. *)
Definition call {A} (m : M A) : P A :=
  fun c =>
    match m (world c) with
    | (Ok a, w) => (Done a, {| world := w; stderr := stderr c |})
    | (Raise e, w) =>
        (Failed (ClientError e), {| world := w; stderr := stderr c |})
    end.

(** [print(...)] and [print(..., file=sys.stderr)] *)
Definition out (line : list Fragment) : P unit :=
  fun c => (Done tt, {| world := print line (world c); stderr := stderr c |}).

Definition err (line : list Fragment) : P unit :=
  fun c => (Done tt, {| world := world c; stderr := stderr c ++ [line] |}).

(** [for x in items: body] *)
Fixpoint for_each (items : list value) (body : value -> P unit) : P unit :=
  match items with
  | [] => pret tt
  | x :: rest => body x ;> for_each rest body
  end.

(** How [main] ends: by returning, by [sys.exit(code)], or by an
    exception nothing catches. *)
Inductive Exit :=
| Returned
| Exited (code : Z)
| Uncaught (f : failure).

(** The exit status of the process. *)
Definition exit_status (x : Exit) : Z :=
  match x with
  | Returned => 0
  | Exited code => code
  | Uncaught _ => 1
  end.

(** U+2717, the cross of a failed audit entry; ["-" * 80]. *)
Definition cross_mark : str := [10007%N].
Definition rule : str := repeat 45%N 80.

Section Main.

Variable server : Server.
Variable environ : dict str.

(** [open(path).read()], [None] when it raises. *)
Variable read_file : str -> option str.

(** [(datetime.now(timezone.utc) - timedelta(days=days)).isoformat()],
    [None] when the date arithmetic raises. *)
Variable start_date_of : Z -> option str.

(** [json.dumps(v, indent=2)], [str(e)], [format(v, str(width))] and
    the truth value of a float. *)
Variable json_dumps : value -> str.
Variable str_of_failure : failure -> str.
Variable format_width : value -> nat -> str.
Variable float_truthy : str -> bool.

(** [with open(path) as f: ... f.read()] *)
Definition read (path : str) : P str :=
  match read_file path with
  | Some x => pret x
  | None => fail (FileError path)
  end.

(** [{v:width}] in an f-string *)
Definition padded (v : value) (width : nat) : P Fragment :=
  if formattable v then pret (Text (format_width v width))
  else check (Raise TypeError).

Definition list_command (client : GPGSigningServiceClient) : P unit :=
  keys <~ call (list_keys server client) ;;
  if negb (value_truthy float_truthy keys) then
    out [Text (lit "No keys found")]
  else
    out [Text (lit "Signing Keys:")] ;>
    out [Text rule] ;>
    items <~ check (iter keys) ;;
    for_each items (fun key =>
      key_id <~ check (getitem key (lit "keyId")) ;;
      out [Text (lit "ID: "); Fmt key_id] ;>
      fingerprint <~ check (getitem key (lit "fingerprint")) ;;
      out [Text (lit "   Fingerprint: "); Fmt fingerprint] ;>
      algorithm <~ check (getitem key (lit "algorithm")) ;;
      out [Text (lit "   Algorithm: "); Fmt algorithm] ;>
      created <~ check (getitem key (lit "createdAt")) ;;
      out [Text (lit "   Created: "); Fmt created] ;>
      out []).

Definition upload_command (client : GPGSigningServiceClient)
    (key_id key_file : str) : P unit :=
  armored_key <~ read key_file ;;
  out [Text (lit "Uploading key: "); Fmt (VStr key_id)] ;>
  result <~ call (upload_key server client key_id armored_key) ;;
  out [Text (check_mark ++ lit " Key uploaded successfully")] ;>
  uploaded_id <~ check (getitem result (lit "keyId")) ;;
  out [Text (lit "  Key ID: "); Fmt uploaded_id] ;>
  fingerprint <~ check (getitem result (lit "fingerprint")) ;;
  out [Text (lit "  Fingerprint: "); Fmt fingerprint] ;>
  algorithm <~ check (getitem result (lit "algorithm")) ;;
  out [Text (lit "  Algorithm: "); Fmt algorithm] ;>
  user_id <~ check (getitem result (lit "userId")) ;;
  out [Text (lit "  User ID: "); Fmt user_id].

Definition delete_command (client : GPGSigningServiceClient)
    (key_id : str) : P unit :=
  out [Text (lit "Deleting key: "); Fmt (VStr key_id)] ;>
  result <~ call (delete_key server client key_id) ;;
  out [Text (json_dumps result)].

(** One turn of the loop over [result["logs"]]. *)
Definition audit_entry (log : value) : P unit :=
  success <~ check (getitem log (lit "success")) ;;
  status <~ (if value_truthy float_truthy success then pret [Text check_mark]
             else
               error_code <~ check (value_get log (lit "errorCode")
                                      (VStr (lit "unknown"))) ;;
               pret [Text (cross_mark ++ lit " ("); Fmt error_code;
                     Text (lit ")")]) ;;
  timestamp <~ check (getitem log (lit "timestamp")) ;;
  action <~ check (getitem log (lit "action")) ;;
  action_text <~ padded action 12 ;;
  subject <~ check (getitem log (lit "subject")) ;;
  subject_text <~ padded subject 20 ;;
  out ([Fmt timestamp; Text (lit " | "); action_text; Text (lit " | ");
        subject_text; Text (lit " | ")] ++ status) ;>
  entry_id <~ check (getitem log (lit "id")) ;;
  request_id <~ check (getitem log (lit "requestId")) ;;
  key_id <~ check (getitem log (lit "keyId")) ;;
  out [Text (lit "  ID: "); Fmt entry_id; Text (lit " | Request: ");
       Fmt request_id; Text (lit " | Key: "); Fmt key_id] ;>
  metadata <~ check (value_get log (lit "metadata") VNone) ;;
  (if value_truthy float_truthy metadata then
     shown <~ check (getitem log (lit "metadata")) ;;
     out [Text (lit "  Metadata: "); Fmt shown]
   else pret tt) ;>
  out [].

Definition audit_command (client : GPGSigningServiceClient)
    (action subject : option str) (days limit : Z) : P unit :=
  start_date <~ (match start_date_of days with
                 | Some x => pret x
                 | None => fail OverflowError
                 end) ;;
  result <~ call (get_audit_logs server client action subject
                    (Some start_date) None limit 0) ;;
  out [Text (lit "Audit logs (last "); Fmt (VInt days);
       Text (lit " days):")] ;>
  out [Text rule] ;>
  logs <~ check (getitem result (lit "logs")) ;;
  items <~ check (iter logs) ;;
  for_each items audit_entry ;>
  count <~ check (getitem result (lit "count")) ;;
  out [Text (lit "Total: "); Fmt count; Text (lit " entries")].

Definition rotate_command (client : GPGSigningServiceClient)
    (new_key_id key_file : str) (old_key_id : option str)
    (grace_hours : Z) : P unit :=
  armored_key <~ read key_file ;;
  result <~ call (rotate_keys server client new_key_id armored_key
                    old_key_id grace_hours) ;;
  out [Text (json_dumps (VDict result))].

(** The body of the [try]. *)
Definition command (client : GPGSigningServiceClient) (args : Command)
    : P unit :=
  match args with
  | CmdList => list_command client
  | CmdUpload key_id key_file => upload_command client key_id key_file
  | CmdDelete key_id => delete_command client key_id
  | CmdAudit action subject days limit =>
      audit_command client action subject days limit
  | CmdRotate new_key_id key_file old_key_id grace_hours =>
      rotate_command client new_key_id key_file old_key_id grace_hours
  end.

(** The [try] inside [except requests.HTTPError as e]. *)
Definition report_api_error (e : exn) (response : Response) : P unit :=
  error_data <~ check (response_json response) ;;
  code <~ check (value_get error_data (lit "code")
                   (VStr (lit "UNKNOWN"))) ;;
  message <~ check (value_get error_data (lit "error")
                      (VStr (str_of_failure (ClientError e)))) ;;
  err [Text (lit "API Error ["); Fmt code; Text (lit "]: "); Fmt message] ;>
  has_request_id <~ check (value_contains (lit "requestId") error_data) ;;
  if has_request_id : bool then
    request_id <~ check (getitem error_data (lit "requestId")) ;;
    err [Text (lit "Request ID: "); Fmt request_id]
  else pret tt.

(** [except ValueError]: the client's [ValueError] and the
    [JSONDecodeError] of requests, which is one. *)
Definition is_value_error (f : failure) : bool :=
  match f with
  | ClientError (ValueError _) | ClientError JSONDecodeError => true
  | _ => false
  end.

(** [except requests.HTTPError as e] *)
Definition on_http_error (e : exn) (response : Response)
    (c : Console) : Exit * Console :=
  match report_api_error e response c with
  | (Done _, c') => (Exited 1, c')
  | (Failed f, c') =>
      if is_value_error f then
        (Exited 1,
         snd (err [Text (lit "HTTP "); Fmt (VInt (status_code response));
                   Text (lit ": "); Fmt (VStr (text response))] c'))
      else (Uncaught f, c')
  end.

Definition main (args : Command) (c : Console) : Exit * Console :=
  let client := __init__ environ default_base_url None in
  match command client args c with
  | (Done _, c') => (Returned, c')
  | (Failed f, c') =>
      match f with
      | ClientError (HTTPError response) =>
          on_http_error (HTTPError response) response c'
      | ClientError RetryError | ClientError JSONDecodeError =>
          (* except requests.RequestException *)
          (Exited 1,
           snd (err [Text (lit "Network Error: "); Text (str_of_failure f)]
                  c'))
      | _ =>
          (* except Exception *)
          (Exited 1,
           snd (err [Text (lit "Error: "); Text (str_of_failure f)] c'))
      end
  end.

End Main.

End Cli.

Import Cli.

(* ================================================================== *)
(** ** Vocabulary of the statements *)
(* ================================================================== *)

(** *** Key identifiers *)

(** A hexadecimal digit of either case, by code point: 0-9, A-F, a-f. *)
Definition hex_digit (c : char) : Prop :=
  (48 <= c <= 57 \/ 65 <= c <= 70 \/ 97 <= c <= 102)%N.

Definition hex_digitb (c : char) : bool :=
  ((48 <=? c) && (c <=? 57) || (65 <=? c) && (c <=? 70)
   || (97 <=? c) && (c <=? 102))%N.

(** *** Runs of the retry loop *)

(** The events a computation added to the wire. *)
Definition extends (w : World) (evs : list Event) (w' : World) : Prop :=
  w' = {| wire := wire w ++ evs; stdout := stdout w |}.

(** Whether the policy retries after answer [a], with [left] retries
    still allowed. *)
Definition retried_at (p : Retry) (req : Request) (left : nat)
    (a : Response) : bool :=
  is_retry p left (method req) (status_code a) (has_retry_after a).

(** An attempt that was followed by a retry, or a sleep. *)
Definition retried_event (p : Retry) (req : Request) (e : Event) : Prop :=
  match e with
  | Attempt _ q a => q = req /\ exists left, retried_at p req left a = true
  | Sleep _ => True
  end.

(** How a call ended on its last answer [a], the [n]-th retry of
    [left] allowed. *)
Definition ended (p : Retry) (req : Request) (left n : nat) (a : Response)
    (r : result Response) : Prop :=
  (r = Ok a
   /\ (retried_at p req (left - n) a = false
       \/ (raise_on_status p = false /\ n = left)))
  \/ (r = Raise RetryError /\ retried_at p req 0 a = true /\ n = left
      /\ raise_on_status p = true).

(** An answer the policy never retries, whatever is left of the
    counter. *)
Definition final (s : Session) (req : Request) (a : Response) : Prop :=
  forall left, retried_at (max_retries s) req left a = false.

(** The policy the client configures. *)
Definition retry_strategy : Retry := max_retries _create_session.

(** A success status, 2xx. *)
Definition success (a : Response) : Prop :=
  (200 <= status_code a < 300)%Z.

(** A transient failure status, 429 or 503. *)
Definition transient (a : Response) : Prop :=
  (status_code a = 429 \/ status_code a = 503)%Z.

(** The events [sleep] adds do not depend on the world it runs in. *)
Definition slept (p : Retry) (history : nat) (a : Response) : list Event :=
  wire (sleep p history a {| wire := []; stdout := [] |}).

(** *** The requests the operations send *)

Definition upload_request (self : GPGSigningServiceClient)
    (key_id armored_private_key : str) (hdrs : dict str) : Request :=
  {| method := POST;
     url := base_url self ++ lit "/admin/keys";
     headers := hdrs;
     params := [];
     json_payload :=
       Some (VDict [ (lit "keyId", VStr key_id);
                     (lit "armoredPrivateKey", VStr armored_private_key) ]) |}.

Definition delete_request (self : GPGSigningServiceClient) (key_id : str)
    (hdrs : dict str) : Request :=
  {| method := DELETE;
     url := base_url self ++ lit "/admin/keys/" ++ key_id;
     headers := hdrs;
     params := [];
     json_payload := None |}.

Definition public_key_request (self : GPGSigningServiceClient)
    (key_id : str) (hdrs : dict str) : Request :=
  {| method := GET;
     url := base_url self ++ lit "/admin/keys/" ++ key_id ++ lit "/public";
     headers := hdrs;
     params := [];
     json_payload := None |}.

Definition list_request (self : GPGSigningServiceClient) (hdrs : dict str)
    : Request :=
  {| method := GET;
     url := base_url self ++ lit "/admin/keys";
     headers := hdrs;
     params := [];
     json_payload := None |}.

Definition audit_request (self : GPGSigningServiceClient) (ps : dict value)
    (hdrs : dict str) : Request :=
  {| method := GET;
     url := base_url self ++ lit "/admin/audit";
     headers := hdrs;
     params := ps;
     json_payload := None |}.

(** What an operation makes of the session's answer: the error of the
    call, the [HTTPError] of [raise_for_status], or [k] of the
    response. *)
Definition settle {A} (r : result Response) (k : Response -> result A)
    : result A :=
  match r with
  | Raise e => Raise e
  | Ok a =>
      match raise_for_status a with
      | Raise e => Raise e
      | Ok _ => k a
      end
  end.

(** [data.get("keys", [])] *)
Definition keys_of (a : Response) : result value :=
  match response_json a with
  | Raise e => Raise e
  | Ok (VDict fields) =>
      match dict_get (lit "keys") fields with
      | Some v => Ok v
      | None => Ok (VList [])
      end
  | Ok _ => Raise AttributeError
  end.

(** *** Audit filters *)

Definition filter_keys : list str :=
  [lit "action"; lit "subject"; lit "startDate"; lit "endDate"].

(** What a filter contributes to the query: its value when it is a
    non-empty string, nothing when it is [None] or empty. *)
Definition sent (o : option str) : option value :=
  if truthy o then Some (value_of o) else None.

(** *** Agreement on the network *)

(** Two runs agree on the network when they return the same result and
    leave the same history on the wire; standard output may differ. *)
Definition same_net {A} (x y : result A * World) : Prop :=
  fst x = fst y /\ wire (snd x) = wire (snd y).

(** Two computations agree on the network when they do from any two
    worlds with the same wire. *)
Definition sim {A} (m1 m2 : M A) : Prop :=
  forall w1 w2, wire w1 = wire w2 -> same_net (m1 w1) (m2 w2).

(** *** Rotation *)

(** The first line [rotate_keys] prints. *)
Definition announce (new_key_id : str) : list Fragment :=
  [Text (lit "Uploading new key: "); Fmt (VStr new_key_id)].

(** *** What an operation puts on the wire *)

(** From [w] to [w'], one call of [q] went out: at least one and at most
    [bound] attempts, all of them of [q], and nothing printed. *)
Definition sends (w : World) (q : Request) (bound : nat) (w' : World)
    : Prop :=
  exists evs,
    extends w evs w'
    /\ calls evs = [q]
    /\ Forall (fun x => snd (fst x) = q) (attempts evs)
    /\ 1 <= List.length (attempts evs) <= bound.

(** Every attempt that reached the wire between [w] and [w'] carries the
    headers [_admin_headers] builds. *)
Definition authenticated (self : GPGSigningServiceClient) (w w' : World)
    : Prop :=
  forall k q a,
    In (Attempt k q a) (wire w') ->
    In (Attempt k q a) (wire w) \/ _admin_headers self = Ok (headers q).

(** An error status the policy does not retry: 4xx or 5xx, other than
    429 and 503, and other than a 413 that carries [Retry-After]. *)
Definition surfaces (a : Response) : Prop :=
  (400 <= status_code a < 600)%Z
  /\ status_code a <> 429%Z /\ status_code a <> 503%Z
  /\ (status_code a = 413%Z -> retry_after a = None).

(** A redirect status.  With a [Location] header, a session follows
    such an answer by further requests that it builds itself. *)
Definition redirect (a : Response) : Prop :=
  In (status_code a) [301; 302; 303; 307; 308]%Z.

(** A server that never answers with a redirect status: everything the
    session then sends is a request the client handed to it, or a retry
    of one. *)
Definition direct (server : Server) : Prop :=
  forall h q, ~ redirect (server h q).

(** *** The command line *)

(** A step of [main] that leaves the wire and standard error alone: it
    may print, and it may raise. *)
Definition quiet {A} (m : P A) : Prop :=
  forall c,
    wire (world (snd (m c))) = wire (world c)
    /\ stderr (snd (m c)) = stderr c.

(** An entry of the key list that has the four fields [main] prints. *)
Definition listable (key : value) : Prop :=
  exists fields,
    key = VDict fields
    /\ dict_get (lit "keyId") fields <> None
    /\ dict_get (lit "fingerprint") fields <> None
    /\ dict_get (lit "algorithm") fields <> None
    /\ dict_get (lit "createdAt") fields <> None.

(** The methods a command may use on the network, in order. *)
Definition methods_of (args : Command) : list Method :=
  match args with
  | CmdList => [GET]
  | CmdUpload _ _ => [POST]
  | CmdDelete _ => [DELETE]
  | CmdAudit _ _ _ _ => [GET]
  | CmdRotate _ _ _ _ => [POST; DELETE]
  end.

(** A failure that neither [except requests.HTTPError] nor
    [except requests.RequestException] takes, so that
    [except Exception] does. *)
Definition plain (f : failure) : Prop :=
  match f with
  | ClientError (HTTPError _) | ClientError RetryError
  | ClientError JSONDecodeError => False
  | _ => True
  end.

(** The line [main] writes to standard error for such a failure. *)
Definition error_line (str_of_failure : failure -> str) (f : failure)
    : list Fragment :=
  [Text (lit "Error: "); Text (str_of_failure f)].

(** A command that gets as far as the network: its key file can be
    read, its clock answers, its key id passes validation. *)
Definition ready (read_file : str -> option str)
    (start_date_of : Z -> option str) (args : Command) : Prop :=
  match args with
  | CmdList => True
  | CmdUpload key_id key_file =>
      read_file key_file <> None /\ _validate_key_id key_id = Ok tt
  | CmdDelete key_id => _validate_key_id key_id = Ok tt
  | CmdAudit _ _ days _ => start_date_of days <> None
  | CmdRotate new_key_id key_file _ _ =>
      read_file key_file <> None /\ _validate_key_id new_key_id = Ok tt
  end.

(** [p] is an initial part of [l]. *)
Definition prefix_of {A} (p l : list A) : Prop := exists rest, l = p ++ rest.

(** *** Mocked services for the concrete runs *)

Module Mock.

(** The n-th attempt of the session is answered by the n-th response of
    a script, and by [default] past its end. *)
Definition scripted (script : list Response) (default : Response) : Server :=
  fun h _ => nth (List.length (attempts h)) script default.

(** A response with a status and a decoded JSON body. *)
Definition answer (code : Z) (body : option value) : Response :=
  {| status_code := code; text := []; json := body; retry_after := None |}.

(** The body of a successful upload. *)
Definition uploaded : value :=
  VDict [ (lit "success", VBool true);
          (lit "keyId", VStr (lit "0123456789ABCDEF"));
          (lit "fingerprint", VStr (lit "F1"));
          (lit "algorithm", VStr (lit "EdDSA"));
          (lit "userId", VStr (lit "ci")) ].

(** A client built as [main] builds it, with a token in the
    environment. *)
Definition client : GPGSigningServiceClient :=
  __init__ [(lit "ADMIN_TOKEN", lit "secret")] default_base_url None.

Definition fresh : World := {| wire := []; stdout := [] |}.

(** A process that has printed nothing yet, an environment with a
    token, one key file, a clock, and renderers for the texts [main]
    prints ([json.dumps], [str(e)], [format], float truth) that keep
    only the shape of what they render. *)
Definition console : Console := {| world := fresh; stderr := [] |}.

Definition environ : dict str := [(lit "ADMIN_TOKEN", lit "secret")].

Definition files (path : str) : option str :=
  if str_eqb path (lit "key.asc") then Some (lit "KEY") else None.

Definition clock (days : Z) : option str := Some (lit "2026-01-01T00:00:00").

Definition dumps (v : value) : str := lit "<json>".
Definition message (f : failure) : str := lit "<error>".
Definition pad (v : value) (width : nat) : str := lit "<padded>".
Definition nonzero (repr : str) : bool := true.

(** [main] in that setting. *)
Definition main (server : Server) (environ : dict str) (args : Command)
    : Exit * Console :=
  Cli.main server environ files clock dumps message pad nonzero args console.

End Mock.

(* ================================================================== *)
(** ** Key identifiers *)
(* ================================================================== *)

Lemma hex_digitb_spec (c : char) : hex_digitb c = true <-> hex_digit c.
Proof.
  unfold hex_digitb, hex_digit.
  rewrite !orb_true_iff, !andb_true_iff, !N.leb_le. tauto.
Qed.

Lemma str_in_char (c : char) (x : str) :
  str_in [c] x = existsb (N.eqb c) x.
Proof.
  induction x as [|d x IH]; cbn; [reflexivity|].
  rewrite <- IH. destruct (N.eqb c d); cbn; [|reflexivity].
  destruct x; reflexivity.
Qed.

(** A property of the code points below a bound can be checked by
    running through them. *)
Lemma below_forallb (P : N -> bool) (n : nat) :
  forallb P (List.map N.of_nat (seq 0 n)) = true ->
  forall c, (c < N.of_nat n)%N -> P c = true.
Proof.
  intros H c Hc. rewrite forallb_forall in H. apply H.
  apply in_map_iff. exists (N.to_nat c). split; [apply N2Nat.id|].
  apply in_seq. lia.
Qed.

Lemma in_hexdigits (c : char) : str_in [c] hexdigits = hex_digitb c.
Proof.
  destruct (N.ltb_spec c 128) as [Hlt|Hge].
  - apply eqb_prop.
    revert c Hlt.
    apply (below_forallb
             (fun c => Bool.eqb (str_in [c] hexdigits) (hex_digitb c)) 128).
    vm_compute. reflexivity.
  - transitivity false.
    + rewrite str_in_char. apply not_true_is_false. intro H.
      apply existsb_exists in H. destruct H as [d [Hin Heq]].
      apply N.eqb_eq in Heq. subst d. vm_compute in Hin.
      repeat (destruct Hin as [Hin|Hin];
              [subst c; vm_compute in Hge; apply Hge; reflexivity|]).
      exact Hin.
    + symmetry. apply not_true_is_false. intro H.
      apply hex_digitb_spec in H. unfold hex_digit in H. lia.
Qed.

Lemma all_chars_hex (key_id : str) :
  all_chars (fun c => str_in c hexdigits) key_id = true
  <-> Forall hex_digit key_id.
Proof.
  unfold all_chars. rewrite forallb_forall, Forall_forall.
  split; intros H c Hc.
  - apply hex_digitb_spec. rewrite <- in_hexdigits. auto.
  - rewrite in_hexdigits. apply hex_digitb_spec. auto.
Qed.

(** C1. [_validate_key_id] raises [ValueError] (the spec's
    InvalidArgument) on every string whose length is not 16 and on every
    string that contains a character outside 0-9, A-F, a-f; it returns
    normally on every string of exactly 16 hexadecimal digits of either
    case. *)
Theorem validate_key_id_spec (key_id : str) :
  (len key_id <> 16 \/ Exists (fun c => ~ hex_digit c) key_id ->
   exists msg, _validate_key_id key_id = Raise (ValueError msg))
  /\ (len key_id = 16 /\ Forall hex_digit key_id ->
      _validate_key_id key_id = Ok tt).
Proof.
  unfold _validate_key_id. split.
  - intros H. destruct (Nat.eqb_spec (len key_id) 16) as [E|E]; cbn.
    + destruct (all_chars _ key_id) eqn:A; cbn; [|eauto].
      exfalso. destruct H as [H|H]; [auto|].
      apply all_chars_hex in A. apply Exists_exists in H.
      destruct H as [c [Hc Hn]]. rewrite Forall_forall in A. auto.
    + eauto.
  - intros [E A]. apply all_chars_hex in A.
    rewrite E, A. reflexivity.
Qed.

Lemma validate_key_id_witness :
  _validate_key_id (lit "0123456789abcDEF") = Ok tt
  /\ (exists msg, _validate_key_id (lit "0123") = Raise (ValueError msg))
  /\ (exists msg,
        _validate_key_id (lit "0123456789abcdeg") = Raise (ValueError msg)).
Proof.
  split; [|split].
  - apply (proj2 (validate_key_id_spec (lit "0123456789abcDEF"))).
    split; [reflexivity|].
    repeat constructor; unfold hex_digit; cbn; lia.
  - apply (proj1 (validate_key_id_spec (lit "0123"))).
    left. cbn. lia.
  - apply (proj1 (validate_key_id_spec (lit "0123456789abcdeg"))).
    right. apply Exists_exists. exists 103%N. split.
    + cbn. tauto.
    + unfold hex_digit. lia.
Defined.

(* ================================================================== *)
(** ** The retry loop *)
(* ================================================================== *)

Lemma attempts_app (h1 h2 : list Event) :
  attempts (h1 ++ h2) = attempts h1 ++ attempts h2.
Proof. apply flat_map_app. Qed.

Lemma calls_app (h1 h2 : list Event) :
  calls (h1 ++ h2) = calls h1 ++ calls h2.
Proof. apply flat_map_app. Qed.

Lemma in_attempts (h : list Event) (k : nat) (q : Request) (a : Response) :
  In (k, q, a) (attempts h) <-> In (Attempt k q a) h.
Proof.
  unfold attempts. rewrite in_flat_map. split.
  - intros [[j r b|t] [Hin Hx]]; cbn in Hx; [|contradiction].
    destruct Hx as [Hx|[]]. injection Hx as -> -> ->. exact Hin.
  - intros Hin. exists (Attempt k q a). split; [exact Hin|left; reflexivity].
Qed.

Lemma world_eta (w : World) :
  w = {| wire := wire w ++ []; stdout := stdout w |}.
Proof. destruct w; cbn. rewrite app_nil_r. reflexivity. Qed.

Section RetryLoop.

Variable server : Server.
Variable p : Retry.
Variable req : Request.

Lemma urlopen_eq (left history : nat) (w : World) :
  urlopen server p left history req w =
  let a := server (wire w) req in
  let w1 := emit (Attempt history req a) w in
  if retried_at p req left a then
    match left with
    | 0 => if raise_on_status p then (Raise RetryError, w1) else (Ok a, w1)
    | S left' =>
        urlopen server p left' (S history) req (sleep p (S history) a w1)
    end
  else (Ok a, w1).
Proof. destruct left; reflexivity. Qed.

(** Sleeping puts at most one [Sleep] on the wire and nothing else. *)
Lemma sleep_frame (history : nat) (a : Response) (w : World) :
  exists evs,
    sleep p history a w = {| wire := wire w ++ evs; stdout := stdout w |}
    /\ attempts evs = [] /\ calls evs = [].
Proof.
  assert (B : exists evs,
             _sleep_backoff p history w
             = {| wire := wire w ++ evs; stdout := stdout w |}
             /\ attempts evs = [] /\ calls evs = []).
  { unfold _sleep_backoff.
    destruct (N.leb (get_backoff_time p history) 0).
    - exists []. split; [apply world_eta|split; reflexivity].
    - eexists [_]. split; [reflexivity|split; reflexivity]. }
  unfold sleep.
  destruct (respect_retry_after_header p); [|exact B].
  destruct (get_retry_after p a) as [[|s]|]; try exact B.
  eexists [_]. split; [reflexivity|split; reflexivity].
Qed.

(** Induction along the retry loop: a property that holds when the loop
    stops on an answer, when it gives up, and that passes from a retry
    to the attempt that launched it, holds of every call. *)
Lemma urlopen_ind
    (P : nat -> nat -> World -> result Response * World -> Prop) :
  (forall left history w,
      let a := server (wire w) req in
      retried_at p req left a = false ->
      P left history w (Ok a, emit (Attempt history req a) w)) ->
  (forall history w,
      let a := server (wire w) req in
      retried_at p req 0 a = true ->
      P 0 history w
        (if raise_on_status p
         then (Raise RetryError, emit (Attempt history req a) w)
         else (Ok a, emit (Attempt history req a) w))) ->
  (forall left history w,
      let a := server (wire w) req in
      let w2 := sleep p (S history) a (emit (Attempt history req a) w) in
      retried_at p req (S left) a = true ->
      P left (S history) w2 (urlopen server p left (S history) req w2) ->
      P (S left) history w (urlopen server p left (S history) req w2)) ->
  forall left history w,
    P left history w (urlopen server p left history req w).
Proof.
  intros Hstop Hout Hretry.
  induction left as [|left IH]; intros history w; rewrite urlopen_eq; cbv zeta.
  - destruct (retried_at p req 0 (server (wire w) req)) eqn:E.
    + apply Hout. exact E.
    + apply Hstop. exact E.
  - destruct (retried_at p req (S left) (server (wire w) req)) eqn:E.
    + apply Hretry; [exact E|apply IH].
    + apply Hstop. exact E.
Qed.

(** The shape of every call: some retried attempts, then a last attempt
    whose answer decides the result; standard output is not touched. *)
Lemma urlopen_run (left history : nat) (w : World) :
  exists evs a n,
    snd (urlopen server p left history req w)
    = {| wire := wire w ++ evs ++ [Attempt (history + n) req a];
         stdout := stdout w |}
    /\ n <= left
    /\ List.map (fun x => fst (fst x)) (attempts evs) = seq history n
    /\ Forall (retried_event p req) evs
    /\ ended p req left n a (fst (urlopen server p left history req w)).
Proof.
  revert left history w.
  apply (urlopen_ind
           (fun left history w run =>
              exists evs a n,
                snd run
                = {| wire := wire w ++ evs ++ [Attempt (history + n) req a];
                     stdout := stdout w |}
                /\ n <= left
                /\ List.map (fun x => fst (fst x)) (attempts evs)
                   = seq history n
                /\ Forall (retried_event p req) evs
                /\ ended p req left n a (fst run))).
  - intros left history w a E. exists [], a, 0. cbn [fst snd app].
    rewrite Nat.add_0_r.
    split; [reflexivity|]. split; [lia|]. split; [reflexivity|].
    split; [constructor|].
    left. rewrite Nat.sub_0_r. auto.
  - intros history w a E. exists [], a, 0. rewrite Nat.add_0_r.
    destruct (raise_on_status p) eqn:R; cbn [fst snd app];
      (split; [reflexivity|]; split; [lia|]; split; [reflexivity|];
       split; [constructor|]).
    + right. auto.
    + left. auto.
  - intros left history w a w2 E [evs [b [n [Hw [Hn [Hl [Hf He]]]]]]].
    destruct (sleep_frame (S history) a (emit (Attempt history req a) w))
      as [sl [Hs [Hsa _]]].
    fold w2 in Hs.
    assert (He' : ended p req (S left) (S n) b
                    (fst (urlopen server p left (S history) req w2))).
    { unfold ended in *. cbn [Nat.sub].
      destruct He as [[H1 [H2|[H2 H3]]]|[H1 [H2 [H3 H4]]]];
        [left|left|right]; subst; auto. }
    exists (Attempt history req a :: sl ++ evs), b, (S n).
    split; [|split; [|split; [|split; [|exact He']]]].
    1: rewrite Hw, Hs; cbn [wire stdout emit].
    + rewrite <- !app_assoc. cbn [app].
      replace (S history + n) with (history + S n) by lia.
      rewrite <- app_assoc. reflexivity.
    + lia.
    + cbn [attempts flat_map app].
      fold (attempts (sl ++ evs)). rewrite attempts_app, Hsa. cbn.
      f_equal. exact Hl.
    + constructor.
      * split; [reflexivity|eauto].
      * apply Forall_app. split; [|exact Hf].
        clear - Hsa. induction sl as [|[k q c|s] sl IH]; constructor;
          cbn in *; try discriminate; auto.
Qed.

(** The first thing a call does is send the request. *)
Lemma urlopen_first (left history : nat) (w : World) :
  exists rest,
    wire (snd (urlopen server p left history req w))
    = wire w ++ Attempt history req (server (wire w) req) :: rest.
Proof.
  destruct left as [|left]; rewrite urlopen_eq; cbv zeta.
  - destruct (retried_at p req 0 _); [destruct (raise_on_status p)|];
      exists []; reflexivity.
  - destruct (retried_at p req (S left) _); [|exists []; reflexivity].
    set (a := server (wire w) req).
    destruct (urlopen_run left (S history)
                (sleep p (S history) a (emit (Attempt history req a) w)))
      as [evs [b [n [Hw _]]]].
    destruct (sleep_frame (S history) a (emit (Attempt history req a) w))
      as [sl [Hs _]].
    rewrite Hw, Hs. cbn [wire stdout emit].
    eexists. rewrite <- !app_assoc. cbn [app]. reflexivity.
Qed.

(** Retries are not calls: a call started afresh counts once. *)
Lemma urlopen_calls (left history : nat) (w : World) :
  calls (wire (snd (urlopen server p left history req w)))
  = calls (wire w) ++ match history with 0 => [req] | S _ => [] end.
Proof.
  revert left history w.
  apply (urlopen_ind
           (fun left history w run =>
              calls (wire (snd run))
              = calls (wire w)
                  ++ match history with 0 => [req] | S _ => [] end)).
  - intros left history w a _. cbn [snd emit wire]. rewrite calls_app.
    destruct history; reflexivity.
  - intros history w a _.
    destruct (raise_on_status p); cbn [snd emit wire]; rewrite calls_app;
      destruct history; reflexivity.
  - intros left history w a w2 _ IH. rewrite IH.
    destruct (sleep_frame (S history) a (emit (Attempt history req a) w))
      as [sl [Hs [_ Hc]]].
    fold w2 in Hs. rewrite Hs. cbn [wire emit].
    rewrite !calls_app, Hc, !app_nil_r.
    destruct history; reflexivity.
Qed.

End RetryLoop.

(* ================================================================== *)
(** ** One call through the session *)
(* ================================================================== *)

Section SessionCall.

Variable server : Server.
Variable s : Session.
Variable req : Request.

(** A call is one or more attempts of the same request, at most one more
    than the policy's [total]; it counts as one call. *)
Lemma request_attempts (w : World) :
  exists evs,
    extends w evs (snd (request server s req w))
    /\ 1 <= List.length (attempts evs) <= S (total (max_retries s))
    /\ calls evs = [req]
    /\ Forall (fun x => snd (fst x) = req) (attempts evs).
Proof.
  unfold request.
  destruct (urlopen_run server (max_retries s) req
              (total (max_retries s)) 0 w)
    as [evs [a [n [Hw [Hn [Hl [Hf _]]]]]]].
  exists (evs ++ [Attempt (0 + n) req a]).
  split; [exact Hw|]. split; [|split].
  - rewrite attempts_app, length_app.
    rewrite <- (length_map (fun x => fst (fst x))), Hl, length_seq. cbn. lia.
  - pose proof (urlopen_calls server (max_retries s) req
                  (total (max_retries s)) 0 w) as Hc.
    rewrite Hw in Hc. cbn [wire] in Hc. rewrite calls_app in Hc.
    apply app_inv_head in Hc. exact Hc.
  - rewrite attempts_app. apply Forall_app. split.
    + clear - Hf. induction Hf as [|e evs He _ IH]; [constructor|].
      destruct e as [k q b|t]; cbn; [|exact IH].
      constructor; [exact (proj1 He)|exact IH].
    + repeat constructor.
Qed.

(** An answer the policy never retries ends the call, and is what the
    call returns. *)
Lemma request_stops (w : World) (evs : list Event) (k : nat) (a : Response) :
  extends w evs (snd (request server s req w)) ->
  In (Attempt k req a) evs ->
  final s req a ->
  fst (request server s req w) = Ok a
  /\ exists evs0, evs = evs0 ++ [Attempt k req a].
Proof.
  unfold request, extends. intros Hx Hin Hfin.
  destruct (urlopen_run server (max_retries s) req
              (total (max_retries s)) 0 w)
    as [evs' [b [n [Hw [Hn [Hl [Hf He]]]]]]].
  rewrite Hw in Hx. injection Hx as Hx. apply app_inv_head in Hx. subst evs.
  apply in_app_or in Hin. destruct Hin as [Hin|[Hin|[]]].
  - rewrite Forall_forall in Hf. destruct (Hf _ Hin) as [_ [l Hl']].
    rewrite Hfin in Hl'. discriminate.
  - injection Hin as Hk Ha. subst b. split; [|exists evs'; congruence].
    destruct He as [[He _]|[_ [He _]]]; [exact He|].
    rewrite Hfin in He. discriminate.
Qed.

(** An answer the policy retries is followed by the next attempt, as
    long as a retry is left. *)
Lemma request_retries (w : World) (evs : list Event) (k : nat) (a : Response) :
  extends w evs (snd (request server s req w)) ->
  In (Attempt k req a) evs ->
  retried_at (max_retries s) req (total (max_retries s) - k) a = true ->
  k < total (max_retries s) ->
  exists b, In (Attempt (S k) req b) evs.
Proof.
  unfold request, extends. intros Hx Hin Hre Hk.
  destruct (urlopen_run server (max_retries s) req
              (total (max_retries s)) 0 w)
    as [evs' [b [n [Hw [Hn [Hl [Hf He]]]]]]].
  rewrite Hw in Hx. injection Hx as Hx. apply app_inv_head in Hx. subst evs.
  apply in_app_or in Hin. destruct Hin as [Hin|[Hin|[]]].
  - assert (Hkn : k < n).
    { apply in_attempts in Hin.
      apply (in_map (fun x => fst (fst x))) in Hin. rewrite Hl in Hin.
      apply in_seq in Hin. cbn in Hin. lia. }
    destruct (Nat.eq_dec (S k) n) as [E|E].
    + exists b. apply in_or_app. right. left. rewrite E. reflexivity.
    + assert (Hs : In (S k) (seq 0 n)) by (apply in_seq; lia).
      rewrite <- Hl in Hs. apply in_map_iff in Hs.
      destruct Hs as [[[j q] c] [Hj Hc]]. cbn in Hj. subst j.
      apply in_attempts in Hc. exists c. apply in_or_app. left.
      rewrite Forall_forall in Hf. destruct (Hf _ Hc) as [Hq _].
      rewrite <- Hq. exact Hc.
  - injection Hin as Hk' Ha. subst b. cbn in Hk'. subst k.
    destruct He as [[_ [He|[_ He]]]|[_ [_ [He _]]]]; [|lia|lia].
    rewrite He in Hre. discriminate.
Qed.

(** A call raises only [RetryError], and only after the last retry the
    policy allows was answered by a status of its force list. *)
Lemma request_raises (w : World) (evs : list Event) (e : exn) :
  extends w evs (snd (request server s req w)) ->
  fst (request server s req w) = Raise e ->
  e = RetryError
  /\ List.length (attempts evs) = S (total (max_retries s))
  /\ exists evs0 a,
       evs = evs0 ++ [Attempt (total (max_retries s)) req a]
       /\ retried_at (max_retries s) req 0 a = true.
Proof.
  unfold request, extends. intros Hx Hr.
  destruct (urlopen_run server (max_retries s) req
              (total (max_retries s)) 0 w)
    as [evs' [b [n [Hw [Hn [Hl [Hf He]]]]]]].
  rewrite Hw in Hx. injection Hx as Hx. apply app_inv_head in Hx. subst evs.
  rewrite Hr in He. destruct He as [[He _]|[He [Hb [Hn' _]]]];
    [discriminate|].
  injection He as He. subst e. rewrite Hn' in *.
  split; [reflexivity|]. split.
  - rewrite attempts_app, length_app.
    rewrite <- (length_map (fun x => fst (fst x))), Hl, length_seq. cbn. lia.
  - exists evs', b. split; [reflexivity|exact Hb].
Qed.

End SessionCall.

(** With 429 and 503 forced and the Retry-After statuses of urllib3,
    only 413, 429 and 503 can ever be retried. *)
Lemma is_retry_only (left : nat) (m : Method) (code : Z) (ra : bool) :
  is_retry retry_strategy left m code ra = true ->
  (code = 413 \/ code = 429 \/ code = 503)%Z.
Proof.
  unfold is_retry, retry_strategy, status_in; cbn.
  destruct m; cbn;
    destruct (Z.eqb_spec code 429); auto;
    destruct (Z.eqb_spec code 503); auto;
    destruct (Z.eqb_spec code 413); auto;
    cbn; rewrite ?andb_false_r; discriminate.
Qed.

(** Once no retry is left, only the forced statuses count. *)
Lemma is_retry_exhausted (m : Method) (code : Z) (ra : bool) :
  is_retry retry_strategy 0 m code ra = true ->
  (code = 429 \/ code = 503)%Z.
Proof.
  unfold is_retry, retry_strategy, status_in; cbn.
  destruct m; cbn;
    destruct (Z.eqb_spec code 429); auto;
    destruct (Z.eqb_spec code 503); auto;
    cbn; discriminate.
Qed.

(** 429 and 503 are retried for each of GET, POST and DELETE while a
    retry is left. *)
Lemma is_retry_forced (left : nat) (m : Method) (code : Z) (ra : bool) :
  (code = 429 \/ code = 503)%Z ->
  is_retry retry_strategy left m code ra = true.
Proof.
  intros [E|E]; subst code; destruct m; reflexivity.
Qed.

Lemma final_status (req : Request) (a : Response) :
  (status_code a <> 413 /\ status_code a <> 429 /\ status_code a <> 503)%Z ->
  final _create_session req a.
Proof.
  intros H left. unfold retried_at. apply not_true_is_false. intro R.
  apply is_retry_only in R. lia.
Qed.

(* ================================================================== *)
(** ** Retries *)
(* ================================================================== *)

(** C2, as the code has it.  For every request sent through the client's
    session, whatever its method (GET, POST or DELETE) and whatever the
    server does: the call makes at least one and at most 4 HTTP
    attempts, the first and up to 3 retries ([total=3] counts retries);
    an attempt answered 429 or 503 is followed by the next attempt as
    long as fewer than 3 retries were made; an attempt answered by a
    success status, the first or a retried one, ends the call, which
    returns that response without an error; and the call surfaces an
    error only as [RetryError], after a 4th attempt was answered 429 or
    503 too. *)
Theorem session_retry_contract (server : Server) (req : Request) (w : World) :
  let run := request server _create_session req w in
  exists evs,
    extends w evs (snd run)
    /\ 1 <= List.length (attempts evs) <= 4
    /\ (forall k a,
          In (Attempt k req a) evs -> transient a -> k < 3 ->
          exists b, In (Attempt (S k) req b) evs)
    /\ (forall k a,
          In (Attempt k req a) evs -> success a ->
          fst run = Ok a /\ exists evs0, evs = evs0 ++ [Attempt k req a])
    /\ (forall e,
          fst run = Raise e ->
          e = RetryError
          /\ List.length (attempts evs) = 4
          /\ exists evs0 a, evs = evs0 ++ [Attempt 3 req a] /\ transient a).
Proof.
  cbv zeta.
  destruct (request_attempts server _create_session req w)
    as [evs [Hx [Hn _]]].
  exists evs. split; [exact Hx|]. split; [exact Hn|]. split; [|split].
  - intros k a Hin Ht Hk.
    apply (@request_retries server _create_session req w evs k a Hx Hin);
      [|exact Hk].
    apply is_retry_forced. exact Ht.
  - intros k a Hin Hs.
    apply (@request_stops server _create_session req w evs k a Hx Hin).
    apply final_status. unfold success in Hs. lia.
  - intros e He.
    destruct (@request_raises server _create_session req w evs e Hx He)
      as [E [Hl [evs0 [a [Hevs Hr]]]]].
    split; [exact E|]. split; [exact Hl|].
    exists evs0, a. split; [exact Hevs|].
    apply is_retry_exhausted in Hr. exact Hr.
Qed.

(** A GET answered 429, 503 and then 200: the third attempt succeeds and
    is returned. *)
Lemma session_retry_contract_witness :
  let server := Mock.scripted [Mock.answer 429 None; Mock.answer 503 None]
                  (Mock.answer 200 (Some (VDict []))) in
  let req := {| method := GET; url := lit "https://h/admin/keys";
                headers := []; params := []; json_payload := None |} in
  fst (request server _create_session req Mock.fresh)
  = Ok (Mock.answer 200 (Some (VDict []))).
Proof.
  intros server req.
  destruct (session_retry_contract server req Mock.fresh)
    as [evs [Hx [_ [_ [Hs _]]]]].
  apply (Hs 2 (Mock.answer 200 (Some (VDict [])))).
  - injection Hx as Hx. rewrite <- Hx. vm_compute. tauto.
  - unfold success. cbn. lia.
Defined.

(** C2, as stated, fails: with three busy answers and then a success,
    [list_keys] makes a fourth attempt, and succeeds on it. *)
Lemma fourth_attempt_counterexample :
  let server :=
    Mock.scripted [Mock.answer 429 None; Mock.answer 429 None;
                   Mock.answer 429 None]
      (Mock.answer 200 (Some (VDict []))) in
  let run := list_keys server Mock.client Mock.fresh in
  fst run = Ok (VList [])
  /\ List.length (attempts (wire (snd run))) = 4
  /\ ~ List.length (attempts (wire (snd run))) <= 3.
Proof.
  vm_compute. split; [reflexivity|]. split; [reflexivity|].
  intro H. repeat (apply le_S_n in H). inversion H.
Qed.

(* ================================================================== *)
(** ** Each operation is one call through the session *)
(* ================================================================== *)

Section Shapes.

Variable server : Server.
Variable self : GPGSigningServiceClient.

Ltac settle_call :=
  match goal with
  | |- context [request ?srv ?s ?q ?w] =>
      destruct (request srv s q w) as [[a|e] w'] eqn:Hrun; cbn;
      [destruct (raise_for_status a); reflexivity|reflexivity]
  end.

(** A key id that does not pass validation stops [upload_key] and
    [delete_key] where they stand. *)
Lemma upload_key_invalid (key_id armored : str) (e : exn) (w : World) :
  _validate_key_id key_id = Raise e ->
  upload_key server self key_id armored w = (Raise e, w).
Proof. intros H. unfold upload_key, bind, lift. rewrite H. reflexivity. Qed.

Lemma delete_key_invalid (key_id : str) (e : exn) (w : World) :
  _validate_key_id key_id = Raise e ->
  delete_key server self key_id w = (Raise e, w).
Proof. intros H. unfold delete_key, bind, lift. rewrite H. reflexivity. Qed.

(** So does a missing token. *)
Lemma upload_key_no_token (key_id armored : str) (e : exn) (w : World) :
  _validate_key_id key_id = Ok tt ->
  _admin_headers self = Raise e ->
  upload_key server self key_id armored w = (Raise e, w).
Proof.
  intros Hv Hh. unfold upload_key, bind, lift. rewrite Hv, Hh. reflexivity.
Qed.

Lemma delete_key_no_token (key_id : str) (e : exn) (w : World) :
  _validate_key_id key_id = Ok tt ->
  _admin_headers self = Raise e ->
  delete_key server self key_id w = (Raise e, w).
Proof.
  intros Hv Hh. unfold delete_key, bind, lift. rewrite Hv, Hh. reflexivity.
Qed.

(** Otherwise each operation is one call through the session, settled. *)
Lemma upload_key_eq (key_id armored : str) (hdrs : dict str) (w : World) :
  _validate_key_id key_id = Ok tt ->
  _admin_headers self = Ok hdrs ->
  let run := request server (session self)
               (upload_request self key_id armored hdrs) w in
  upload_key server self key_id armored w
  = (settle (fst run) response_json, snd run).
Proof.
  intros Hv Hh. unfold upload_key, bind, lift, post, settle.
  rewrite Hv, Hh. fold (upload_request self key_id armored hdrs). cbv zeta.
  settle_call.
Qed.

Lemma delete_key_eq (key_id : str) (hdrs : dict str) (w : World) :
  _validate_key_id key_id = Ok tt ->
  _admin_headers self = Ok hdrs ->
  let run := request server (session self)
               (delete_request self key_id hdrs) w in
  delete_key server self key_id w = (settle (fst run) response_json, snd run).
Proof.
  intros Hv Hh. unfold delete_key, bind, lift, delete, settle.
  rewrite Hv, Hh. fold (delete_request self key_id hdrs). cbv zeta.
  settle_call.
Qed.

Lemma get_public_key_eq (key_id : str) (hdrs : dict str) (w : World) :
  _admin_headers self = Ok hdrs ->
  let run := request server (session self)
               (public_key_request self key_id hdrs) w in
  get_public_key server self key_id w
  = (settle (fst run) (fun a => Ok (text a)), snd run).
Proof.
  intros Hh. unfold get_public_key, bind, lift, get, ret, settle.
  rewrite Hh. fold (public_key_request self key_id hdrs). cbv zeta.
  settle_call.
Qed.

Lemma get_audit_logs_eq (action subject start_date end_date : option str)
    (limit offset : Z) (hdrs : dict str) (w : World) :
  _admin_headers self = Ok hdrs ->
  let ps := audit_params action subject start_date end_date limit offset in
  let run := request server (session self) (audit_request self ps hdrs) w in
  get_audit_logs server self action subject start_date end_date limit offset w
  = (settle (fst run) response_json, snd run).
Proof.
  intros Hh. unfold get_audit_logs, bind, lift, get, settle.
  rewrite Hh. cbv zeta.
  fold (audit_request self
          (audit_params action subject start_date end_date limit offset) hdrs).
  settle_call.
Qed.

Lemma list_keys_eq (hdrs : dict str) (w : World) :
  _admin_headers self = Ok hdrs ->
  let run := request server (session self) (list_request self hdrs) w in
  list_keys server self w = (settle (fst run) keys_of, snd run).
Proof.
  intros Hh. unfold list_keys, bind, lift, get, ret, settle, keys_of.
  rewrite Hh. fold (list_request self hdrs). cbv zeta.
  destruct (request server (session self) (list_request self hdrs) w)
    as [[a|e] w'] eqn:Hrun; cbn; [|reflexivity].
  destruct (raise_for_status a); [|reflexivity].
  destruct (response_json a) as [[| | | | | |fields]|]; try reflexivity.
  destruct (dict_get _ fields); reflexivity.
Qed.

End Shapes.

Lemma raise_for_status_success (a : Response) :
  success a -> raise_for_status a = Ok tt.
Proof.
  unfold success, raise_for_status. intros H.
  replace (400 <=? status_code a)%Z with false
    by (symmetry; apply Z.leb_gt; lia).
  replace (500 <=? status_code a)%Z with false
    by (symmetry; apply Z.leb_gt; lia).
  reflexivity.
Qed.

Lemma raise_for_status_404 (a : Response) :
  status_code a = 404%Z -> raise_for_status a = Raise (HTTPError a).
Proof. unfold raise_for_status. intros ->. reflexivity. Qed.

(* ================================================================== *)
(** ** Validation comes before the network *)
(* ================================================================== *)

(** C3. For every key id that [_validate_key_id] rejects, [upload_key]
    and [delete_key] raise the validation's [ValueError] and leave the
    world as it was: nothing is put on the wire, so the server sees no
    request and its state cannot change. *)
Theorem invalid_key_id_no_request (server : Server)
    (self : GPGSigningServiceClient) (key_id armored : str) (w : World) :
  _validate_key_id key_id <> Ok tt ->
  exists msg,
    _validate_key_id key_id = Raise (ValueError msg)
    /\ upload_key server self key_id armored w = (Raise (ValueError msg), w)
    /\ delete_key server self key_id w = (Raise (ValueError msg), w).
Proof.
  intros H.
  assert (E : exists msg, _validate_key_id key_id = Raise (ValueError msg)).
  { revert H. unfold _validate_key_id.
    destruct (negb (Nat.eqb (len key_id) 16)); [eauto|].
    destruct (negb (all_chars _ key_id)); [eauto|].
    intros H. exfalso. apply H. reflexivity. }
  destruct E as [msg E]. exists msg. split; [exact E|]. split.
  - apply upload_key_invalid. exact E.
  - apply delete_key_invalid. exact E.
Qed.

(** A 15-character id reaches neither endpoint, even on a wire with a
    server ready to answer. *)
Lemma invalid_key_id_no_request_witness :
  let server := Mock.scripted [] (Mock.answer 200 (Some Mock.uploaded)) in
  exists msg,
    _validate_key_id (lit "0123456789ABCDE") = Raise (ValueError msg)
    /\ upload_key server Mock.client (lit "0123456789ABCDE") (lit "KEY")
         Mock.fresh
       = (Raise (ValueError msg), Mock.fresh)
    /\ delete_key server Mock.client (lit "0123456789ABCDE") Mock.fresh
       = (Raise (ValueError msg), Mock.fresh).
Proof.
  intros server.
  apply (invalid_key_id_no_request server Mock.client
           (lit "0123456789ABCDE") (lit "KEY") Mock.fresh).
  vm_compute. discriminate.
Defined.

(* ================================================================== *)
(** ** A 404 on delete *)
(* ================================================================== *)

(** C8. For a client with the session [_create_session] builds, a valid
    key id and a token: when the server answers the DELETE with 404,
    [delete_key] raises [HTTPError] carrying that response after exactly
    one HTTP attempt; and a 404 answer to any attempt of the call is the
    last event of the call and is what is raised, so no attempt ever
    follows a 404. *)
Theorem delete_key_404_not_retried (server : Server)
    (self : GPGSigningServiceClient) (key_id : str) (hdrs : dict str)
    (w : World) :
  session self = _create_session ->
  _validate_key_id key_id = Ok tt ->
  _admin_headers self = Ok hdrs ->
  let req := delete_request self key_id hdrs in
  let run := delete_key server self key_id w in
  (forall a,
      server (wire w) req = a -> status_code a = 404%Z ->
      run = (Raise (HTTPError a), emit (Attempt 0 req a) w))
  /\ (forall evs k a,
        extends w evs (snd run) ->
        In (Attempt k req a) evs -> status_code a = 404%Z ->
        fst run = Raise (HTTPError a)
        /\ exists evs0, evs = evs0 ++ [Attempt k req a]).
Proof.
  intros Hs Hv Hh req run. subst run.
  rewrite (delete_key_eq server self key_id w Hv Hh). fold req.
  rewrite Hs. cbn [fst snd]. split.
  - intros a Ha H404. unfold request.
    rewrite urlopen_eq. cbv zeta. rewrite Ha.
    replace (retried_at (max_retries _create_session) req
               (total (max_retries _create_session)) a) with false.
    + cbn [fst snd settle]. rewrite (raise_for_status_404 a H404).
      reflexivity.
    + symmetry. apply final_status. lia.
  - intros evs k a Hx Hin H404.
    destruct (@request_stops server _create_session req w evs k a Hx Hin)
      as [Hr Hl].
    + apply final_status. lia.
    + rewrite Hr. cbn [settle]. rewrite (raise_for_status_404 a H404).
      split; [reflexivity|exact Hl].
Qed.

Lemma delete_key_404_not_retried_witness :
  let server := Mock.scripted [] (Mock.answer 404 None) in
  exists req,
    delete_key server Mock.client (lit "0123456789ABCDEF") Mock.fresh
    = (Raise (HTTPError (Mock.answer 404 None)),
       {| wire := [Attempt 0 req (Mock.answer 404 None)]; stdout := [] |}).
Proof.
  intros server. eexists.
  refine (proj1 (@delete_key_404_not_retried server Mock.client
                   (lit "0123456789ABCDEF") _ Mock.fresh _ _ _)
            (Mock.answer 404 None) _ _);
    reflexivity.
Defined.

(* ================================================================== *)
(** ** Listing keys and fetching a public key *)
(* ================================================================== *)

(** C7. Whenever the session hands [list_keys] a 2xx response whose JSON
    body is an object without a [keys] field, [list_keys] returns the
    empty list, not an error. *)
Theorem list_keys_without_keys_field (server : Server)
    (self : GPGSigningServiceClient) (hdrs : dict str) (w w' : World)
    (a : Response) (fields : list (str * value)) :
  _admin_headers self = Ok hdrs ->
  request server (session self) (list_request self hdrs) w = (Ok a, w') ->
  success a ->
  json a = Some (VDict fields) ->
  dict_get (lit "keys") fields = None ->
  list_keys server self w = (Ok (VList []), w').
Proof.
  intros Hh Hrun Hs Hj Hk.
  rewrite (list_keys_eq server self w Hh). cbv zeta. rewrite Hrun.
  cbn [fst snd settle]. rewrite (raise_for_status_success Hs).
  unfold keys_of, response_json. rewrite Hj, Hk. reflexivity.
Qed.

(** The body [{}] on a 200. *)
Lemma list_keys_without_keys_field_witness :
  let server := Mock.scripted [] (Mock.answer 200 (Some (VDict []))) in
  exists w',
    list_keys server Mock.client Mock.fresh = (Ok (VList []), w').
Proof.
  intros server. eexists.
  eapply (@list_keys_without_keys_field server Mock.client _ Mock.fresh _
            (Mock.answer 200 (Some (VDict []))) []).
  - reflexivity.
  - vm_compute. reflexivity.
  - unfold success. cbn. lia.
  - reflexivity.
  - reflexivity.
Defined.

(** C9. [get_public_key] takes any string for a key id: it does not
    call [_validate_key_id]; given a token, the first thing it does is
    send a GET to [/admin/keys/{key_id}/public] under the base URL, and
    whenever the session hands it a 2xx response it returns that
    response's text unchanged. *)
Theorem get_public_key_unvalidated (server : Server)
    (self : GPGSigningServiceClient) (key_id : str) (hdrs : dict str)
    (w : World) :
  _admin_headers self = Ok hdrs ->
  let req := public_key_request self key_id hdrs in
  let run := get_public_key server self key_id w in
  (exists rest,
      wire (snd run) = wire w ++ Attempt 0 req (server (wire w) req) :: rest)
  /\ (forall a w',
        request server (session self) req w = (Ok a, w') ->
        success a ->
        run = (Ok (text a), w')).
Proof.
  intros Hh req run. subst run.
  rewrite (get_public_key_eq server self key_id w Hh). fold req.
  cbn [fst snd]. split.
  - apply urlopen_first.
  - intros a w' Hrun Hs. rewrite Hrun. cbn [fst snd settle].
    rewrite (raise_for_status_success Hs). reflexivity.
Qed.

(** A key id that validation rejects is sent all the same, and the body
    of the answer comes back as it is. *)
Lemma get_public_key_unvalidated_witness :
  let page := {| status_code := 200; text := lit "-----BEGIN PGP-----";
                 json := None; retry_after := None |} in
  let server := Mock.scripted [] page in
  _validate_key_id (lit "no such key") <> Ok tt
  /\ exists w',
       get_public_key server Mock.client (lit "no such key") Mock.fresh
       = (Ok (lit "-----BEGIN PGP-----"), w').
Proof.
  intros page server. split; [vm_compute; discriminate|].
  eexists.
  refine (proj2 (@get_public_key_unvalidated server Mock.client
                   (lit "no such key") _ Mock.fresh _) page _ _ _).
  - reflexivity.
  - vm_compute. reflexivity.
  - unfold success. cbn. lia.
Defined.

(* ================================================================== *)
(** ** Audit log queries *)
(* ================================================================== *)

Ltac by_cases_on_filters :=
  repeat match goal with
         | o : option str |- _ => destruct o as [[|? ?]|]
         end;
  cbn; repeat split; try reflexivity.

Lemma audit_params_get (action subject start_date end_date : option str)
    (limit offset : Z) :
  let ps := audit_params action subject start_date end_date limit offset in
  dict_get (lit "limit") ps = Some (VInt limit)
  /\ dict_get (lit "offset") ps = Some (VInt offset)
  /\ dict_get (lit "action") ps = sent action
  /\ dict_get (lit "subject") ps = sent subject
  /\ dict_get (lit "startDate") ps = sent start_date
  /\ dict_get (lit "endDate") ps = sent end_date.
Proof. by_cases_on_filters. Qed.

Lemma audit_params_keys (action subject start_date end_date : option str)
    (limit offset : Z) :
  let ps := audit_params action subject start_date end_date limit offset in
  incl (List.map fst ps) (lit "limit" :: lit "offset" :: filter_keys).
Proof.
  repeat match goal with
         | o : option str |- _ => destruct o as [[|? ?]|]
         end;
    cbv zeta; intros k Hk; vm_compute in Hk; vm_compute; tauto.
Qed.

(** C4, as the code has it.  For every call to [get_audit_logs] (with a
    token, so that a request is sent): every HTTP attempt of the call
    carries the same query parameters; they hold [limit] and [offset] in
    every case; they hold an entry for [action], [subject], [startDate]
    or [endDate] exactly when the corresponding argument is a non-empty
    string, and then with that string as its value; and they hold no
    other key.  A filter left unset ([None]) never appears. *)
Theorem get_audit_logs_params (server : Server)
    (self : GPGSigningServiceClient)
    (action subject start_date end_date : option str) (limit offset : Z)
    (hdrs : dict str) (w : World) :
  _admin_headers self = Ok hdrs ->
  let ps := audit_params action subject start_date end_date limit offset in
  let run := get_audit_logs server self action subject start_date end_date
               limit offset w in
  (exists evs,
      extends w evs (snd run)
      /\ 1 <= List.length (attempts evs)
      /\ Forall (fun x => snd (fst x) = audit_request self ps hdrs)
           (attempts evs))
  /\ dict_get (lit "limit") ps = Some (VInt limit)
  /\ dict_get (lit "offset") ps = Some (VInt offset)
  /\ dict_get (lit "action") ps = sent action
  /\ dict_get (lit "subject") ps = sent subject
  /\ dict_get (lit "startDate") ps = sent start_date
  /\ dict_get (lit "endDate") ps = sent end_date
  /\ incl (List.map fst ps) (lit "limit" :: lit "offset" :: filter_keys).
Proof.
  intros Hh ps run. split.
  - subst run.
    rewrite (get_audit_logs_eq server self action subject start_date
               end_date limit offset w Hh).
    fold ps. cbn [snd].
    destruct (request_attempts server (session self)
                (audit_request self ps hdrs) w)
      as [evs [Hx [Hn [_ Hf]]]].
    exists evs. split; [exact Hx|]. split; [lia|exact Hf].
  - pose proof (audit_params_get action subject start_date end_date
                  limit offset) as H.
    pose proof (audit_params_keys action subject start_date end_date
                  limit offset) as K.
    cbv zeta in H, K. fold ps in H, K. tauto.
Qed.

(** A query by subject alone: [limit], [offset] and [subject] go out,
    in that order. *)
Lemma get_audit_logs_params_witness :
  let ps := audit_params None (Some (lit "ci")) None None 50 0 in
  List.map fst ps = [lit "limit"; lit "offset"; lit "subject"]
  /\ dict_get (lit "subject") ps = Some (VStr (lit "ci"))
  /\ dict_get (lit "action") ps = None.
Proof.
  intros ps.
  destruct (@get_audit_logs_params
              (Mock.scripted [] (Mock.answer 200 (Some (VDict []))))
              Mock.client None (Some (lit "ci")) None None 50 0
              _ Mock.fresh eq_refl)
    as [_ [_ [_ [Ha [Hs _]]]]].
  split; [reflexivity|]. split; [exact Hs|exact Ha].
Defined.

(** C4, as stated, fails: [action=""] is an argument that was provided,
    and the request that goes out has no [action] parameter. *)
Lemma provided_empty_filter_counterexample :
  let server := Mock.scripted [] (Mock.answer 200 (Some (VDict []))) in
  let action : option str := Some [] in
  let run := get_audit_logs server Mock.client action None None None 100 0
               Mock.fresh in
  action <> None
  /\ exists q a,
       wire (snd run) = [Attempt 0 q a]
       /\ dict_mem (lit "action") (params q) = false.
Proof.
  intros server action run. split; [discriminate|].
  eexists. eexists. split; vm_compute; reflexivity.
Qed.

(** C10. An optional filter passed as the empty string is treated as
    unset: [get_audit_logs] behaves exactly as with [None] in its place,
    for each of the four filters, and the query parameters have no entry
    for it. *)
Theorem get_audit_logs_empty_filter_is_unset (server : Server)
    (self : GPGSigningServiceClient)
    (action subject start_date end_date : option str) (limit offset : Z)
    (w : World) :
  let empty : option str := Some [] in
  (get_audit_logs server self empty subject start_date end_date
     limit offset w
   = get_audit_logs server self None subject start_date end_date
       limit offset w
   /\ dict_get (lit "action")
        (audit_params empty subject start_date end_date limit offset)
      = None)
  /\ (get_audit_logs server self action empty start_date end_date
        limit offset w
      = get_audit_logs server self action None start_date end_date
          limit offset w
      /\ dict_get (lit "subject")
           (audit_params action empty start_date end_date limit offset)
         = None)
  /\ (get_audit_logs server self action subject empty end_date
        limit offset w
      = get_audit_logs server self action subject None end_date
          limit offset w
      /\ dict_get (lit "startDate")
           (audit_params action subject empty end_date limit offset)
         = None)
  /\ (get_audit_logs server self action subject start_date empty
        limit offset w
      = get_audit_logs server self action subject start_date None
          limit offset w
      /\ dict_get (lit "endDate")
           (audit_params action subject start_date empty limit offset)
         = None).
Proof.
  intros empty.
  repeat split; try reflexivity.
  - apply (audit_params_get empty subject start_date end_date limit offset).
  - apply (audit_params_get action empty start_date end_date limit offset).
  - apply (audit_params_get action subject empty end_date limit offset).
  - apply (audit_params_get action subject start_date empty limit offset).
Qed.

(* ================================================================== *)
(** ** What the network can tell *)
(* ================================================================== *)

Lemma sim_ret {A} (a : A) : sim (ret a) (ret a).
Proof. intros w1 w2 H. split; [reflexivity|exact H]. Qed.

Lemma sim_lift {A} (r : result A) : sim (lift r) (lift r).
Proof. intros w1 w2 H. split; [reflexivity|exact H]. Qed.

(** What is printed does not matter. *)
Lemma sim_say (l1 l2 : list Fragment) : sim (say l1) (say l2).
Proof. intros w1 w2 H. split; [reflexivity|exact H]. Qed.

Lemma sim_bind {A B} (m1 m2 : M A) (k1 k2 : A -> M B) :
  sim m1 m2 -> (forall a, sim (k1 a) (k2 a)) -> sim (bind m1 k1) (bind m2 k2).
Proof.
  intros Hm Hk w1 w2 H. unfold bind.
  destruct (Hm w1 w2 H) as [Hr Hw].
  destruct (m1 w1) as [[a|e] w1'], (m2 w2) as [[b|e'] w2'];
    cbn in Hr, Hw; try discriminate.
  - injection Hr as ->. apply Hk. exact Hw.
  - injection Hr as ->. split; [reflexivity|exact Hw].
Qed.

Lemma sleep_wire (p : Retry) (history : nat) (a : Response) (w : World) :
  wire (sleep p history a w) = wire w ++ slept p history a.
Proof.
  unfold slept, sleep, _sleep_backoff.
  destruct (respect_retry_after_header p);
    [destruct (get_retry_after p a) as [[|s]|]|];
    try destruct (N.leb (get_backoff_time p history) 0);
    cbn; rewrite ?app_nil_r; reflexivity.
Qed.

Lemma sim_urlopen (server : Server) (p : Retry) (req : Request)
    (left history : nat) :
  sim (urlopen server p left history req) (urlopen server p left history req).
Proof.
  revert history. induction left as [|left IH]; intros history w1 w2 H;
    rewrite !urlopen_eq; cbv zeta; rewrite <- H.
  - destruct (retried_at p req 0 _); [destruct (raise_on_status p)|];
      (split; [reflexivity|cbn; rewrite H; reflexivity]).
  - destruct (retried_at p req (S left) _).
    + apply IH. rewrite !sleep_wire. cbn. rewrite H. reflexivity.
    + split; [reflexivity|cbn; rewrite H; reflexivity].
Qed.

Lemma sim_request (server : Server) (s : Session) (req : Request) :
  sim (request server s req) (request server s req).
Proof. apply sim_urlopen. Qed.

Ltac sim_steps :=
  repeat first
    [ apply sim_say
    | apply sim_ret
    | apply sim_lift
    | apply sim_request
    | apply sim_bind; [|intros ?] ].

Lemma sim_upload_key (server : Server) (self : GPGSigningServiceClient)
    (key_id armored : str) :
  sim (upload_key server self key_id armored)
      (upload_key server self key_id armored).
Proof. unfold upload_key, post. sim_steps. Qed.

Lemma sim_delete_key (server : Server) (self : GPGSigningServiceClient)
    (key_id : str) :
  sim (delete_key server self key_id) (delete_key server self key_id).
Proof. unfold delete_key, delete. sim_steps. Qed.

(** [grace_period_hours] reaches standard output and nothing else. *)
Lemma sim_rotate_keys (server : Server) (self : GPGSigningServiceClient)
    (new_key_id armored : str) (old_key_id : option str) (g1 g2 : Z) :
  sim (rotate_keys server self new_key_id armored old_key_id g1)
      (rotate_keys server self new_key_id armored old_key_id g2).
Proof.
  unfold rotate_keys.
  destruct (truthy old_key_id);
    repeat first
      [ apply sim_say
      | apply sim_ret
      | apply sim_lift
      | apply sim_upload_key
      | apply sim_delete_key
      | apply sim_bind; [|intros ?] ].
Qed.

(* ================================================================== *)
(** ** Calls that return *)
(* ================================================================== *)

Section Returns.

Variable server : Server.
Variable self : GPGSigningServiceClient.

(** A call that returns a response returns the answer to its last
    attempt. *)
Lemma request_returns (req : Request) (w : World) (a : Response) :
  fst (request server (session self) req w) = Ok a ->
  exists evs0 k,
    extends w (evs0 ++ [Attempt k req a])
      (snd (request server (session self) req w)).
Proof.
  unfold request, extends. intros Hr.
  destruct (urlopen_run server (max_retries (session self)) req
              (total (max_retries (session self))) 0 w)
    as [evs [b [n [Hw [_ [_ [_ He]]]]]]].
  rewrite Hr in He. destruct He as [[He _]|[He _]]; [|discriminate].
  injection He as ->. exists evs, (0 + n). exact Hw.
Qed.

Lemma settle_ok {A} (r : result Response) (k : Response -> result A) (v : A) :
  settle r k = Ok v ->
  exists a, r = Ok a /\ raise_for_status a = Ok tt /\ k a = Ok v.
Proof.
  unfold settle. destruct r as [a|e]; [|discriminate].
  destruct (raise_for_status a) as [[]|e] eqn:E; [|discriminate].
  intros H. exists a. auto.
Qed.

(** An upload that returns made one call, and returns the decoded body
    of the last answer to it. *)
Lemma upload_key_returns (key_id armored : str) (w : World) (v : value) :
  fst (upload_key server self key_id armored w) = Ok v ->
  exists hdrs evs0 k a,
    _admin_headers self = Ok hdrs
    /\ extends w
         (evs0 ++ [Attempt k (upload_request self key_id armored hdrs) a])
         (snd (upload_key server self key_id armored w))
    /\ calls (evs0 ++ [Attempt k (upload_request self key_id armored hdrs) a])
       = [upload_request self key_id armored hdrs]
    /\ json a = Some v.
Proof.
  intros Hr.
  destruct (_validate_key_id key_id) as [[]|e] eqn:Hv;
    [|rewrite (upload_key_invalid server self key_id armored w Hv) in Hr;
      discriminate].
  destruct (_admin_headers self) as [hdrs|e] eqn:Hh;
    [|rewrite (upload_key_no_token server self key_id armored w Hv Hh) in Hr;
      discriminate].
  rewrite (upload_key_eq server self key_id armored w Hv Hh) in *.
  cbn [fst snd] in *.
  apply settle_ok in Hr. destruct Hr as [a [Ha [_ Hj]]].
  destruct (request_returns _ w Ha) as [evs0 [k Hx]].
  exists hdrs, evs0, k, a. split; [reflexivity|]. split; [exact Hx|]. split.
  - destruct (request_attempts server (session self)
                (upload_request self key_id armored hdrs) w)
      as [evs [Hx' [_ [Hc _]]]].
    unfold extends in Hx, Hx'. rewrite Hx in Hx'. injection Hx' as Hx'.
    apply app_inv_head in Hx'. rewrite Hx'. exact Hc.
  - unfold response_json in Hj. destruct (json a); [|discriminate].
    injection Hj as ->. reflexivity.
Qed.

End Returns.

(* ================================================================== *)
(** ** Key rotation *)
(* ================================================================== *)

Ltac case_lookups :=
  repeat match goal with
         | |- context [match getitem ?v ?k with _ => _ end] =>
             destruct (getitem v k)
         end.

Section Rotation.

Variable server : Server.
Variable self : GPGSigningServiceClient.
Variable new_key_id armored : str.

(** Without an old key, the wire holds what the upload put there, and a
    rotation that returns returns the upload's result under
    [new_key]. *)
Lemma rotate_keys_unset (grace : Z) (w : World) :
  let up := upload_key server self new_key_id armored
              (print (announce new_key_id) w) in
  let run := rotate_keys server self new_key_id armored None grace w in
  wire (snd run) = wire (snd up)
  /\ forall results,
       fst run = Ok results ->
       exists v, fst up = Ok v /\ results = [(lit "new_key", v)].
Proof.
  cbv zeta. unfold rotate_keys, bind, say, lift, ret.
  fold (announce new_key_id).
  destruct (upload_key server self new_key_id armored
              (print (announce new_key_id) w)) as [[v|e] w1]; cbn.
  - case_lookups; cbn; (split; [reflexivity|]); intros results H;
      try discriminate.
    injection H as <-. exists v. split; reflexivity.
  - split; [reflexivity|]. intros results H. discriminate.
Qed.

End Rotation.

(* ================================================================== *)
(** ** Construction of the client *)
(* ================================================================== *)

Lemma in_slash (c : char) : str_in [c] (lit "/") = N.eqb c 47.
Proof. rewrite str_in_char. cbn. apply orb_false_r. Qed.

(** [lstrip("/")] takes slashes off the front, all of them. *)
Lemma lstrip_slash (x : str) :
  exists n,
    x = repeat 47%N n ++ lstrip (lit "/") x
    /\ forall y, lstrip (lit "/") x <> 47%N :: y.
Proof.
  induction x as [|c x [n [Hx Hn]]].
  - exists 0. split; [reflexivity|]. intros y H. discriminate.
  - cbn [lstrip]. rewrite in_slash. destruct (N.eqb_spec c 47) as [->|Hc].
    + exists (S n). split; [cbn; f_equal; exact Hx|exact Hn].
    + exists 0. split; [reflexivity|]. intros y H. injection H as H _.
      contradiction.
Qed.

Lemma rstrip_slash (x : str) :
  exists n,
    x = rstrip (lit "/") x ++ repeat 47%N n
    /\ forall y, rstrip (lit "/") x <> y ++ [47%N].
Proof.
  unfold rstrip. destruct (lstrip_slash (rev x)) as [n [Hx Hn]].
  exists n. split.
  - rewrite <- (rev_involutive x) at 1. rewrite Hx at 1.
    rewrite rev_app_distr, rev_repeat. reflexivity.
  - intros y H. apply (Hn (rev y)).
    rewrite <- (rev_involutive (lstrip (lit "/") (rev x))), H.
    rewrite rev_app_distr. reflexivity.
Qed.

(** X1. The client keeps its base URL without trailing slashes: the URL
    given to the constructor is the kept one followed by slashes only,
    and the kept one does not end in a slash, so that the paths the
    operations append ([/admin/...]) never meet a second slash. *)
Theorem init_base_url_has_no_trailing_slash (environ : dict str) (url : str)
    (token : option str) :
  let self := __init__ environ url token in
  (exists n, url = base_url self ++ repeat 47%N n)
  /\ (forall y, base_url self <> y ++ lit "/").
Proof.
  cbv zeta. cbn [base_url __init__].
  destruct (rstrip_slash url) as [n [Hx Hn]].
  split; [exists n; exact Hx|exact Hn].
Qed.

(** X2. Which token a constructed client presents: the explicit one when
    it is a non-empty string, whatever the environment holds; otherwise
    [ADMIN_TOKEN] of the environment when that is non-empty; and when
    neither is, construction still succeeds and [_admin_headers] raises
    [ValueError] at call time.  The headers are [Authorization: Bearer
    <token>] and [Content-Type: application/json]. *)
Theorem admin_headers_of_init (environ : dict str) (url : str)
    (token : option str) :
  let self := __init__ environ url token in
  let bearer (t : str) : dict str :=
    [ (lit "Authorization", lit "Bearer " ++ t);
      (lit "Content-Type", lit "application/json") ] in
  (forall t, token = Some t -> t <> [] -> _admin_headers self = Ok (bearer t))
  /\ (forall t,
        truthy token = false ->
        dict_get (lit "ADMIN_TOKEN") environ = Some t -> t <> [] ->
        _admin_headers self = Ok (bearer t))
  /\ (truthy token = false ->
      truthy (dict_get (lit "ADMIN_TOKEN") environ) = false ->
      _admin_headers self
      = Raise (ValueError (lit "Admin token not configured"))).
Proof.
  cbv zeta. unfold _admin_headers. cbn [admin_token __init__].
  split; [|split].
  - intros t -> Ht. destruct t as [|c t]; [contradiction|]. reflexivity.
  - intros t Hf He Ht. rewrite Hf, He.
    destruct t as [|c t]; [contradiction|]. reflexivity.
  - intros Hf He. rewrite Hf.
    destruct (dict_get (lit "ADMIN_TOKEN") environ) as [[|c t]|];
      try discriminate; reflexivity.
Qed.

(** An explicit token beats the environment; an empty one falls back to
    it; with neither, the call fails. *)
Lemma admin_headers_of_init_witness :
  let environ := [(lit "ADMIN_TOKEN", lit "from-env")] in
  _admin_headers (__init__ environ (lit "https://h/") (Some (lit "given")))
  = Ok [ (lit "Authorization", lit "Bearer given");
         (lit "Content-Type", lit "application/json") ]
  /\ _admin_headers (__init__ environ (lit "https://h/") (Some []))
     = Ok [ (lit "Authorization", lit "Bearer from-env");
            (lit "Content-Type", lit "application/json") ]
  /\ _admin_headers (__init__ [] (lit "https://h/") None)
     = Raise (ValueError (lit "Admin token not configured")).
Proof.
  intros environ. split; [|split].
  - apply (proj1 (admin_headers_of_init environ (lit "https://h/")
                    (Some (lit "given"))) (lit "given") eq_refl).
    discriminate.
  - apply (proj1 (proj2 (admin_headers_of_init environ (lit "https://h/")
                           (Some []))) (lit "from-env") eq_refl eq_refl).
    discriminate.
  - apply (proj2 (proj2 (admin_headers_of_init [] (lit "https://h/") None))
             eq_refl eq_refl).
Defined.

Lemma init_base_url_has_no_trailing_slash_witness :
  base_url (__init__ [] (lit "https://gpg.example//") None)
  <> lit "https://gpg.example" ++ lit "/".
Proof.
  apply (proj2 (init_base_url_has_no_trailing_slash []
                  (lit "https://gpg.example//") None)).
Defined.

(* ================================================================== *)
(** ** What each operation puts on the wire *)
(* ================================================================== *)

Lemma extends_refl (w : World) : extends w [] w.
Proof. apply world_eta. Qed.

Lemma request_sends (server : Server) (s : Session) (req : Request)
    (w : World) :
  sends w req (S (total (max_retries s))) (snd (request server s req w)).
Proof.
  destruct (request_attempts server s req w) as [evs [Hx [Hn [Hc Hf]]]].
  exists evs. auto.
Qed.

Section Traces.

Variable server : Server.
Variable self : GPGSigningServiceClient.

Let bound : nat := S (total (max_retries (session self))).

Lemma list_keys_no_token (e : exn) (w : World) :
  _admin_headers self = Raise e ->
  list_keys server self w = (Raise e, w).
Proof. intros H. unfold list_keys, bind, lift. rewrite H. reflexivity. Qed.

Lemma get_public_key_no_token (key_id : str) (e : exn) (w : World) :
  _admin_headers self = Raise e ->
  get_public_key server self key_id w = (Raise e, w).
Proof.
  intros H. unfold get_public_key, bind, lift. rewrite H. reflexivity.
Qed.

Lemma get_audit_logs_no_token (action subject start_date end_date : option str)
    (limit offset : Z) (e : exn) (w : World) :
  _admin_headers self = Raise e ->
  get_audit_logs server self action subject start_date end_date limit offset w
  = (Raise e, w).
Proof.
  intros H. unfold get_audit_logs, bind, lift. rewrite H. reflexivity.
Qed.

(** Each operation either leaves the world as it is, or sends one call
    of its own request, with the headers of [_admin_headers]. *)
Lemma list_keys_trace (w : World) :
  snd (list_keys server self w) = w
  \/ exists hdrs,
       _admin_headers self = Ok hdrs
       /\ sends w (list_request self hdrs) bound
            (snd (list_keys server self w)).
Proof.
  destruct (_admin_headers self) as [hdrs|e] eqn:Hh.
  - right. exists hdrs. split; [reflexivity|].
    rewrite (list_keys_eq server self w Hh). apply request_sends.
  - left. rewrite (list_keys_no_token w Hh). reflexivity.
Qed.

Lemma get_public_key_trace (key_id : str) (w : World) :
  snd (get_public_key server self key_id w) = w
  \/ exists hdrs,
       _admin_headers self = Ok hdrs
       /\ sends w (public_key_request self key_id hdrs) bound
            (snd (get_public_key server self key_id w)).
Proof.
  destruct (_admin_headers self) as [hdrs|e] eqn:Hh.
  - right. exists hdrs. split; [reflexivity|].
    rewrite (get_public_key_eq server self key_id w Hh). apply request_sends.
  - left. rewrite (get_public_key_no_token key_id w Hh). reflexivity.
Qed.

Lemma get_audit_logs_trace (action subject start_date end_date : option str)
    (limit offset : Z) (w : World) :
  let run := get_audit_logs server self action subject start_date end_date
               limit offset w in
  snd run = w
  \/ exists hdrs,
       _admin_headers self = Ok hdrs
       /\ sends w
            (audit_request self
               (audit_params action subject start_date end_date limit offset)
               hdrs)
            bound (snd run).
Proof.
  cbv zeta. destruct (_admin_headers self) as [hdrs|e] eqn:Hh.
  - right. exists hdrs. split; [reflexivity|].
    rewrite (get_audit_logs_eq server self action subject start_date
               end_date limit offset w Hh).
    apply request_sends.
  - left.
    rewrite (get_audit_logs_no_token action subject start_date end_date
               limit offset w Hh).
    reflexivity.
Qed.

Lemma upload_key_trace (key_id armored : str) (w : World) :
  snd (upload_key server self key_id armored w) = w
  \/ exists hdrs,
       _admin_headers self = Ok hdrs
       /\ _validate_key_id key_id = Ok tt
       /\ sends w (upload_request self key_id armored hdrs) bound
            (snd (upload_key server self key_id armored w)).
Proof.
  destruct (_validate_key_id key_id) as [[]|e] eqn:Hv.
  - destruct (_admin_headers self) as [hdrs|e] eqn:Hh.
    + right. exists hdrs. split; [reflexivity|]. split; [reflexivity|].
      rewrite (upload_key_eq server self key_id armored w Hv Hh).
      apply request_sends.
    + left. rewrite (upload_key_no_token server self key_id armored w Hv Hh).
      reflexivity.
  - left. rewrite (upload_key_invalid server self key_id armored w Hv).
    reflexivity.
Qed.

Lemma delete_key_trace (key_id : str) (w : World) :
  snd (delete_key server self key_id w) = w
  \/ exists hdrs,
       _admin_headers self = Ok hdrs
       /\ _validate_key_id key_id = Ok tt
       /\ sends w (delete_request self key_id hdrs) bound
            (snd (delete_key server self key_id w)).
Proof.
  destruct (_validate_key_id key_id) as [[]|e] eqn:Hv.
  - destruct (_admin_headers self) as [hdrs|e] eqn:Hh.
    + right. exists hdrs. split; [reflexivity|]. split; [reflexivity|].
      rewrite (delete_key_eq server self key_id w Hv Hh).
      apply request_sends.
    + left. rewrite (delete_key_no_token server self key_id w Hv Hh).
      reflexivity.
  - left. rewrite (delete_key_invalid server self key_id w Hv).
    reflexivity.
Qed.

(** Where a rotation leaves the wire: where its upload left it, or
    where the delete that followed the upload left it. *)
Lemma rotate_keys_trace (new_key_id armored : str) (old_key_id : option str)
    (grace : Z) (w : World) :
  let up := upload_key server self new_key_id armored
              (print (announce new_key_id) w) in
  let run := rotate_keys server self new_key_id armored old_key_id grace w in
  wire (snd run) = wire (snd up)
  \/ (truthy old_key_id = true
      /\ (exists v, fst up = Ok v)
      /\ exists w2,
           wire w2 = wire (snd up)
           /\ wire (snd run)
              = wire (snd (delete_key server self (the_str old_key_id) w2))).
Proof.
  cbv zeta. unfold rotate_keys, bind, say, lift, ret.
  fold (announce new_key_id).
  destruct (upload_key server self new_key_id armored
              (print (announce new_key_id) w)) as [[v|e] w1];
    cbn -[delete_key]; [|left; reflexivity].
  case_lookups; cbn -[delete_key]; try (left; reflexivity).
  destruct (truthy old_key_id) eqn:Ht; cbn -[delete_key];
    [|left; reflexivity].
  right. split; [reflexivity|]. split; [exists v; reflexivity|].
  match goal with
  | |- context [delete_key server self (the_str old_key_id) ?w2] =>
      exists w2; split; [reflexivity|];
      destruct (delete_key server self (the_str old_key_id) w2)
        as [[d|e] w3]; reflexivity
  end.
Qed.

End Traces.

(* ================================================================== *)
(** ** Credentials *)
(* ================================================================== *)

(** X3. Without a token (none, or the empty string) no operation reaches
    the network: [list_keys], [get_public_key] and [get_audit_logs]
    raise [ValueError("Admin token not configured")] and leave the world
    as it was; so do [upload_key] and [delete_key] on a key id that
    passes validation (on one that does not, they raise the validation
    error instead, C3); and [rotate_keys] raises after printing its
    first line, with nothing on the wire. *)
Theorem no_token_no_request (server : Server)
    (self : GPGSigningServiceClient) (w : World) :
  truthy (admin_token self) = false ->
  let e := ValueError (lit "Admin token not configured") in
  list_keys server self w = (Raise e, w)
  /\ (forall key_id, get_public_key server self key_id w = (Raise e, w))
  /\ (forall action subject start_date end_date limit offset,
        get_audit_logs server self action subject start_date end_date
          limit offset w
        = (Raise e, w))
  /\ (forall key_id armored,
        _validate_key_id key_id = Ok tt ->
        upload_key server self key_id armored w = (Raise e, w)
        /\ delete_key server self key_id w = (Raise e, w))
  /\ (forall new_key_id armored old_key_id grace,
        _validate_key_id new_key_id = Ok tt ->
        rotate_keys server self new_key_id armored old_key_id grace w
        = (Raise e, print (announce new_key_id) w)).
Proof.
  intros Ht e.
  assert (Hh : _admin_headers self = Raise e).
  { unfold _admin_headers.
    destruct (admin_token self) as [[|c t]|]; try discriminate; reflexivity. }
  split; [apply list_keys_no_token; exact Hh|].
  split; [intros; apply get_public_key_no_token; exact Hh|].
  split; [intros; apply get_audit_logs_no_token; exact Hh|].
  split.
  - intros key_id armored Hv. split.
    + apply upload_key_no_token; assumption.
    + apply delete_key_no_token; assumption.
  - intros new_key_id armored old_key_id grace Hv.
    unfold rotate_keys, bind, say. fold (announce new_key_id).
    rewrite (upload_key_no_token server self new_key_id armored
               (print (announce new_key_id) w) Hv Hh).
    reflexivity.
Qed.

Lemma no_token_no_request_witness :
  let server := Mock.scripted [] (Mock.answer 200 (Some Mock.uploaded)) in
  let self := __init__ [] default_base_url None in
  list_keys server self Mock.fresh
  = (Raise (ValueError (lit "Admin token not configured")), Mock.fresh).
Proof.
  intros server self.
  apply (proj1 (@no_token_no_request server self Mock.fresh eq_refl)).
Defined.

(** X4. Against a server that never answers with a redirect status, no
    operation sends a request without credentials: every HTTP attempt
    that [list_keys], [get_public_key], [get_audit_logs], [upload_key],
    [delete_key] or [rotate_keys] adds to the wire, first attempts and
    retries alike, is an attempt of a request that the client handed to
    the session with the headers [_admin_headers] builds from the
    token.  (What a session sends when it follows a redirect is of its
    own making and not covered.) *)
Theorem every_attempt_is_authenticated (server : Server)
    (self : GPGSigningServiceClient) (w : World) :
  direct server ->
  authenticated self w (snd (list_keys server self w))
  /\ (forall key_id,
        authenticated self w (snd (get_public_key server self key_id w)))
  /\ (forall action subject start_date end_date limit offset,
        authenticated self w
          (snd (get_audit_logs server self action subject start_date
                  end_date limit offset w)))
  /\ (forall key_id armored,
        authenticated self w (snd (upload_key server self key_id armored w)))
  /\ (forall key_id,
        authenticated self w (snd (delete_key server self key_id w)))
  /\ (forall new_key_id armored old_key_id grace,
        authenticated self w
          (snd (rotate_keys server self new_key_id armored old_key_id
                  grace w))).
Proof.
  intros _.
  assert (S0 : forall w0 w' q bound hdrs,
             _admin_headers self = Ok hdrs -> headers q = hdrs ->
             sends w0 q bound w' -> authenticated self w0 w').
  { intros w0 w' q bound hdrs Hh Hq [evs [Hx [_ [Hf _]]]] k r a Hin.
    rewrite Hx in Hin. cbn [wire] in Hin.
    apply in_app_or in Hin. destruct Hin as [Hin|Hin]; [left; exact Hin|].
    right. apply in_attempts in Hin. rewrite Forall_forall in Hf.
    specialize (Hf _ Hin). cbn in Hf. subst r. rewrite Hq. exact Hh. }
  assert (R0 : forall w0, authenticated self w0 w0)
    by (intros w0 k q a Hin; left; exact Hin).
  assert (U : forall key_id armored w0,
             authenticated self w0
               (snd (upload_key server self key_id armored w0))).
  { intros key_id armored w0.
    destruct (upload_key_trace server self key_id armored w0)
      as [ -> | [hdrs [Hh [_ Hs]]]]; [apply R0|].
    eapply S0; [exact Hh| |exact Hs]. reflexivity. }
  assert (D : forall key_id w0,
             authenticated self w0 (snd (delete_key server self key_id w0))).
  { intros key_id w0.
    destruct (delete_key_trace server self key_id w0)
      as [ -> | [hdrs [Hh [_ Hs]]]]; [apply R0|].
    eapply S0; [exact Hh| |exact Hs]. reflexivity. }
  split; [|split; [|split; [|split; [|split]]]].
  - destruct (list_keys_trace server self w) as [ -> | [hdrs [Hh Hs]]];
      [apply R0|].
    eapply S0; [exact Hh| |exact Hs]. reflexivity.
  - intros key_id.
    destruct (get_public_key_trace server self key_id w)
      as [ -> | [hdrs [Hh Hs]]]; [apply R0|].
    eapply S0; [exact Hh| |exact Hs]. reflexivity.
  - intros action subject start_date end_date limit offset.
    destruct (get_audit_logs_trace server self action subject start_date
                end_date limit offset w) as [ -> | [hdrs [Hh Hs]]]; [apply R0|].
    eapply S0; [exact Hh| |exact Hs]. reflexivity.
  - intros key_id armored. apply U.
  - intros key_id. apply D.
  - intros new_key_id armored old_key_id grace.
    pose proof (U new_key_id armored (print (announce new_key_id) w)) as Hu.
    destruct (rotate_keys_trace server self new_key_id armored old_key_id
                grace w) as [Hw|[_ [_ [w2 [Hw2 Hw]]]]];
      intros k q a Hin; rewrite Hw in Hin.
    + apply (Hu k q a Hin).
    + destruct (D (the_str old_key_id) w2 k q a Hin) as [Hin'|Hh];
        [|right; exact Hh].
      rewrite Hw2 in Hin'. apply (Hu k q a Hin').
Qed.

(** A listing answered 429 and then 200: both attempts carry the
    token. *)
Lemma every_attempt_is_authenticated_witness :
  let server := Mock.scripted [Mock.answer 429 None]
                  (Mock.answer 200 (Some (VDict []))) in
  direct server
  /\ authenticated Mock.client Mock.fresh
       (snd (list_keys server Mock.client Mock.fresh)).
Proof.
  intros server.
  assert (D : direct server).
  { intros h q. unfold server, Mock.scripted, redirect.
    destruct (List.length (attempts h)) as [|[|n]]; cbn;
      intros [H|[H|[H|[H|[H|[]]]]]]; discriminate H. }
  split; [exact D|].
  apply (proj1 (@every_attempt_is_authenticated server Mock.client
                  Mock.fresh D)).
Defined.

(* ================================================================== *)
(** ** Bounds on what a rotation does *)
(* ================================================================== *)

Lemma sends_calls (w w' : World) (q : Request) (bound : nat) :
  sends w q bound w' ->
  exists evs,
    wire w' = wire w ++ evs /\ calls evs = [q]
    /\ List.length (attempts evs) <= bound.
Proof.
  intros [evs [Hx [Hc [_ [_ Hn]]]]]. exists evs. rewrite Hx. auto.
Qed.

(** The calls of a rotation, by method, and its attempts. *)
Lemma rotate_keys_methods (server : Server)
    (self : GPGSigningServiceClient) (new_key_id armored : str)
    (old_key_id : option str) (grace : Z) (w : World) :
  session self = _create_session ->
  let run := rotate_keys server self new_key_id armored old_key_id grace w in
  exists evs,
    wire (snd run) = wire w ++ evs
    /\ (List.map method (calls evs) = []
        \/ List.map method (calls evs) = [POST]
        \/ List.map method (calls evs) = [POST; DELETE])
    /\ List.length (attempts evs) <= 8.
Proof.
  intros Hs run.
  assert (U : exists evs,
             wire (snd (upload_key server self new_key_id armored
                          (print (announce new_key_id) w)))
             = wire w ++ evs
             /\ (calls evs = [] \/ List.map method (calls evs) = [POST])
             /\ List.length (attempts evs) <= 4).
  { destruct (upload_key_trace server self new_key_id armored
                (print (announce new_key_id) w)) as [ -> | [hdrs [_ [_ Hu]]]].
    - exists []. cbn. rewrite app_nil_r. split; [reflexivity|].
      split; [left; reflexivity|lia].
    - apply sends_calls in Hu. destruct Hu as [evs [Hw [Hc Hn]]].
      exists evs. split; [exact Hw|]. rewrite Hc, Hs in *.
      split; [right; reflexivity|exact Hn]. }
  destruct U as [evs1 [Hw1 [Hc1 Hn1]]].
  destruct (rotate_keys_trace server self new_key_id armored old_key_id
              grace w) as [Hw|[_ [[v Hv] [w2 [Hw2 Hw]]]]]; fold run in Hw.
  - exists evs1. rewrite Hw, Hw1. split; [reflexivity|]. split; [|lia].
    destruct Hc1 as [ -> | -> ]; auto.
  - assert (Hc1' : List.map method (calls evs1) = [POST]).
    { destruct (upload_key_returns server self new_key_id armored _ Hv)
        as [hdrs [evs0 [k [a [_ [Hx [Hc _]]]]]]].
      rewrite Hx in Hw1. cbn [wire print] in Hw1.
      apply app_inv_head in Hw1. rewrite <- Hw1, Hc. reflexivity. }
    destruct (delete_key_trace server self (the_str old_key_id) w2)
      as [E|[hdrs [_ [_ Hd]]]].
    + exists evs1. rewrite Hw, E, Hw2, Hw1.
      split; [reflexivity|]. split; [auto|lia].
    + apply sends_calls in Hd. destruct Hd as [evs2 [Hwd [Hc2 Hn2]]].
      exists (evs1 ++ evs2). rewrite Hw, Hwd, Hw2, Hw1, app_assoc.
      split; [reflexivity|]. rewrite Hs in Hn2. split.
      * right. right. rewrite calls_app, map_app, Hc1', Hc2. reflexivity.
      * rewrite attempts_app, length_app. cbn in Hn2. lia.
Qed.


(** X5. Against a server that never answers with a redirect status,
    and whatever its arguments, [rotate_keys] makes no network call, or
    the upload POST alone, or the upload POST and then the DELETE: never
    a delete without an upload before it, never a third call, and with
    the client's own session never more than 8 HTTP attempts in all. *)
Theorem rotate_keys_calls_bounded (server : Server)
    (self : GPGSigningServiceClient) (new_key_id armored : str)
    (old_key_id : option str) (grace : Z) (w : World) :
  direct server ->
  session self = _create_session ->
  let run := rotate_keys server self new_key_id armored old_key_id grace w in
  exists evs,
    wire (snd run) = wire w ++ evs
    /\ (List.map method (calls evs) = []
        \/ List.map method (calls evs) = [POST]
        \/ List.map method (calls evs) = [POST; DELETE])
    /\ List.length (attempts evs) <= 8.
Proof.
  intros _ Hs run.
  destruct (@rotate_keys_methods server self new_key_id armored old_key_id
              grace w Hs) as [evs [Hw [Hc Hn]]].
  exists evs. split; [exact Hw|]. split; [exact Hc|exact Hn].
Qed.

Lemma rotate_keys_calls_bounded_witness :
  let server := Mock.scripted [] (Mock.answer 503 None) in
  let run := rotate_keys server Mock.client (lit "0123456789ABCDEF")
               (lit "KEY") (Some (lit "FEDCBA9876543210")) 24 Mock.fresh in
  exists evs,
    wire (snd run) = wire Mock.fresh ++ evs
    /\ (List.map method (calls evs) = []
        \/ List.map method (calls evs) = [POST]
        \/ List.map method (calls evs) = [POST; DELETE])
    /\ List.length (attempts evs) <= 8.
Proof.
  intros server run.
  apply (@rotate_keys_calls_bounded server Mock.client
           (lit "0123456789ABCDEF") (lit "KEY")
           (Some (lit "FEDCBA9876543210")) 24 Mock.fresh);
    [|reflexivity].
  intros h q. unfold server, Mock.scripted, redirect.
  destruct (List.length (attempts h)) as [|n]; cbn;
    intros [H|[H|[H|[H|[H|[]]]]]]; discriminate H.
Defined.

(* ================================================================== *)
(** ** Error statuses, exhaustion and backoff *)
(* ================================================================== *)

Lemma surfaces_not_retried (req : Request) (left : nat) (a : Response) :
  surfaces a -> retried_at retry_strategy req left a = false.
Proof.
  intros [_ [H429 [H503 H413]]]. unfold retried_at.
  apply not_true_is_false. intro R.
  destruct (Z.eq_dec (status_code a) 413) as [E|E].
  - revert R. unfold is_retry, has_retry_after.
    rewrite (H413 E), E.
    destruct (method req); destruct left as [|n]; vm_compute;
      intro R; discriminate R.
  - apply is_retry_only in R. lia.
Qed.

Lemma raise_for_status_error (a : Response) :
  (400 <= status_code a < 600)%Z -> raise_for_status a = Raise (HTTPError a).
Proof.
  intros H. unfold raise_for_status.
  destruct (Z.leb_spec 400 (status_code a)); [|lia].
  destruct (Z.ltb_spec (status_code a) 500); [reflexivity|].
  destruct (Z.leb_spec 500 (status_code a)); [|lia].
  destruct (Z.ltb_spec (status_code a) 600); [reflexivity|lia].
Qed.

(** A call whose first answer is an error the policy does not retry is
    over after that attempt. *)
Lemma request_surfaces (server : Server) (req : Request) (w : World) :
  let a := server (wire w) req in
  surfaces a ->
  request server _create_session req w
  = (Ok a, emit (Attempt 0 req a) w).
Proof.
  intros a Hs. unfold request. rewrite urlopen_eq. cbv zeta. fold a.
  fold retry_strategy.
  rewrite (surfaces_not_retried req _ Hs). reflexivity.
Qed.

(** X6. An error status outside the retry policy surfaces at once, for
    every operation: when the first answer is a 4xx or 5xx other than
    429 and 503 (and other than a 413 with [Retry-After]), say 400, 401,
    403, 404, 500 or 502, the operation raises [HTTPError] carrying that
    response after exactly one HTTP attempt, with no sleep and no
    retry. *)
Theorem error_status_surfaces_at_once (server : Server)
    (self : GPGSigningServiceClient) (hdrs : dict str) (w : World) :
  session self = _create_session ->
  _admin_headers self = Ok hdrs ->
  let once {A} (q : Request) (run : result A * World) : Prop :=
    surfaces (server (wire w) q) ->
    run = (Raise (HTTPError (server (wire w) q)),
           emit (Attempt 0 q (server (wire w) q)) w) in
  once (list_request self hdrs) (list_keys server self w)
  /\ (forall key_id,
        once (public_key_request self key_id hdrs)
          (get_public_key server self key_id w))
  /\ (forall action subject start_date end_date limit offset,
        once (audit_request self
                (audit_params action subject start_date end_date
                   limit offset) hdrs)
          (get_audit_logs server self action subject start_date end_date
             limit offset w))
  /\ (forall key_id armored,
        _validate_key_id key_id = Ok tt ->
        once (upload_request self key_id armored hdrs)
          (upload_key server self key_id armored w))
  /\ (forall key_id,
        _validate_key_id key_id = Ok tt ->
        once (delete_request self key_id hdrs)
          (delete_key server self key_id w)).
Proof.
  intros Hs Hh once.
  assert (S0 : forall A (q : Request) (k : Response -> result A),
             surfaces (server (wire w) q) ->
             (settle (fst (request server (session self) q w)) k,
              snd (request server (session self) q w))
             = (Raise (HTTPError (server (wire w) q)),
                emit (Attempt 0 q (server (wire w) q)) w)).
  { intros A q k Hq. rewrite Hs, (request_surfaces server q w Hq).
    cbn [fst snd settle].
    rewrite (raise_for_status_error (server (wire w) q) (proj1 Hq)).
    reflexivity. }
  unfold once. split; [|split; [|split; [|split]]].
  - intros Hq. rewrite (list_keys_eq server self w Hh). apply S0, Hq.
  - intros key_id Hq.
    rewrite (get_public_key_eq server self key_id w Hh). apply S0, Hq.
  - intros action subject start_date end_date limit offset Hq.
    rewrite (get_audit_logs_eq server self action subject start_date
               end_date limit offset w Hh).
    apply S0, Hq.
  - intros key_id armored Hv Hq.
    rewrite (upload_key_eq server self key_id armored w Hv Hh). apply S0, Hq.
  - intros key_id Hv Hq.
    rewrite (delete_key_eq server self key_id w Hv Hh). apply S0, Hq.
Qed.

(** A 500 on upload. *)
Lemma error_status_surfaces_at_once_witness :
  let server := Mock.scripted [] (Mock.answer 500 None) in
  exists q,
    upload_key server Mock.client (lit "0123456789ABCDEF") (lit "KEY")
      Mock.fresh
    = (Raise (HTTPError (Mock.answer 500 None)),
       emit (Attempt 0 q (Mock.answer 500 None)) Mock.fresh).
Proof.
  intros server. eexists.
  refine (proj1 (proj2 (proj2 (proj2
            (@error_status_surfaces_at_once server Mock.client _
               Mock.fresh eq_refl eq_refl))))
            (lit "0123456789ABCDEF") (lit "KEY") eq_refl _).
  unfold surfaces. cbn. repeat split; lia.
Defined.

(** Against a server that answers 429 or 503 to everything, the loop
    runs out of retries. *)
Lemma urlopen_busy (server : Server) (req : Request) :
  (forall h q, transient (server h q)) ->
  forall left history w,
    fst (urlopen server retry_strategy left history req w) = Raise RetryError.
Proof.
  intros Hb. induction left as [|left IH]; intros history w;
    rewrite urlopen_eq; cbv zeta; unfold retried_at;
    rewrite (is_retry_forced _ _ _ (Hb (wire w) req)).
  - reflexivity.
  - apply IH.
Qed.

(** X7. Against a server that answers 429 or 503 to every attempt, a
    call through the client's session gives up after exactly 4 HTTP
    attempts and raises [RetryError], not [HTTPError]; and so does every
    operation that gets as far as the network: its caller sees
    [RetryError], with no response attached. *)
Theorem busy_server_exhausts_retries (server : Server)
    (self : GPGSigningServiceClient) (hdrs : dict str) (w : World) :
  (forall h q, transient (server h q)) ->
  session self = _create_session ->
  _admin_headers self = Ok hdrs ->
  (forall req,
      fst (request server _create_session req w) = Raise RetryError
      /\ exists evs,
           extends w evs (snd (request server _create_session req w))
           /\ List.length (attempts evs) = 4)
  /\ fst (list_keys server self w) = Raise RetryError
  /\ (forall key_id,
        fst (get_public_key server self key_id w) = Raise RetryError)
  /\ (forall action subject start_date end_date limit offset,
        fst (get_audit_logs server self action subject start_date end_date
               limit offset w) = Raise RetryError)
  /\ (forall key_id armored,
        _validate_key_id key_id = Ok tt ->
        fst (upload_key server self key_id armored w) = Raise RetryError
        /\ fst (delete_key server self key_id w) = Raise RetryError).
Proof.
  intros Hb Hs Hh.
  assert (R : forall req,
             fst (request server (session self) req w) = Raise RetryError).
  { intros req. rewrite Hs. apply urlopen_busy. exact Hb. }
  split; [|split; [|split; [|split]]].
  - intros req. rewrite Hs in R. split; [apply R|].
    destruct (request_attempts server _create_session req w)
      as [evs [Hx _]].
    exists evs. split; [exact Hx|].
    apply (@request_raises server _create_session req w evs RetryError Hx
             (R req)).
  - rewrite (list_keys_eq server self w Hh). cbn [fst]. rewrite R.
    reflexivity.
  - intros key_id. rewrite (get_public_key_eq server self key_id w Hh).
    cbn [fst]. rewrite R. reflexivity.
  - intros action subject start_date end_date limit offset.
    rewrite (get_audit_logs_eq server self action subject start_date
               end_date limit offset w Hh).
    cbn [fst]. rewrite R. reflexivity.
  - intros key_id armored Hv. split.
    + rewrite (upload_key_eq server self key_id armored w Hv Hh).
      cbn [fst]. rewrite R. reflexivity.
    + rewrite (delete_key_eq server self key_id w Hv Hh).
      cbn [fst]. rewrite R. reflexivity.
Qed.

Lemma busy_server_exhausts_retries_witness :
  let server := Mock.scripted [] (Mock.answer 503 None) in
  fst (list_keys server Mock.client Mock.fresh) = Raise RetryError.
Proof.
  intros server.
  refine (proj1 (proj2 (@busy_server_exhausts_retries server Mock.client _
                          Mock.fresh _ eq_refl eq_refl))).
  intros h q. right. unfold server, Mock.scripted.
  destruct (List.length (attempts h)) as [|n]; [|destruct n]; reflexivity.
Defined.

Lemma sleep_without_header (history : nat) (a : Response) (w : World) :
  retry_after a = None ->
  sleep retry_strategy history a w = _sleep_backoff retry_strategy history w.
Proof. intros H. unfold sleep, get_retry_after. rewrite H. reflexivity. Qed.

(** X8. The pauses of the client's session when the server sends no
    [Retry-After]: none before the first retry, 2 seconds before the
    second, 4 seconds before the third.  A call is one of: a single
    attempt; two attempts back to back; three attempts with a 2 second
    sleep before the third; four attempts with a further 4 second sleep
    before the fourth.  The session never sleeps more than 6 seconds in
    one call. *)
Theorem backoff_schedule (server : Server) (req : Request) (w : World) :
  (forall h q, retry_after (server h q) = None) ->
  exists a0 a1 a2 a3 evs,
    extends w evs (snd (request server _create_session req w))
    /\ (evs = [Attempt 0 req a0]
        \/ evs = [Attempt 0 req a0; Attempt 1 req a1]
        \/ evs = [Attempt 0 req a0; Attempt 1 req a1; Sleep 2;
                  Attempt 2 req a2]
        \/ evs = [Attempt 0 req a0; Attempt 1 req a1; Sleep 2;
                  Attempt 2 req a2; Sleep 4; Attempt 3 req a3]).
Proof.
  intros Hn. unfold request, extends. fold retry_strategy.
  change (total retry_strategy) with 3.
  rewrite urlopen_eq. cbv zeta.
  set (a0 := server (wire w) req).
  destruct (retried_at retry_strategy req 3 a0).
  2:{ exists a0, a0, a0, a0. eexists. split; [reflexivity|]. auto. }
  rewrite (sleep_without_header 1 a0 _ (Hn _ _)).
  change (_sleep_backoff retry_strategy 1 (emit (Attempt 0 req a0) w))
    with (emit (Attempt 0 req a0) w).
  rewrite urlopen_eq. cbv zeta.
  set (w1 := emit (Attempt 0 req a0) w).
  set (a1 := server (wire w1) req).
  destruct (retried_at retry_strategy req 2 a1).
  2:{ exists a0, a1, a0, a0. eexists. split.
      - unfold w1, emit. cbn. rewrite <- app_assoc. reflexivity.
      - auto. }
  rewrite (sleep_without_header 2 a1 _ (Hn _ _)).
  change (_sleep_backoff retry_strategy 2 (emit (Attempt 1 req a1) w1))
    with (emit (Sleep 2) (emit (Attempt 1 req a1) w1)).
  rewrite urlopen_eq. cbv zeta.
  set (w2 := emit (Sleep 2) (emit (Attempt 1 req a1) w1)).
  set (a2 := server (wire w2) req).
  destruct (retried_at retry_strategy req 1 a2).
  2:{ exists a0, a1, a2, a0. eexists. split.
      - unfold w2, w1, emit. cbn. rewrite <- !app_assoc. reflexivity.
      - auto. }
  rewrite (sleep_without_header 3 a2 _ (Hn _ _)).
  change (_sleep_backoff retry_strategy 3 (emit (Attempt 2 req a2) w2))
    with (emit (Sleep 4) (emit (Attempt 2 req a2) w2)).
  rewrite urlopen_eq. cbv zeta.
  set (w3 := emit (Sleep 4) (emit (Attempt 2 req a2) w2)).
  set (a3 := server (wire w3) req).
  exists a0, a1, a2, a3. eexists. split.
  - destruct (retried_at retry_strategy req 0 a3);
      unfold w3, w2, w1, emit; cbn; rewrite <- !app_assoc; reflexivity.
  - right. right. right. reflexivity.
Qed.

Lemma backoff_schedule_witness :
  let server := Mock.scripted [] (Mock.answer 503 None) in
  let req := list_request Mock.client [] in
  exists a0 a1 a2 a3 evs,
    extends Mock.fresh evs
      (snd (request server _create_session req Mock.fresh))
    /\ (evs = [Attempt 0 req a0]
        \/ evs = [Attempt 0 req a0; Attempt 1 req a1]
        \/ evs = [Attempt 0 req a0; Attempt 1 req a1; Sleep 2;
                  Attempt 2 req a2]
        \/ evs = [Attempt 0 req a0; Attempt 1 req a1; Sleep 2;
                  Attempt 2 req a2; Sleep 4; Attempt 3 req a3]).
Proof.
  intros server req.
  apply (@backoff_schedule server req Mock.fresh).
  intros h q. unfold server, Mock.scripted.
  destruct (List.length (attempts h)) as [|n]; [|destruct n]; reflexivity.
Defined.

(** X9. [Retry-After] is honoured, up to six hours: when the first
    answer is a 429, 503 or 413 that carries [Retry-After] with a
    positive number of seconds, the session sleeps that long if it is
    at most 21600 seconds, and 21600 seconds if the header asks for
    more; then it sends the request again.  With the header, a 413 is
    retried although it is not in [status_forcelist]. *)
Theorem retry_after_is_honoured (server : Server) (req : Request) (w : World)
    (seconds : positive) :
  let a0 := server (wire w) req in
  retry_after a0 = Some (Npos seconds) ->
  (status_code a0 = 413 \/ status_code a0 = 429 \/ status_code a0 = 503)%Z ->
  let pause := if (Npos seconds <=? 21600)%N then Npos seconds else 21600%N in
  exists a1 rest,
    wire (snd (request server _create_session req w))
    = wire w ++ Attempt 0 req a0 :: Sleep pause :: Attempt 1 req a1 :: rest.
Proof.
  intros a0 Hra Hst pause. unfold request. fold retry_strategy.
  change (total retry_strategy) with 3.
  rewrite urlopen_eq. cbv zeta. fold a0.
  assert (R : retried_at retry_strategy req 3 a0 = true).
  { unfold retried_at, is_retry, has_retry_after. rewrite Hra.
    destruct Hst as [E|[E|E]]; rewrite E; destruct (method req); reflexivity. }
  rewrite R.
  assert (S0 : sleep retry_strategy 1 a0 (emit (Attempt 0 req a0) w)
               = emit (Sleep pause) (emit (Attempt 0 req a0) w)).
  { unfold sleep, get_retry_after. rewrite Hra.
    change (respect_retry_after_header retry_strategy) with true.
    change (retry_after_max retry_strategy) with 21600%N.
    cbv iota. unfold pause.
    destruct (N.leb_spec (Npos seconds) 21600) as [L|L].
    - rewrite (N.min_l _ _ L). reflexivity.
    - rewrite (N.min_r _ _ (N.lt_le_incl _ _ L)). reflexivity. }
  rewrite S0.
  destruct (urlopen_first server retry_strategy req 2 1
              (emit (Sleep pause) (emit (Attempt 0 req a0) w)))
    as [rest Hf].
  rewrite Hf. cbn [wire emit]. eexists. exists rest.
  rewrite <- !app_assoc. reflexivity.
Qed.

(** A 413 that asks for a day is retried after six hours. *)
Lemma retry_after_is_honoured_witness :
  let too_large := {| status_code := 413; text := []; json := None;
                      retry_after := Some 86400%N |} in
  let server := Mock.scripted [too_large] (Mock.answer 200 None) in
  let req := list_request Mock.client [] in
  exists a1 rest,
    wire (snd (request server _create_session req Mock.fresh))
    = wire Mock.fresh ++ Attempt 0 req too_large :: Sleep 21600
                        :: Attempt 1 req a1 :: rest.
Proof.
  intros too_large server req.
  apply (@retry_after_is_honoured server req Mock.fresh 86400%positive).
  - reflexivity.
  - left. reflexivity.
Defined.

(* ================================================================== *)
(** ** What the operations return *)
(* ================================================================== *)

(** X10. What [list_keys] makes of a 2xx response: the value of the
    [keys] field as it is when the body is an object that has one,
    whatever that value is (a [null] comes back as [None], not as an
    empty list); [AttributeError] when the body is JSON but not an
    object; [JSONDecodeError] when it is not JSON.  In each case the
    request has been sent. *)
Theorem list_keys_result (server : Server) (self : GPGSigningServiceClient)
    (hdrs : dict str) (w w' : World) (a : Response) :
  _admin_headers self = Ok hdrs ->
  request server (session self) (list_request self hdrs) w = (Ok a, w') ->
  success a ->
  (forall fields v,
      json a = Some (VDict fields) ->
      dict_get (lit "keys") fields = Some v ->
      list_keys server self w = (Ok v, w'))
  /\ (forall v,
        json a = Some v -> (forall fields, v <> VDict fields) ->
        list_keys server self w = (Raise AttributeError, w'))
  /\ (json a = None -> list_keys server self w = (Raise JSONDecodeError, w')).
Proof.
  intros Hh Hrun Hs.
  rewrite (list_keys_eq server self w Hh). cbv zeta. rewrite Hrun.
  cbn [fst snd settle]. rewrite (raise_for_status_success Hs).
  unfold keys_of, response_json. split; [|split].
  - intros fields v -> ->. reflexivity.
  - intros v -> Hv. destruct v; try reflexivity.
    exfalso. apply (Hv fields). reflexivity.
  - intros ->. reflexivity.
Qed.

(** The body [{"keys": null}]. *)
Lemma list_keys_result_witness :
  let body := VDict [(lit "keys", VNone)] in
  let server := Mock.scripted [] (Mock.answer 200 (Some body)) in
  exists w', list_keys server Mock.client Mock.fresh = (Ok VNone, w').
Proof.
  intros body server. eexists.
  refine (proj1 (@list_keys_result server Mock.client _ Mock.fresh _
                   (Mock.answer 200 (Some body)) eq_refl _ _)
            [(lit "keys", VNone)] VNone eq_refl eq_refl).
  - vm_compute. reflexivity.
  - unfold success. cbn. lia.
Defined.

(** X11. [upload_key], [delete_key] and [get_audit_logs] return the
    decoded body of a 2xx response as it is: the client does not look at
    [success], [deleted] or any other field, so a body such as
    [{"success": false}] is returned like any other; a 2xx body that is
    not JSON raises [JSONDecodeError], after the request has had its
    effect on the server. *)
Theorem body_is_returned_unchecked (server : Server)
    (self : GPGSigningServiceClient) (hdrs : dict str) (w w' : World)
    (a : Response) :
  _admin_headers self = Ok hdrs ->
  success a ->
  let answer : result value :=
    match json a with Some v => Ok v | None => Raise JSONDecodeError end in
  (forall key_id armored,
      _validate_key_id key_id = Ok tt ->
      request server (session self)
        (upload_request self key_id armored hdrs) w = (Ok a, w') ->
      upload_key server self key_id armored w = (answer, w'))
  /\ (forall key_id,
        _validate_key_id key_id = Ok tt ->
        request server (session self) (delete_request self key_id hdrs) w
        = (Ok a, w') ->
        delete_key server self key_id w = (answer, w'))
  /\ (forall action subject start_date end_date limit offset,
        request server (session self)
          (audit_request self
             (audit_params action subject start_date end_date limit offset)
             hdrs) w
        = (Ok a, w') ->
        get_audit_logs server self action subject start_date end_date
          limit offset w
        = (answer, w')).
Proof.
  intros Hh Hs answer.
  assert (S0 : settle (Ok a) response_json = answer).
  { cbn [settle]. rewrite (raise_for_status_success Hs). reflexivity. }
  split; [|split].
  - intros key_id armored Hv Hrun.
    rewrite (upload_key_eq server self key_id armored w Hv Hh).
    cbv zeta. rewrite Hrun. cbn [fst snd]. rewrite S0. reflexivity.
  - intros key_id Hv Hrun.
    rewrite (delete_key_eq server self key_id w Hv Hh).
    cbv zeta. rewrite Hrun. cbn [fst snd]. rewrite S0. reflexivity.
  - intros action subject start_date end_date limit offset Hrun.
    rewrite (get_audit_logs_eq server self action subject start_date
               end_date limit offset w Hh).
    cbv zeta. rewrite Hrun. cbn [fst snd]. rewrite S0. reflexivity.
Qed.

(** A delete answered 200 with [{"success": false, "deleted": false}]. *)
Lemma body_is_returned_unchecked_witness :
  let body := VDict [ (lit "success", VBool false);
                      (lit "deleted", VBool false) ] in
  let server := Mock.scripted [] (Mock.answer 200 (Some body)) in
  exists w',
    delete_key server Mock.client (lit "0123456789ABCDEF") Mock.fresh
    = (Ok body, w').
Proof.
  intros body server. eexists.
  refine (proj1 (proj2 (@body_is_returned_unchecked server Mock.client _
                          Mock.fresh _ (Mock.answer 200 (Some body))
                          eq_refl _))
            (lit "0123456789ABCDEF") eq_refl _).
  - unfold success. cbn. lia.
  - vm_compute. reflexivity.
Defined.

(* ================================================================== *)
(** ** The steps of a rotation *)
(* ================================================================== *)

Section HalfWay.

Variable server : Server.
Variable self : GPGSigningServiceClient.
Variable new_key_id armored : str.

(** The upload inside a rotation does on the network what the upload
    alone does. *)
Lemma upload_in_rotation (w : World) :
  same_net
    (upload_key server self new_key_id armored
       (print (announce new_key_id) w))
    (upload_key server self new_key_id armored w).
Proof. apply sim_upload_key. reflexivity. Qed.

(** A rotation whose upload fails fails the same way, having done on the
    network what the upload did. *)
Lemma rotate_keys_upload_fails (old_key_id : option str) (grace : Z)
    (w : World) (e : exn) :
  fst (upload_key server self new_key_id armored w) = Raise e ->
  let run := rotate_keys server self new_key_id armored old_key_id grace w in
  fst run = Raise e
  /\ wire (snd run) = wire (snd (upload_key server self new_key_id armored w)).
Proof.
  intros Hup. destruct (upload_in_rotation w) as [Hr Hw].
  rewrite Hup in Hr. cbv zeta. rewrite <- Hw. clear Hw.
  unfold rotate_keys, bind, say. fold (announce new_key_id).
  destruct (upload_key server self new_key_id armored
              (print (announce new_key_id) w)) as [[v|e'] w1];
    cbn in Hr; [discriminate|].
  injection Hr as ->. split; reflexivity.
Qed.

(** After an upload that returned [v], the rotation looks up
    [fingerprint], [algorithm] and [userId] in [v], in that order, and
    raises what the first failing lookup raises. *)
Lemma rotate_keys_lookup_fails (old_key_id : option str) (grace : Z)
    (w : World) (v : value) (e : exn) :
  fst (upload_key server self new_key_id armored w) = Ok v ->
  (getitem v (lit "fingerprint") = Raise e
   \/ (exists x, getitem v (lit "fingerprint") = Ok x)
      /\ (getitem v (lit "algorithm") = Raise e
          \/ (exists y, getitem v (lit "algorithm") = Ok y)
             /\ getitem v (lit "userId") = Raise e)) ->
  let run := rotate_keys server self new_key_id armored old_key_id grace w in
  fst run = Raise e
  /\ wire (snd run) = wire (snd (upload_key server self new_key_id armored w)).
Proof.
  intros Hup Hl. destruct (upload_in_rotation w) as [Hr Hw].
  rewrite Hup in Hr. cbv zeta. rewrite <- Hw. clear Hw.
  unfold rotate_keys, bind, say, lift. fold (announce new_key_id).
  destruct (upload_key server self new_key_id armored
              (print (announce new_key_id) w)) as [[v'|e'] w1];
    cbn in Hr; [|discriminate].
  injection Hr as ->. cbn -[delete_key getitem].
  cbn -[getitem] in Hl.
  destruct Hl as [H1|[[x H1] [H2|[[y H2] H3]]]];
    rewrite ?H1, ?H2, ?H3; cbn -[delete_key getitem];
    rewrite ?H1, ?H2, ?H3; cbn -[delete_key getitem];
    rewrite ?H1, ?H2, ?H3; split; reflexivity.
Qed.

(** After the upload and the three lookups, a rotation with an old key
    is the delete of it. *)
Lemma rotate_keys_then_delete (c : char) (old : str) (grace : Z) (w : World)
    (v x y z : value) :
  fst (upload_key server self new_key_id armored w) = Ok v ->
  getitem v (lit "fingerprint") = Ok x ->
  getitem v (lit "algorithm") = Ok y ->
  getitem v (lit "userId") = Ok z ->
  exists w2,
    wire w2 = wire (snd (upload_key server self new_key_id armored w))
    /\ let run := rotate_keys server self new_key_id armored
                    (Some (c :: old)) grace w in
       let del := delete_key server self (c :: old) w2 in
       wire (snd run) = wire (snd del)
       /\ fst run
          = match fst del with
            | Ok d => Ok [(lit "new_key", v); (lit "deleted", d)]
            | Raise e => Raise e
            end.
Proof.
  intros Hup H1 H2 H3. destruct (upload_in_rotation w) as [Hr Hw].
  rewrite Hup in Hr. rewrite <- Hw. clear Hw.
  unfold rotate_keys, bind, say, lift, ret. fold (announce new_key_id).
  destruct (upload_key server self new_key_id armored
              (print (announce new_key_id) w)) as [[v'|e'] w1];
    cbn in Hr; [|discriminate].
  injection Hr as ->. cbn -[delete_key getitem].
  cbn -[getitem] in H1, H2, H3.
  rewrite H1. cbn -[delete_key getitem].
  rewrite H2. cbn -[delete_key getitem].
  rewrite H3. cbn -[delete_key getitem].
  match goal with
  | |- context [delete_key server self (c :: old) ?w2] =>
      exists w2; split; [reflexivity|];
      destruct (delete_key server self (c :: old) w2) as [[d|e] w3];
      split; reflexivity
  end.
Qed.

(** After the upload and the three lookups, a rotation without an old
    key returns what the upload returned, under [new_key]. *)
Lemma rotate_keys_then_returns (old_key_id : option str) (grace : Z)
    (w : World) (v x y z : value) :
  truthy old_key_id = false ->
  fst (upload_key server self new_key_id armored w) = Ok v ->
  getitem v (lit "fingerprint") = Ok x ->
  getitem v (lit "algorithm") = Ok y ->
  getitem v (lit "userId") = Ok z ->
  let run := rotate_keys server self new_key_id armored old_key_id grace w in
  fst run = Ok [(lit "new_key", v)]
  /\ wire (snd run) = wire (snd (upload_key server self new_key_id armored w)).
Proof.
  intros Ht Hup H1 H2 H3. destruct (upload_in_rotation w) as [Hr Hw].
  rewrite Hup in Hr. cbv zeta. rewrite <- Hw. clear Hw.
  unfold rotate_keys, bind, say, lift, ret. fold (announce new_key_id).
  destruct (upload_key server self new_key_id armored
              (print (announce new_key_id) w)) as [[v'|e'] w1];
    cbn in Hr; [|discriminate].
  injection Hr as ->. cbn -[getitem truthy].
  cbn -[getitem] in H1, H2, H3.
  rewrite H1. cbn -[getitem truthy].
  rewrite H2. cbn -[getitem truthy].
  rewrite H3. cbn -[getitem truthy].
  rewrite Ht. split; reflexivity.
Qed.

End HalfWay.

(* ================================================================== *)
(** ** Rotation without and with an old key *)
(* ================================================================== *)

(** C5, as the code has it.  For every call to [rotate_keys] with
    [old_key_id] unset, a [new_key_id] that passes validation and a
    client that has a token: exactly one network call is made, the
    upload POST to [/admin/keys] (every attempt on the wire is an
    attempt of it), whether the upload succeeds or fails; whenever the
    answer to the upload is a 2xx whose body holds [fingerprint],
    [algorithm] and [userId], the call returns the record with the
    single field [new_key], that body; and every record it returns is
    such a record, with no [deleted] field.  A network call is a call
    of the session, which the transport may retry. *)
Theorem rotate_keys_without_old_key (server : Server)
    (self : GPGSigningServiceClient) (new_key_id armored : str)
    (grace : Z) (w : World) (hdrs : dict str) :
  _validate_key_id new_key_id = Ok tt ->
  _admin_headers self = Ok hdrs ->
  let run := rotate_keys server self new_key_id armored None grace w in
  let up := upload_request self new_key_id armored hdrs in
  let answer := fst (request server (session self) up w) in
  (exists evs,
      wire (snd run) = wire w ++ evs
      /\ calls evs = [up]
      /\ Forall (fun x => snd (fst x) = up) (attempts evs))
  /\ (forall a v x y z,
        answer = Ok a -> success a -> json a = Some v ->
        getitem v (lit "fingerprint") = Ok x ->
        getitem v (lit "algorithm") = Ok y ->
        getitem v (lit "userId") = Ok z ->
        fst run = Ok [(lit "new_key", v)])
  /\ (forall results,
        fst run = Ok results ->
        exists a v,
          answer = Ok a /\ json a = Some v
          /\ results = [(lit "new_key", v)]
          /\ dict_get (lit "deleted") results = None).
Proof.
  intros Hv Hh run up answer.
  pose (w0 := print (announce new_key_id) w).
  destruct (sim_request server (session self) up w0 w eq_refl) as [Hf _].
  assert (Hup : forall w1,
             upload_key server self new_key_id armored w1
             = (settle (fst (request server (session self) up w1))
                  response_json,
                snd (request server (session self) up w1)))
    by (intros w1; apply upload_key_eq; assumption).
  destruct (rotate_keys_unset server self new_key_id armored grace w)
    as [Hw Hr].
  fold run w0 in Hw, Hr. split; [|split].
  - destruct (request_attempts server (session self) up w0)
      as [evs [Hx [_ [Hc Ha]]]].
    exists evs. rewrite Hw, (Hup w0). cbn [snd]. rewrite Hx.
    split; [reflexivity|]. split; assumption.
  - intros a v x y z Ha Hs Hj H1 H2 H3.
    assert (Hu : fst (upload_key server self new_key_id armored w) = Ok v).
    { rewrite (Hup w). cbn [fst]. fold answer. rewrite Ha. cbn [settle].
      rewrite (raise_for_status_success Hs). unfold response_json.
      rewrite Hj. reflexivity. }
    apply (rotate_keys_then_returns server self new_key_id armored None
             grace w eq_refl Hu H1 H2 H3).
  - intros results Hres. destruct (Hr results Hres) as [v [Hu ->]].
    rewrite (Hup w0) in Hu. cbn [fst] in Hu.
    apply settle_ok in Hu. destruct Hu as [a [Ha [_ Hj]]].
    exists a, v. split; [unfold answer; rewrite <- Hf; exact Ha|].
    split; [|split; reflexivity].
    unfold response_json in Hj. destruct (json a); [|discriminate].
    injection Hj as ->. reflexivity.
Qed.

(** One upload, answered 200 with the key's description. *)
Lemma rotate_keys_without_old_key_witness :
  let server := Mock.scripted [] (Mock.answer 200 (Some Mock.uploaded)) in
  let key_id := lit "0123456789ABCDEF" in
  let run := rotate_keys server Mock.client key_id (lit "KEY") None 24
               Mock.fresh in
  fst run = Ok [(lit "new_key", Mock.uploaded)]
  /\ exists hdrs evs,
       wire (snd run) = wire Mock.fresh ++ evs
       /\ calls evs = [upload_request Mock.client key_id (lit "KEY") hdrs].
Proof.
  intros server key_id run.
  destruct (@rotate_keys_without_old_key server Mock.client key_id
              (lit "KEY") 24 Mock.fresh _ eq_refl eq_refl)
    as [[evs [Hw [Hc _]]] [Hr _]].
  split.
  - apply (Hr (Mock.answer 200 (Some Mock.uploaded)) Mock.uploaded
             (VStr (lit "F1")) (VStr (lit "EdDSA")) (VStr (lit "ci")));
      try reflexivity.
    unfold success. cbn. lia.
  - eexists. exists evs. split; [exact Hw|exact Hc].
Defined.

(** C5, as stated, fails: with [old_key_id] unset, a call whose
    [new_key_id] does not pass validation makes no network call at all,
    and neither does a call by a client that has no token. *)
Lemma rotation_without_request_counterexample :
  let server := Mock.scripted [] (Mock.answer 200 (Some Mock.uploaded)) in
  let invalid := rotate_keys server Mock.client (lit "not-a-key-id")
                   (lit "KEY") None 24 Mock.fresh in
  let anonymous := rotate_keys server (__init__ [] default_base_url None)
                     (lit "0123456789ABCDEF") (lit "KEY") None 24
                     Mock.fresh in
  (calls (wire (snd invalid)) = []
   /\ List.length (calls (wire (snd invalid))) <> 1)
  /\ (calls (wire (snd anonymous)) = []
      /\ List.length (calls (wire (snd anonymous))) <> 1).
Proof.
  intros server invalid anonymous.
  split; (split; [reflexivity|vm_compute; discriminate]).
Qed.

(** C6, as the code has it.  For every call to [rotate_keys] whose
    [old_key_id] is a key id that passes validation, and every
    [grace_period_hours]: once the upload of the new key has succeeded
    (the session returned a 2xx answer whose body holds [fingerprint],
    [algorithm] and [userId]), exactly two network calls are made, the
    upload POST and then the DELETE of the old key, the first attempt of
    the delete coming right after the answer to the upload with no
    sleep in between, whether the delete then succeeds or fails: the
    call returns both results, under [new_key] and [deleted], when the
    delete is answered by a 2xx with a JSON body, and raises the
    delete's error when it is not.  The result and the network history
    are the same for any other grace period, which only reaches
    standard output.  A network call is a call of the session, which
    the transport may retry. *)
Theorem rotate_keys_with_old_key (server : Server)
    (self : GPGSigningServiceClient) (new_key_id armored old_key_id : str)
    (grace : Z) (w : World) (hdrs : dict str) (a : Response)
    (v x y z : value) :
  _validate_key_id new_key_id = Ok tt ->
  _validate_key_id old_key_id = Ok tt ->
  _admin_headers self = Ok hdrs ->
  let up := upload_request self new_key_id armored hdrs in
  let del := delete_request self old_key_id hdrs in
  let posted := request server (session self) up w in
  fst posted = Ok a -> success a -> json a = Some v ->
  getitem v (lit "fingerprint") = Ok x ->
  getitem v (lit "algorithm") = Ok y ->
  getitem v (lit "userId") = Ok z ->
  let removed := request server (session self) del (snd posted) in
  let run := rotate_keys server self new_key_id armored (Some old_key_id)
               grace w in
  (forall grace',
      same_net
        (rotate_keys server self new_key_id armored (Some old_key_id)
           grace' w) run)
  /\ (exists evs0 k b rest,
        wire (snd run)
        = wire w ++ (evs0 ++ [Attempt k up a]) ++ Attempt 0 del b :: rest
        /\ calls ((evs0 ++ [Attempt k up a]) ++ Attempt 0 del b :: rest)
           = [up; del])
  /\ wire (snd run) = wire (snd removed)
  /\ fst run
     = match settle (fst removed) response_json with
       | Ok d => Ok [(lit "new_key", v); (lit "deleted", d)]
       | Raise e => Raise e
       end.
Proof.
  intros Hvn Hvo Hh up del posted Ha Hs Hj H1 H2 H3 removed run.
  assert (Hu : upload_key server self new_key_id armored w
               = (Ok v, snd posted)).
  { rewrite (upload_key_eq server self new_key_id armored w Hvn Hh).
    cbv zeta. fold up. fold posted. rewrite Ha. cbn [settle].
    rewrite (raise_for_status_success Hs). unfold response_json.
    rewrite Hj. reflexivity. }
  assert (Hu1 : fst (upload_key server self new_key_id armored w) = Ok v)
    by (rewrite Hu; reflexivity).
  destruct old_key_id as [|c old]; [vm_compute in Hvo; discriminate|].
  destruct (rotate_keys_then_delete server self new_key_id armored c old
              grace w Hu1 H1 H2 H3) as [w2 [Hw2 [Hw Hr]]].
  rewrite Hu in Hw2. cbn [snd] in Hw2.
  destruct (sim_request server (session self) del w2 (snd posted) Hw2)
    as [Hf' Hs'].
  rewrite (delete_key_eq server self (c :: old) w2 Hvo Hh) in Hw, Hr.
  cbv zeta in Hw, Hr. cbn [fst snd] in Hw, Hr. fold del in Hw, Hr.
  rewrite Hf' in Hr. rewrite Hs' in Hw. fold removed in Hw, Hr.
  split; [intros grace'; apply sim_rotate_keys; reflexivity|].
  split; [|split; [exact Hw|exact Hr]].
  destruct (request_returns server self up w Ha) as [evs0 [k Hx]].
  fold posted in Hx.
  destruct (request_attempts server (session self) up w)
    as [evs [Hx' [_ [Hc _]]]].
  fold posted in Hx'.
  assert (E : evs = evs0 ++ [Attempt k up a]).
  { unfold extends in Hx, Hx'. rewrite Hx in Hx'. injection Hx' as Hx'.
    apply app_inv_head in Hx'. symmetry. exact Hx'. }
  destruct (urlopen_first server (max_retries (session self)) del
              (total (max_retries (session self))) 0 (snd posted))
    as [rest Hf1].
  fold (request server (session self) del (snd posted)) in Hf1.
  fold removed in Hf1.
  destruct (request_attempts server (session self) del (snd posted))
    as [evs' [Hy [_ [Hc' _]]]].
  fold removed in Hy.
  assert (E' : evs' = Attempt 0 del (server (wire (snd posted)) del) :: rest).
  { unfold extends in Hy. rewrite Hy in Hf1. cbn [wire] in Hf1.
    apply app_inv_head in Hf1. exact Hf1. }
  exists evs0, k, (server (wire (snd posted)) del), rest. split.
  - etransitivity; [exact Hw|].
    rewrite Hf1, Hx. cbn [wire]. rewrite <- app_assoc. reflexivity.
  - rewrite calls_app, <- E, <- E', Hc, Hc'. reflexivity.
Qed.

(** Two requests answered 200, and a grace period of a week. *)
Lemma rotate_keys_with_old_key_witness :
  let deleted := VDict [(lit "success", VBool true);
                        (lit "deleted", VBool true)] in
  let server := Mock.scripted [Mock.answer 200 (Some Mock.uploaded)]
                  (Mock.answer 200 (Some deleted)) in
  let new_key_id := lit "0123456789ABCDEF" in
  let old_key_id := lit "FEDCBA9876543210" in
  let run := rotate_keys server Mock.client new_key_id (lit "KEY")
               (Some old_key_id) 168 Mock.fresh in
  fst run = Ok [(lit "new_key", Mock.uploaded); (lit "deleted", deleted)]
  /\ (exists hdrs a b,
        wire (snd run)
        = [Attempt 0 (upload_request Mock.client new_key_id (lit "KEY") hdrs)
             a;
           Attempt 0 (delete_request Mock.client old_key_id hdrs) b])
  /\ same_net
       (rotate_keys server Mock.client new_key_id (lit "KEY")
          (Some old_key_id) 0 Mock.fresh) run.
Proof.
  intros deleted server new_key_id old_key_id run.
  assert (Hs : success (Mock.answer 200 (Some Mock.uploaded)))
    by (unfold success; cbn; lia).
  destruct (@rotate_keys_with_old_key server Mock.client new_key_id
              (lit "KEY") old_key_id 168 Mock.fresh _
              (Mock.answer 200 (Some Mock.uploaded)) Mock.uploaded
              (VStr (lit "F1")) (VStr (lit "EdDSA")) (VStr (lit "ci"))
              eq_refl eq_refl eq_refl eq_refl Hs eq_refl eq_refl eq_refl
              eq_refl)
    as [Hg [_ [_ Hr]]].
  split; [exact Hr|]. split; [|exact (Hg 0%Z)].
  eexists. eexists. eexists. vm_compute. reflexivity.
Defined.

(** C6, as stated, fails in four ways, each with the upload as the only
    network call: [old_key_id=""] is set, and the call returns without
    deleting anything; an [old_key_id] of 15 characters is rejected
    after the upload; an upload answered 404 ends the call; and so does
    one answered 200 with a body that lacks [fingerprint]. *)
Lemma single_call_with_old_key_counterexample :
  let accepts := Mock.scripted [] (Mock.answer 200 (Some Mock.uploaded)) in
  let refuses := Mock.scripted [] (Mock.answer 404 None) in
  let terse := Mock.scripted []
                 (Mock.answer 200 (Some (VDict [(lit "success", VBool true)])))
  in
  let rotate server old_key_id :=
    rotate_keys server Mock.client (lit "0123456789ABCDEF") (lit "KEY")
      (Some old_key_id) 24 Mock.fresh in
  let one_call (run : result (dict value) * World) :=
    List.map method (calls (wire (snd run))) = [POST]
    /\ List.length (calls (wire (snd run))) <> 2 in
  (fst (rotate accepts []) = Ok [(lit "new_key", Mock.uploaded)]
   /\ one_call (rotate accepts []))
  /\ one_call (rotate accepts (lit "0123456789ABCDE"))
  /\ one_call (rotate refuses (lit "FEDCBA9876543210"))
  /\ one_call (rotate terse (lit "FEDCBA9876543210")).
Proof.
  intros accepts refuses terse rotate one_call.
  repeat split; try reflexivity; vm_compute; discriminate.
Qed.

(* ================================================================== *)
(** ** Rotations that stop half way *)
(* ================================================================== *)

(** X12. On the network, a rotation with an old key is the upload
    followed by the delete, and nothing is rolled back: once the upload
    has returned a body with [fingerprint], [algorithm] and [userId],
    [rotate_keys] does what [delete_key] does from where the upload left
    the wire, returns both results if the delete returns, and raises
    what the delete raises if it raises, with the new key uploaded. *)
Theorem rotate_keys_is_upload_then_delete (server : Server)
    (self : GPGSigningServiceClient) (new_key_id armored : str)
    (old_key_id : str) (grace : Z) (w : World) (v x y z : value) :
  old_key_id <> [] ->
  let up := upload_key server self new_key_id armored w in
  fst up = Ok v ->
  getitem v (lit "fingerprint") = Ok x ->
  getitem v (lit "algorithm") = Ok y ->
  getitem v (lit "userId") = Ok z ->
  let del := delete_key server self old_key_id (snd up) in
  let run := rotate_keys server self new_key_id armored (Some old_key_id)
               grace w in
  wire (snd run) = wire (snd del)
  /\ fst run
     = match fst del with
       | Ok d => Ok [(lit "new_key", v); (lit "deleted", d)]
       | Raise e => Raise e
       end.
Proof.
  intros Ho up Hup H1 H2 H3 del run.
  destruct old_key_id as [|c old]; [contradiction|].
  destruct (rotate_keys_then_delete server self new_key_id armored c old
              grace w Hup H1 H2 H3) as [w2 [Hw2 [Hw Hr]]].
  destruct (sim_delete_key server self (c :: old) w2 (snd up) Hw2)
    as [Hf Hs].
  fold run in Hw, Hr. unfold del. rewrite <- Hf, <- Hs. split; assumption.
Qed.

(** The old key is unknown to the server: 200 on the upload, 404 on the
    delete. *)
Lemma rotate_keys_is_upload_then_delete_witness :
  let server := Mock.scripted [Mock.answer 200 (Some Mock.uploaded)]
                  (Mock.answer 404 None) in
  let run := rotate_keys server Mock.client (lit "0123456789ABCDEF")
               (lit "KEY") (Some (lit "FEDCBA9876543210")) 24 Mock.fresh in
  fst run = Raise (HTTPError (Mock.answer 404 None))
  /\ List.map method (calls (wire (snd run))) = [POST; DELETE].
Proof.
  intros server run.
  destruct (@rotate_keys_is_upload_then_delete server Mock.client
              (lit "0123456789ABCDEF") (lit "KEY") (lit "FEDCBA9876543210")
              24 Mock.fresh Mock.uploaded
              (VStr (lit "F1")) (VStr (lit "EdDSA")) (VStr (lit "ci")))
    as [Hw Hr]; try reflexivity; [discriminate|].
  fold run in Hw, Hr. split.
  - rewrite Hr. reflexivity.
  - rewrite Hw. reflexivity.
Defined.

(** X13. [rotate_keys] checks the old key id late: when [old_key_id] is
    a non-empty string that fails validation, the new key is uploaded
    all the same, and only then does the rotation raise the validation's
    [ValueError]; the network history is that of the upload alone, with
    no DELETE. *)
Theorem rotate_keys_validates_old_key_late (server : Server)
    (self : GPGSigningServiceClient) (new_key_id armored : str)
    (old_key_id : str) (grace : Z) (w : World) (v x y z : value) (e : exn) :
  old_key_id <> [] ->
  _validate_key_id old_key_id = Raise e ->
  let up := upload_key server self new_key_id armored w in
  fst up = Ok v ->
  getitem v (lit "fingerprint") = Ok x ->
  getitem v (lit "algorithm") = Ok y ->
  getitem v (lit "userId") = Ok z ->
  let run := rotate_keys server self new_key_id armored (Some old_key_id)
               grace w in
  fst run = Raise e
  /\ wire (snd run) = wire (snd up)
  /\ exists hdrs evs,
       wire (snd run) = wire w ++ evs
       /\ calls evs = [upload_request self new_key_id armored hdrs].
Proof.
  intros Ho Hv up Hup H1 H2 H3 run. subst run up.
  destruct old_key_id as [|c old]; [contradiction|].
  destruct (rotate_keys_then_delete server self new_key_id armored c old
              grace w Hup H1 H2 H3) as [w2 [Hw2 [Hw Hr]]].
  rewrite (delete_key_invalid server self (c :: old) w2 Hv) in Hw, Hr.
  cbn [fst snd] in Hw, Hr. rewrite Hw2 in Hw.
  split; [exact Hr|]. split; [exact Hw|].
  destruct (upload_key_returns server self new_key_id armored w Hup)
    as [hdrs [evs0 [k [a [_ [Hx [Hc _]]]]]]].
  exists hdrs. eexists. split; [|exact Hc].
  etransitivity; [exact Hw|]. rewrite Hx. reflexivity.
Qed.

(** An old key id of 15 characters. *)
Lemma rotate_keys_validates_old_key_late_witness :
  let server := Mock.scripted [] (Mock.answer 200 (Some Mock.uploaded)) in
  let run := rotate_keys server Mock.client (lit "0123456789ABCDEF")
               (lit "KEY") (Some (lit "0123456789ABCDE")) 24 Mock.fresh in
  (exists msg, fst run = Raise (ValueError msg))
  /\ List.map method (calls (wire (snd run))) = [POST].
Proof.
  intros server run.
  destruct (@rotate_keys_validates_old_key_late server Mock.client
              (lit "0123456789ABCDEF") (lit "KEY") (lit "0123456789ABCDE")
              24 Mock.fresh Mock.uploaded
              (VStr (lit "F1")) (VStr (lit "EdDSA")) (VStr (lit "ci"))
              (ValueError (lit "Key ID must be exactly 16 characters, got 15")))
    as [Hr [Hw _]]; try reflexivity; [discriminate|].
  fold run in Hr, Hw. split.
  - eexists. exact Hr.
  - rewrite Hw. reflexivity.
Defined.

(** X14. [rotate_keys] needs [fingerprint], [algorithm] and [userId] in
    the upload's answer, to print them: when the upload returned an
    object that lacks one of them, the rotation raises [KeyError] for
    the first one missing, and [TypeError] when the body is not an
    object; the new key has been uploaded, and the old key, if one was
    given, is not deleted. *)
Theorem rotate_keys_needs_key_description (server : Server)
    (self : GPGSigningServiceClient) (new_key_id armored : str)
    (old_key_id : option str) (grace : Z) (w : World) (v : value) :
  let up := upload_key server self new_key_id armored w in
  fst up = Ok v ->
  let run := rotate_keys server self new_key_id armored old_key_id grace w in
  let stops (e : exn) : Prop :=
    fst run = Raise e /\ wire (snd run) = wire (snd up) in
  (forall fields,
      v = VDict fields ->
      (dict_get (lit "fingerprint") fields = None ->
       stops (KeyError (lit "fingerprint")))
      /\ (dict_get (lit "fingerprint") fields <> None ->
          dict_get (lit "algorithm") fields = None ->
          stops (KeyError (lit "algorithm")))
      /\ (dict_get (lit "fingerprint") fields <> None ->
          dict_get (lit "algorithm") fields <> None ->
          dict_get (lit "userId") fields = None ->
          stops (KeyError (lit "userId"))))
  /\ ((forall fields, v <> VDict fields) -> stops TypeError).
Proof.
  intros up Hup run stops. unfold stops, run, up. split.
  - intros fields ->. split; [|split].
    + intros H1.
      apply (rotate_keys_lookup_fails server self new_key_id armored
               old_key_id grace w Hup).
      left. unfold getitem. rewrite H1. reflexivity.
    + intros H1 H2.
      apply (rotate_keys_lookup_fails server self new_key_id armored
               old_key_id grace w Hup).
      right. unfold getitem. rewrite H2.
      destruct (dict_get (lit "fingerprint") fields) as [x|];
        [|contradiction].
      split; [exists x; reflexivity|left; reflexivity].
    + intros H1 H2 H3.
      apply (rotate_keys_lookup_fails server self new_key_id armored
               old_key_id grace w Hup).
      right. unfold getitem. rewrite H3.
      destruct (dict_get (lit "fingerprint") fields) as [x|];
        [|contradiction].
      destruct (dict_get (lit "algorithm") fields) as [y|];
        [|contradiction].
      split; [exists x; reflexivity|]. right.
      split; [exists y; reflexivity|reflexivity].
  - intros Hv.
    apply (rotate_keys_lookup_fails server self new_key_id armored
             old_key_id grace w Hup).
    left. destruct v; try reflexivity. exfalso. apply (Hv fields).
    reflexivity.
Qed.

(** An upload answered [{"success": true}], with an old key to delete. *)
Lemma rotate_keys_needs_key_description_witness :
  let body := VDict [(lit "success", VBool true)] in
  let server := Mock.scripted [] (Mock.answer 200 (Some body)) in
  let run := rotate_keys server Mock.client (lit "0123456789ABCDEF")
               (lit "KEY") (Some (lit "FEDCBA9876543210")) 24 Mock.fresh in
  fst run = Raise (KeyError (lit "fingerprint"))
  /\ List.map method (calls (wire (snd run))) = [POST].
Proof.
  intros body server run.
  destruct (proj1 (proj1 (@rotate_keys_needs_key_description server
                            Mock.client (lit "0123456789ABCDEF") (lit "KEY")
                            (Some (lit "FEDCBA9876543210")) 24 Mock.fresh
                            body eq_refl)
                     [(lit "success", VBool true)] eq_refl) eq_refl)
    as [Hr Hw].
  fold run in Hr, Hw. split; [exact Hr|]. rewrite Hw. reflexivity.
Defined.

(* ================================================================== *)
(** ** The command line *)
(* ================================================================== *)

Lemma quiet_pret {A} (a : A) : quiet (pret a).
Proof. intros c. split; reflexivity. Qed.

Lemma quiet_fail {A} (f : failure) : quiet (@fail A f).
Proof. intros c. split; reflexivity. Qed.

Lemma quiet_check {A} (r : result A) : quiet (check r).
Proof. intros c. destruct r; split; reflexivity. Qed.

Lemma quiet_out (line : list Fragment) : quiet (out line).
Proof. intros c. split; reflexivity. Qed.

Lemma quiet_bind {A B} (m : P A) (k : A -> P B) :
  quiet m -> (forall a, quiet (k a)) -> quiet (pbind m k).
Proof.
  intros Hm Hk c. unfold pbind. destruct (Hm c) as [Hw He].
  destruct (m c) as [[a|f] c']; cbn [snd] in *.
  - destruct (Hk a c') as [Hw' He']. rewrite Hw', He'. auto.
  - auto.
Qed.

Lemma quiet_for_each (items : list value) (body : value -> P unit) :
  (forall x, quiet (body x)) -> quiet (for_each items body).
Proof.
  intros Hb. induction items as [|x items IH]; cbn [for_each].
  - apply quiet_pret.
  - apply quiet_bind; [apply Hb|intros _; exact IH].
Qed.

Ltac quiet_steps :=
  repeat first
    [ apply quiet_pret
    | apply quiet_out
    | apply quiet_check
    | apply quiet_fail
    | apply quiet_for_each; intros ?
    | apply quiet_bind; [|intros ?]
    | match goal with
      | |- quiet (if ?b then _ else _) => destruct b
      | |- quiet (match ?o with _ => _ end) => destruct o
      end ].

(** A method of the client followed by quiet steps leaves the wire where
    the method left it. *)
Lemma call_then_quiet {A B} (m : M A) (k : A -> P B) (c : Console) :
  (forall a, quiet (k a)) ->
  wire (world (snd (pbind (call m) k c))) = wire (snd (m (world c)))
  /\ stderr (snd (pbind (call m) k c)) = stderr c.
Proof.
  intros Hk. unfold pbind, call.
  destruct (m (world c)) as [[a|e] w']; cbn [snd world stderr].
  - destruct (Hk a {| world := w'; stderr := stderr c |}) as [Hw He].
    rewrite Hw, He. split; reflexivity.
  - split; reflexivity.
Qed.

Section MainFacts.

Variable server : Server.
Variable environ : dict str.
Variable read_file : str -> option str.
Variable start_date_of : Z -> option str.
Variable json_dumps : value -> str.
Variable str_of_failure : failure -> str.
Variable format_width : value -> nat -> str.
Variable float_truthy : str -> bool.

Local Abbreviation client := (__init__ environ default_base_url None).
Local Abbreviation command' :=
  (command server read_file start_date_of json_dumps format_width
     float_truthy client).
Local Abbreviation main' :=
  (main server environ read_file start_date_of json_dumps str_of_failure
     format_width float_truthy).

Lemma quiet_read (path : str) : quiet (read read_file path).
Proof. unfold read. destruct (read_file path); quiet_steps. Qed.

Lemma quiet_padded (v : value) (width : nat) :
  quiet (padded format_width v width).
Proof. unfold padded. quiet_steps. Qed.

Lemma quiet_audit_entry (log : value) :
  quiet (audit_entry format_width float_truthy log).
Proof.
  unfold audit_entry.
  repeat first
    [ apply quiet_padded
    | apply quiet_pret
    | apply quiet_out
    | apply quiet_check
    | apply quiet_bind; [|intros ?]
    | match goal with
      | |- quiet (if ?b then _ else _) => destruct b
      end ].
Qed.

(** The handlers write to standard error and nothing else: [main] leaves
    the client's world where the body of the [try] left it. *)
Lemma main_world (args : Command) (c : Console) :
  world (snd (main' args c)) = world (snd (command' args c)).
Proof.
  unfold main, on_http_error.
  destruct (command' args c) as [[[]|f] c']; [reflexivity|].
  destruct f as [[msg|a| | |k| |]|path|]; try reflexivity.
  unfold report_api_error, pbind, check, response_json, err, pret.
  destruct (json a) as [v|]; [|reflexivity].
  destruct v as [| | | | | |fields]; try reflexivity.
  cbn. destruct (dict_get _ fields), (dict_get _ fields); cbn;
    destruct (dict_mem _ fields); try reflexivity;
    cbn; destruct (dict_get _ fields); reflexivity.
Qed.

(** X15. The exit status of [main] is 0 when the body of the [try]
    completes and 1 whenever it raises, whatever is raised and whichever
    handler takes it: an HTTP error, a network error, any other
    exception, and also an exception raised inside the HTTP error
    handler itself, which no handler catches. *)
Theorem main_exit_status (args : Command) (c : Console) :
  exit_status (fst (main' args c))
  = match fst (command' args c) with
    | Done _ => 0%Z
    | Failed _ => 1%Z
    end.
Proof.
  unfold main, on_http_error.
  destruct (command' args c) as [[[]|f] c']; [reflexivity|].
  destruct f as [[msg|a| | |k| |]|path|]; try reflexivity.
  cbn [fst].
  destruct (report_api_error str_of_failure (HTTPError a) a c')
    as [[[]|f] c'']; [reflexivity|].
  destruct (is_value_error f); reflexivity.
Qed.

End MainFacts.

Lemma validate_raises_value_error (key_id : str) :
  _validate_key_id key_id <> Ok tt ->
  exists msg, _validate_key_id key_id = Raise (ValueError msg).
Proof.
  unfold _validate_key_id.
  destruct (negb (Nat.eqb (len key_id) 16)); [eauto|].
  destruct (negb (all_chars _ key_id)); [eauto|].
  intros H. exfalso. apply H. reflexivity.
Qed.

Lemma no_token_headers (self : GPGSigningServiceClient) :
  truthy (admin_token self) = false ->
  _admin_headers self
  = Raise (ValueError (lit "Admin token not configured")).
Proof.
  unfold _admin_headers.
  destruct (admin_token self) as [[|c t]|]; try discriminate; reflexivity.
Qed.

Section MainErrors.

Variable server : Server.
Variable environ : dict str.
Variable read_file : str -> option str.
Variable start_date_of : Z -> option str.
Variable json_dumps : value -> str.
Variable str_of_failure : failure -> str.
Variable format_width : value -> nat -> str.
Variable float_truthy : str -> bool.

Local Abbreviation client := (__init__ environ default_base_url None).
Local Abbreviation command' :=
  (command server read_file start_date_of json_dumps format_width
     float_truthy client).
Local Abbreviation main' :=
  (main server environ read_file start_date_of json_dumps str_of_failure
     format_width float_truthy).

(** A failure for [except Exception]: one line on standard error, and
    [sys.exit(1)]. *)
Lemma main_plain (args : Command) (c : Console) (f : failure) (w' : World)
    (errs : list (list Fragment)) :
  command' args c = (Failed f, {| world := w'; stderr := errs |}) ->
  plain f ->
  main' args c
  = (Exited 1,
     {| world := w'; stderr := errs ++ [error_line str_of_failure f] |}).
Proof.
  intros H Hp. unfold main. rewrite H.
  destruct f as [[msg|a| | |k| |]|path|]; try contradiction; reflexivity.
Qed.

(** X16. An invalid key id on the command line never reaches the
    network: [delete], [upload] and [rotate] (the last two once the key
    file has been read) print their first line, then write
    ["Error: " + str(e)] for the validation's [ValueError] to standard
    error and exit with status 1; the wire is untouched. *)
Theorem main_rejects_invalid_key_id (key_id : str) :
  _validate_key_id key_id <> Ok tt ->
  exists msg,
    _validate_key_id key_id = Raise (ValueError msg)
    /\ let ends (first_line : list Fragment) (c : Console) :=
         (Exited 1,
          {| world := print first_line (world c);
             stderr := stderr c
                       ++ [error_line str_of_failure
                             (ClientError (ValueError msg))] |}) in
       (forall c,
           main' (CmdDelete key_id) c
           = ends [Text (lit "Deleting key: "); Fmt (VStr key_id)] c)
       /\ (forall c key_file armored,
             read_file key_file = Some armored ->
             main' (CmdUpload key_id key_file) c
             = ends [Text (lit "Uploading key: "); Fmt (VStr key_id)] c)
       /\ (forall c key_file armored old_key_id grace,
             read_file key_file = Some armored ->
             main' (CmdRotate key_id key_file old_key_id grace) c
             = ends (announce key_id) c).
Proof.
  intros Hv. destruct (validate_raises_value_error key_id Hv) as [msg Hm].
  exists msg. split; [exact Hm|]. cbv zeta. split; [|split].
  - intros c. apply main_plain; [|exact I].
    unfold command, delete_command, pbind, out, call. cbn [world stderr].
    rewrite (delete_key_invalid server client key_id _ Hm). reflexivity.
  - intros c key_file armored Hr. apply main_plain; [|exact I].
    unfold command, upload_command, pbind, read, out, call, pret.
    rewrite Hr. cbn [world stderr].
    rewrite (upload_key_invalid server client key_id armored _ Hm).
    reflexivity.
  - intros c key_file armored old_key_id grace Hr.
    apply main_plain; [|exact I].
    unfold command, rotate_command, pbind, read, call, pret.
    rewrite Hr.
    unfold rotate_keys, bind, say. fold (announce key_id).
    rewrite (upload_key_invalid server client key_id armored _ Hm).
    reflexivity.
Qed.

(** X17. Without a usable [ADMIN_TOKEN] in the environment (absent or
    empty) every command fails the same way, whatever its arguments and
    whatever the server would answer: nothing is sent, one line
    ["Error: ..."] goes to standard error, and the exit status is 1. *)
Theorem main_without_token (args : Command) (c : Console) :
  truthy (dict_get (lit "ADMIN_TOKEN") environ) = false ->
  exists f w',
    main' args c
    = (Exited 1,
       {| world := w';
          stderr := stderr c ++ [error_line str_of_failure f] |})
    /\ plain f
    /\ wire w' = wire (world c).
Proof.
  intros Ht.
  assert (Hh : _admin_headers client
               = Raise (ValueError (lit "Admin token not configured")))
    by (apply no_token_headers; exact Ht).
  assert (K : forall f c',
             plain f ->
             stderr c' = stderr c -> wire (world c') = wire (world c) ->
             command' args c = (Failed f, c') ->
             exists f w',
               main' args c
               = (Exited 1,
                  {| world := w';
                     stderr := stderr c ++ [error_line str_of_failure f] |})
               /\ plain f /\ wire w' = wire (world c)).
  { intros f [w' errs] Hp He Hw Hc. exists f, w'.
    rewrite (main_plain args c Hc Hp). cbn in He, Hw. rewrite He. auto. }
  assert (V : forall key_id,
             _validate_key_id key_id = Ok tt
             \/ exists msg, _validate_key_id key_id = Raise (ValueError msg)).
  { intros key_id. destruct (_validate_key_id key_id) as [[]|e] eqn:E;
      [left; reflexivity|right].
    rewrite <- E. apply validate_raises_value_error. rewrite E.
    discriminate. }
  destruct args as [|key_id key_file|key_id|action subject days limit
                    |new_key_id key_file old_key_id grace];
    unfold command in K.
  - eapply K; [shelve|shelve|shelve|].
    unfold list_command, pbind, call.
    rewrite (list_keys_no_token server client (world c) Hh). reflexivity.
  - destruct (read_file key_file) as [armored|] eqn:Hr.
    + destruct (V key_id) as [Hv|[msg Hv]].
      * eapply K; [shelve|shelve|shelve|].
        unfold upload_command, pbind, read, out, call, pret.
        rewrite Hr. cbn [world stderr].
        rewrite (upload_key_no_token server client key_id armored _ Hv Hh).
        reflexivity.
      * eapply K; [shelve|shelve|shelve|].
        unfold upload_command, pbind, read, out, call, pret.
        rewrite Hr. cbn [world stderr].
        rewrite (upload_key_invalid server client key_id armored _ Hv).
        reflexivity.
    + eapply K; [shelve|shelve|shelve|].
      unfold upload_command, pbind, read, fail. rewrite Hr. reflexivity.
  - destruct (V key_id) as [Hv|[msg Hv]].
    + eapply K; [shelve|shelve|shelve|].
      unfold delete_command, pbind, out, call. cbn [world stderr].
      rewrite (delete_key_no_token server client key_id _ Hv Hh).
      reflexivity.
    + eapply K; [shelve|shelve|shelve|].
      unfold delete_command, pbind, out, call. cbn [world stderr].
      rewrite (delete_key_invalid server client key_id _ Hv).
      reflexivity.
  - destruct (start_date_of days) as [start_date|] eqn:Hd.
    + eapply K; [shelve|shelve|shelve|].
      unfold audit_command, pbind, pret, call. rewrite Hd.
      rewrite (get_audit_logs_no_token server client action subject
                 (Some start_date) None limit 0 (world c) Hh).
      reflexivity.
    + eapply K; [shelve|shelve|shelve|].
      unfold audit_command, pbind, fail. rewrite Hd. reflexivity.
  - destruct (read_file key_file) as [armored|] eqn:Hr.
    + assert (R : exists msg,
                 rotate_keys server client new_key_id armored old_key_id
                   grace (world c)
                 = (Raise (ValueError msg),
                    print (announce new_key_id) (world c))).
      { unfold rotate_keys, bind, say. fold (announce new_key_id).
        destruct (V new_key_id) as [Hv|[msg Hv]]; eexists.
        - rewrite (upload_key_no_token server client new_key_id armored _
                     Hv Hh).
          reflexivity.
        - rewrite (upload_key_invalid server client new_key_id armored _ Hv).
          reflexivity. }
      destruct R as [msg He].
      eapply K; [shelve|shelve|shelve|].
      unfold rotate_command, pbind, read, call, pret. rewrite Hr, He.
      reflexivity.
    + eapply K; [shelve|shelve|shelve|].
      unfold rotate_command, pbind, read, fail. rewrite Hr. reflexivity.
  Unshelve. all: first [exact I|reflexivity].
Qed.

End MainErrors.

(** A 3-character key id given to [delete]. *)
Lemma main_rejects_invalid_key_id_witness :
  let server := Mock.scripted [] (Mock.answer 200 (Some Mock.uploaded)) in
  let run := Mock.main server Mock.environ (CmdDelete (lit "xyz")) in
  fst run = Exited 1 /\ wire (world (snd run)) = [].
Proof.
  intros server run.
  assert (Hv : _validate_key_id (lit "xyz") <> Ok tt)
    by (vm_compute; discriminate).
  destruct (@main_rejects_invalid_key_id server Mock.environ Mock.files
              Mock.clock Mock.dumps Mock.message Mock.pad Mock.nonzero
              (lit "xyz") Hv) as [msg [_ [Hd _]]].
  unfold run, Mock.main. rewrite Hd. split; reflexivity.
Defined.

(** [list] with an empty environment. *)
Lemma main_without_token_witness :
  let server := Mock.scripted [] (Mock.answer 200 (Some Mock.uploaded)) in
  exists f w',
    Mock.main server [] CmdList
    = (Exited 1,
       {| world := w';
          stderr := stderr Mock.console ++ [error_line Mock.message f] |})
    /\ plain f
    /\ wire w' = wire (world Mock.console).
Proof.
  intros server.
  apply (@main_without_token server [] Mock.files Mock.clock Mock.dumps
           Mock.message Mock.pad Mock.nonzero CmdList Mock.console eq_refl).
Defined.

Section MainHttp.

Variable server : Server.
Variable environ : dict str.
Variable read_file : str -> option str.
Variable start_date_of : Z -> option str.
Variable json_dumps : value -> str.
Variable str_of_failure : failure -> str.
Variable format_width : value -> nat -> str.
Variable float_truthy : str -> bool.

Local Abbreviation client := (__init__ environ default_base_url None).
Local Abbreviation command' :=
  (command server read_file start_date_of json_dumps format_width
     float_truthy client).
Local Abbreviation main' :=
  (main server environ read_file start_date_of json_dumps str_of_failure
     format_width float_truthy).

(** X18. How [main] reports an [HTTPError], by the body of the error
    response.  Not JSON: the line ["HTTP <status>: <text>"] and exit
    status 1.  A JSON object: the line ["API Error [<code>]: <error>"],
    with [UNKNOWN] for a missing [code] and [str(e)] for a missing
    [error], then ["Request ID: <id>"] exactly when the object has a
    [requestId], and exit status 1.  JSON that is not an object (a list,
    a string, a number, [null]): the handler itself raises
    [AttributeError], which nothing catches, so [main] ends on that
    exception without having written its report of the HTTP error. *)
Theorem main_reports_http_error (args : Command) (c c' : Console)
    (a : Response) :
  command' args c = (Failed (ClientError (HTTPError a)), c') ->
  (json a = None ->
   main' args c
   = (Exited 1,
      {| world := world c';
         stderr := stderr c'
                   ++ [[Text (lit "HTTP "); Fmt (VInt (status_code a));
                        Text (lit ": "); Fmt (VStr (text a))]] |}))
  /\ (forall fields,
        json a = Some (VDict fields) ->
        let code := match dict_get (lit "code") fields with
                    | Some x => x
                    | None => VStr (lit "UNKNOWN")
                    end in
        let message :=
          match dict_get (lit "error") fields with
          | Some x => x
          | None => VStr (str_of_failure (ClientError (HTTPError a)))
          end in
        main' args c
        = (Exited 1,
           {| world := world c';
              stderr := stderr c'
                        ++ [Text (lit "API Error ["); Fmt code;
                            Text (lit "]: "); Fmt message]
                           :: match dict_get (lit "requestId") fields with
                              | Some request_id =>
                                  [[Text (lit "Request ID: ");
                                    Fmt request_id]]
                              | None => []
                              end |}))
  /\ (forall v,
        json a = Some v -> (forall fields, v <> VDict fields) ->
        main' args c = (Uncaught (ClientError AttributeError), c')).
Proof.
  intros H. unfold main. rewrite H.
  unfold on_http_error, report_api_error, pbind, check, response_json.
  split; [|split].
  - intros ->. reflexivity.
  - intros fields ->. cbv zeta.
    unfold value_get, value_contains, dict_mem, getitem, err, pret.
    destruct (dict_get (lit "code") fields),
             (dict_get (lit "error") fields),
             (dict_get (lit "requestId") fields);
      cbn [fst snd world stderr]; rewrite <- ?app_assoc; reflexivity.
  - intros v -> Hv. destruct v; try reflexivity.
    exfalso. apply (Hv fields). reflexivity.
Qed.

End MainHttp.

(** [delete] of a key the server does not know. *)
Lemma main_reports_http_error_witness :
  let fields := [ (lit "error", VStr (lit "Key not found"));
                  (lit "code", VStr (lit "KEY_NOT_FOUND"));
                  (lit "requestId", VStr (lit "r-1")) ] in
  let server := Mock.scripted [] (Mock.answer 404 (Some (VDict fields))) in
  exists c',
    Mock.main server Mock.environ (CmdDelete (lit "0123456789ABCDEF"))
    = (Exited 1,
       {| world := world c';
          stderr :=
            stderr c'
            ++ [ [Text (lit "API Error [");
                  Fmt (VStr (lit "KEY_NOT_FOUND"));
                  Text (lit "]: "); Fmt (VStr (lit "Key not found"))];
                 [Text (lit "Request ID: "); Fmt (VStr (lit "r-1"))] ] |}).
Proof.
  intros fields server. eexists.
  refine (proj1 (proj2 (@main_reports_http_error server Mock.environ
                          Mock.files Mock.clock Mock.dumps Mock.message
                          Mock.pad Mock.nonzero
                          (CmdDelete (lit "0123456789ABCDEF"))
                          Mock.console _
                          (Mock.answer 404 (Some (VDict fields))) _))
            fields eq_refl).
  vm_compute. reflexivity.
Defined.

(** Stepping through the body of a command. *)
Lemma pbind_call {A B} (m : M A) (k : A -> P B) (c : Console) :
  pbind (call m) k c
  = match m (world c) with
    | (Ok a, w) => k a {| world := w; stderr := stderr c |}
    | (Raise e, w) =>
        (Failed (ClientError e), {| world := w; stderr := stderr c |})
    end.
Proof.
  unfold pbind, call. destruct (m (world c)) as [[a|e] w]; reflexivity.
Qed.

Lemma pbind_out {B} (line : list Fragment) (k : unit -> P B) (c : Console) :
  pbind (out line) k c
  = k tt {| world := print line (world c); stderr := stderr c |}.
Proof. reflexivity. Qed.

Lemma pbind_check_ok {A B} (a : A) (k : A -> P B) (c : Console) :
  pbind (check (Ok a)) k c = k a c.
Proof. reflexivity. Qed.

(** A loop whose every turn completes and prints [k] lines prints [k]
    lines per item, and completes. *)
Lemma for_each_grows (items : list value) (body : value -> P unit) (k : nat) :
  (forall x c,
      In x items ->
      exists w',
        body x c = (Done tt, {| world := w'; stderr := stderr c |})
        /\ wire w' = wire (world c)
        /\ List.length (stdout w') = List.length (stdout (world c)) + k) ->
  forall c,
    exists w',
      for_each items body c = (Done tt, {| world := w'; stderr := stderr c |})
      /\ wire w' = wire (world c)
      /\ List.length (stdout w')
         = List.length (stdout (world c)) + k * List.length items.
Proof.
  induction items as [|x items IH]; intros Hb c.
  - exists (world c). destruct c as [w errs]. cbn.
    split; [reflexivity|]. split; [reflexivity|lia].
  - cbn [for_each]. unfold pbind.
    destruct (Hb x c (or_introl eq_refl)) as [w1 [E1 [Hw1 Hl1]]].
    rewrite E1.
    destruct (IH (fun y c0 Hy => Hb y c0 (or_intror Hy))
                {| world := w1; stderr := stderr c |})
      as [w2 [E2 [Hw2 Hl2]]].
    cbn [world stderr] in E2, Hw2, Hl2.
    exists w2. split; [exact E2|]. split; [congruence|].
    rewrite Hl2, Hl1. cbn [List.length]. lia.
Qed.

Section MainList.

Variable server : Server.
Variable environ : dict str.
Variable read_file : str -> option str.
Variable start_date_of : Z -> option str.
Variable json_dumps : value -> str.
Variable str_of_failure : failure -> str.
Variable format_width : value -> nat -> str.
Variable float_truthy : str -> bool.

Local Abbreviation client := (__init__ environ default_base_url None).
Local Abbreviation main' :=
  (main server environ read_file start_date_of json_dumps str_of_failure
     format_width float_truthy).

(** X19. What [list] prints.  When [list_keys] returns a falsy value (an
    empty list, or [None] for a [null] field) [main] prints the single
    line ["No keys found"] and returns.  When it returns a non-empty
    list whose entries all have [keyId], [fingerprint], [algorithm] and
    [createdAt], [main] prints two header lines and five lines per key,
    writes nothing to standard error and returns. *)
Theorem main_list_output (c : Console) (keys : value) (w' : World) :
  list_keys server client (world c) = (Ok keys, w') ->
  (value_truthy float_truthy keys = false ->
   main' CmdList c
   = (Returned,
      {| world := print [Text (lit "No keys found")] w';
         stderr := stderr c |}))
  /\ (forall items,
        keys = VList items -> items <> [] -> Forall listable items ->
        exists w'',
          main' CmdList c
          = (Returned, {| world := w''; stderr := stderr c |})
          /\ wire w'' = wire w'
          /\ List.length (stdout w'')
             = List.length (stdout w') + 2 + 5 * List.length items).
Proof.
  intros Hl. unfold main, command, list_command.
  rewrite pbind_call, Hl. split.
  - intros ->. reflexivity.
  - intros items -> Hne Hall.
    assert (Ht : value_truthy float_truthy (VList items) = true)
      by (destruct items; [contradiction|reflexivity]).
    rewrite Ht. cbn [negb].
    rewrite !pbind_out. cbn [iter]. rewrite pbind_check_ok.
    cbn [world stderr].
    match goal with
    | |- context [for_each items ?body ?c0] =>
        destruct (@for_each_grows items body 5) with (c := c0)
          as [w2 [E [Hw2 Hl2]]]
    end.
    + intros x c0 Hx. rewrite Forall_forall in Hall.
      destruct (Hall x Hx) as [fields [-> [H1 [H2 [H3 H4]]]]].
      unfold pbind, check, getitem, out.
      destruct (dict_get (lit "keyId") fields); [|contradiction].
      destruct (dict_get (lit "fingerprint") fields); [|contradiction].
      destruct (dict_get (lit "algorithm") fields); [|contradiction].
      destruct (dict_get (lit "createdAt") fields); [|contradiction].
      cbn [world stderr]. eexists. split; [reflexivity|].
      split; [reflexivity|]. cbn. rewrite !length_app. cbn. lia.
    + rewrite E. exists w2. split; [reflexivity|].
      cbn [world stderr] in Hw2, Hl2. split; [exact Hw2|].
      rewrite Hl2. cbn. rewrite !length_app. cbn. lia.
Qed.

End MainList.

(** A server with no keys. *)
Lemma main_list_output_witness :
  let body := VDict [(lit "keys", VList [])] in
  let server := Mock.scripted [] (Mock.answer 200 (Some body)) in
  exists w',
    Mock.main server Mock.environ CmdList
    = (Returned,
       {| world := print [Text (lit "No keys found")] w';
          stderr := stderr Mock.console |}).
Proof.
  intros body server. eexists.
  refine (proj1 (@main_list_output server Mock.environ Mock.files Mock.clock
                   Mock.dumps Mock.message Mock.pad Mock.nonzero
                   Mock.console (VList []) _ _) eq_refl).
  vm_compute. reflexivity.
Defined.

Lemma pbind_pret {A B} (a : A) (k : A -> P B) (c : Console) :
  pbind (pret a) k c = k a c.
Proof. reflexivity. Qed.

(** One call of [q] from a world with the wire of [wc], counted from
    [wc]. *)
Lemma sends_from (w0 wc w' : World) (q : Request) :
  sends w0 q 4 w' ->
  wire w0 = wire wc ->
  exists evs,
    wire w' = wire wc ++ evs
    /\ List.map method (calls evs) = [method q]
    /\ 1 <= List.length (attempts evs) <= 4
    /\ Forall (fun x => snd (fst x) = q) (attempts evs).
Proof.
  intros [evs [Hx [Hc [Hf Hn]]]] Hw. exists evs.
  rewrite Hx. cbn [wire]. rewrite Hw, Hc. auto.
Qed.

Lemma prefix_of_nil {A} (l : list A) : prefix_of [] l.
Proof. exists l. reflexivity. Qed.

Lemma prefix_of_refl {A} (l : list A) : prefix_of l l.
Proof. exists []. symmetry. apply app_nil_r. Qed.

Section MainNetwork.

Variable server : Server.
Variable environ : dict str.
Variable read_file : str -> option str.
Variable start_date_of : Z -> option str.
Variable json_dumps : value -> str.
Variable str_of_failure : failure -> str.
Variable format_width : value -> nat -> str.
Variable float_truthy : str -> bool.

Local Abbreviation client := (__init__ environ default_base_url None).
Local Abbreviation command' :=
  (command server read_file start_date_of json_dumps format_width
     float_truthy client).
Local Abbreviation main' :=
  (main server environ read_file start_date_of json_dumps str_of_failure
     format_width float_truthy).

Ltac quiet_rest :=
  repeat first
    [ apply quiet_pret
    | apply quiet_out
    | apply quiet_check
    | apply quiet_fail
    | apply quiet_audit_entry
    | apply quiet_for_each; intros ?
    | apply quiet_bind; [|intros ?]
    | match goal with
      | |- quiet (if ?b then _ else _) => destruct b
      end ].

(** Where each command leaves the wire: where its one method of the
    client left it, or, when the key file or the clock failed before
    that, where it was. *)
Lemma list_command_wire (c : Console) :
  wire (world (snd (command' CmdList c)))
  = wire (snd (list_keys server client (world c))).
Proof.
  unfold command, list_command. apply call_then_quiet.
  intros keys. quiet_rest.
Qed.

Lemma delete_command_wire (key_id : str) (c : Console) :
  exists w0,
    wire w0 = wire (world c)
    /\ wire (world (snd (command' (CmdDelete key_id) c)))
       = wire (snd (delete_key server client key_id w0)).
Proof.
  unfold command, delete_command. rewrite pbind_out.
  eexists. split; [|apply call_then_quiet; intros result; quiet_rest].
  reflexivity.
Qed.

Lemma upload_command_wire (key_id key_file : str) (c : Console) :
  wire (world (snd (command' (CmdUpload key_id key_file) c)))
  = wire (world c)
  \/ exists armored w0,
       wire w0 = wire (world c)
       /\ wire (world (snd (command' (CmdUpload key_id key_file) c)))
          = wire (snd (upload_key server client key_id armored w0)).
Proof.
  unfold command, upload_command, read.
  destruct (read_file key_file) as [armored|]; [|left; reflexivity].
  right. rewrite pbind_pret, pbind_out. exists armored. eexists.
  split; [|apply call_then_quiet; intros result; quiet_rest].
  reflexivity.
Qed.

Lemma audit_command_wire (action subject : option str) (days limit : Z)
    (c : Console) :
  wire (world (snd (command' (CmdAudit action subject days limit) c)))
  = wire (world c)
  \/ exists start_date,
       start_date_of days = Some start_date
       /\ wire (world (snd (command' (CmdAudit action subject days limit) c)))
          = wire (snd (get_audit_logs server client action subject
                         (Some start_date) None limit 0 (world c))).
Proof.
  unfold command, audit_command.
  destruct (start_date_of days) as [start_date|]; [|left; reflexivity].
  right. rewrite pbind_pret. exists start_date.
  split; [reflexivity|]. apply call_then_quiet. intros result. quiet_rest.
Qed.

Lemma rotate_command_wire (new_key_id key_file : str)
    (old_key_id : option str) (grace : Z) (c : Console) :
  wire (world (snd (command' (CmdRotate new_key_id key_file old_key_id
                               grace) c)))
  = wire (world c)
  \/ exists armored,
       wire (world (snd (command' (CmdRotate new_key_id key_file old_key_id
                                    grace) c)))
       = wire (snd (rotate_keys server client new_key_id armored old_key_id
                      grace (world c))).
Proof.
  unfold command, rotate_command, read.
  destruct (read_file key_file) as [armored|]; [|left; reflexivity].
  right. rewrite pbind_pret. exists armored.
  apply call_then_quiet. intros result. quiet_rest.
Qed.

(** X20. Against a server that never answers with a redirect status,
    each command uses only its own method on the network, whether it
    ends well or not: [list] and [audit] make at most one call, a GET,
    so they never change anything on the server; [upload] at most one
    POST; [delete] at most one DELETE; [rotate] a POST, or a POST and
    then a DELETE.  No command makes more than 4 HTTP attempts per
    call. *)
Theorem main_uses_only_its_methods (args : Command) (c : Console) :
  direct server ->
  exists evs,
    wire (world (snd (main' args c))) = wire (world c) ++ evs
    /\ prefix_of (List.map method (calls evs)) (methods_of args)
    /\ List.length (attempts evs) <= 4 * List.length (methods_of args).
Proof.
  intros _. rewrite main_world.
  assert (Z0 : forall l,
             exists evs : list Event,
               wire (world c) = wire (world c) ++ evs
               /\ prefix_of (List.map method (calls evs)) l
               /\ List.length (attempts evs) <= 4 * List.length l).
  { intros l. exists []. rewrite app_nil_r. split; [reflexivity|].
    split; [apply prefix_of_nil|cbn; lia]. }
  assert (S1 : forall w0 w' q,
             wire w0 = wire (world c) ->
             (w' = w0 \/ sends w0 q 4 w') ->
             exists evs,
               wire w' = wire (world c) ++ evs
               /\ prefix_of (List.map method (calls evs)) [method q]
               /\ List.length (attempts evs) <= 4 * 1).
  { intros w0 w' q Hw [ -> |Hs].
    - rewrite Hw. apply Z0.
    - destruct (@sends_from _ _ _ _ Hs Hw) as [evs [He [Hc [Hn _]]]].
      exists evs. split; [exact He|]. rewrite Hc.
      split; [apply prefix_of_refl|lia]. }
  destruct args as [|key_id key_file|key_id|action subject days limit
                    |new_key_id key_file old_key_id grace];
    cbn [methods_of].
  - rewrite list_command_wire.
    destruct (list_keys_trace server client (world c))
      as [E|[hdrs [_ Hs]]].
    + rewrite E. apply Z0.
    + apply (S1 (world c) _ (list_request client hdrs) eq_refl).
      right. exact Hs.
  - destruct (upload_command_wire key_id key_file c)
      as [E|[armored [w0 [Hw E]]]]; rewrite E; [apply Z0|].
    destruct (upload_key_trace server client key_id armored w0)
      as [E'|[hdrs [_ [_ Hs]]]].
    + rewrite E', Hw. apply Z0.
    + apply (S1 w0 _ (upload_request client key_id armored hdrs) Hw).
      right. exact Hs.
  - destruct (delete_command_wire key_id c) as [w0 [Hw E]]. rewrite E.
    destruct (delete_key_trace server client key_id w0)
      as [E'|[hdrs [_ [_ Hs]]]].
    + rewrite E', Hw. apply Z0.
    + apply (S1 w0 _ (delete_request client key_id hdrs) Hw).
      right. exact Hs.
  - destruct (audit_command_wire action subject days limit c)
      as [E|[start_date [_ E]]]; rewrite E; [apply Z0|].
    destruct (get_audit_logs_trace server client action subject
                (Some start_date) None limit 0 (world c))
      as [E'|[hdrs [_ Hs]]].
    + rewrite E'. apply Z0.
    + apply (S1 (world c) _
               (audit_request client
                  (audit_params action subject (Some start_date) None
                     limit 0) hdrs) eq_refl).
      right. exact Hs.
  - destruct (rotate_command_wire new_key_id key_file old_key_id grace c)
      as [E|[armored E]]; rewrite E; [apply Z0|].
    destruct (@rotate_keys_methods server client new_key_id armored
                old_key_id grace (world c) eq_refl)
      as [evs [Hw [Hc Hn]]].
    exists evs. split; [exact Hw|]. split; [|cbn; lia].
    destruct Hc as [ -> |[ -> | -> ]].
    + apply prefix_of_nil.
    + exists [DELETE]. reflexivity.
    + apply prefix_of_refl.
Qed.

(** X21. The query [audit] sends: every HTTP attempt is the GET of
    [/admin/audit] with [limit] as given on the command line, [offset]
    0, [startDate] the date the clock gave for [--days], and never an
    [endDate]; [action] and [subject] go out exactly when they were
    given as non-empty strings. *)
Theorem main_audit_query (action subject : option str) (days limit : Z)
    (start_date : str) (hdrs : dict str) (c : Console) :
  start_date_of days = Some start_date ->
  start_date <> [] ->
  _admin_headers client = Ok hdrs ->
  let ps := audit_params action subject (Some start_date) None limit 0 in
  (exists evs,
      wire (world (snd (main' (CmdAudit action subject days limit) c)))
      = wire (world c) ++ evs
      /\ 1 <= List.length (attempts evs) <= 4
      /\ Forall (fun x => snd (fst x) = audit_request client ps hdrs)
           (attempts evs))
  /\ dict_get (lit "limit") ps = Some (VInt limit)
  /\ dict_get (lit "offset") ps = Some (VInt 0)
  /\ dict_get (lit "startDate") ps = Some (VStr start_date)
  /\ dict_get (lit "endDate") ps = None
  /\ dict_get (lit "action") ps = sent action
  /\ dict_get (lit "subject") ps = sent subject.
Proof.
  intros Hd Hne Hh ps. split.
  - rewrite main_world. unfold command, audit_command.
    rewrite Hd, pbind_pret.
    match goal with
    | |- context [pbind (call ?m) ?k c] =>
        destruct (call_then_quiet m k c) as [Hw _];
        [intros result; quiet_rest|]
    end.
    rewrite Hw.
    rewrite (get_audit_logs_eq server client action subject
               (Some start_date) None limit 0 (world c) Hh).
    cbn [snd]. fold ps.
    destruct (request_attempts server (session client)
                (audit_request client ps hdrs) (world c))
      as [evs [Hx [Hn [_ Hf]]]].
    exists evs. rewrite Hx. split; [reflexivity|].
    split; [exact Hn|exact Hf].
  - pose proof (audit_params_get action subject (Some start_date) None
                  limit 0) as H.
    cbv zeta in H. fold ps in H.
    destruct H as [H1 [H2 [H3 [H4 [H5 H6]]]]].
    destruct start_date as [|ch rest]; [contradiction|].
    repeat split; assumption.
Qed.

End MainNetwork.

(** [rotate] with an old key, against a server that answers 200: a POST
    and then a DELETE, one attempt each. *)
Lemma main_uses_only_its_methods_witness :
  let server := Mock.scripted [] (Mock.answer 200 (Some Mock.uploaded)) in
  let args := CmdRotate (lit "0123456789ABCDEF") (lit "key.asc")
                (Some (lit "FEDCBA9876543210")) 24 in
  direct server
  /\ exists evs,
       wire (world (snd (Mock.main server Mock.environ args)))
       = wire (world Mock.console) ++ evs
       /\ prefix_of (List.map method (calls evs)) [POST; DELETE]
       /\ List.length (attempts evs) <= 8.
Proof.
  intros server args.
  assert (D : direct server).
  { intros h q. unfold server, Mock.scripted, redirect.
    destruct (List.length (attempts h)) as [|n]; cbn;
      intros [H|[H|[H|[H|[H|[]]]]]]; discriminate H. }
  split; [exact D|].
  exact (@main_uses_only_its_methods server Mock.environ Mock.files
           Mock.clock Mock.dumps Mock.message Mock.pad Mock.nonzero
           args Mock.console D).
Defined.

(** [audit --subject ci --days 7 --limit 50]. *)
Lemma main_audit_query_witness :
  let server := Mock.scripted []
                  (Mock.answer 200
                     (Some (VDict [ (lit "logs", VList []);
                                    (lit "count", VInt 0) ]))) in
  let ps := audit_params None (Some (lit "ci"))
              (Some (lit "2026-01-01T00:00:00")) None 50 0 in
  dict_get (lit "startDate") ps = Some (VStr (lit "2026-01-01T00:00:00"))
  /\ dict_get (lit "endDate") ps = None
  /\ exists evs,
       wire (world (snd (Mock.main server Mock.environ
                           (CmdAudit None (Some (lit "ci")) 7 50))))
       = wire (world Mock.console) ++ evs
       /\ 1 <= List.length (attempts evs) <= 4.
Proof.
  intros server ps.
  assert (Hne : lit "2026-01-01T00:00:00" <> []) by discriminate.
  destruct (@main_audit_query server Mock.environ Mock.files Mock.clock
              Mock.dumps Mock.message Mock.pad Mock.nonzero
              None (Some (lit "ci")) 7 50 (lit "2026-01-01T00:00:00") _
              Mock.console eq_refl Hne eq_refl)
    as [[evs [Hw [Hn _]]] [_ [_ [Hs [He _]]]]].
  split; [exact Hs|]. split; [exact He|].
  exists evs. split; [exact Hw|exact Hn].
Defined.

Section MainBusy.

Variable server : Server.
Variable environ : dict str.
Variable read_file : str -> option str.
Variable start_date_of : Z -> option str.
Variable json_dumps : value -> str.
Variable str_of_failure : failure -> str.
Variable format_width : value -> nat -> str.
Variable float_truthy : str -> bool.

Local Abbreviation client := (__init__ environ default_base_url None).
Local Abbreviation command' :=
  (command server read_file start_date_of json_dumps format_width
     float_truthy client).
Local Abbreviation main' :=
  (main server environ read_file start_date_of json_dumps str_of_failure
     format_width float_truthy).

Hypothesis busy : forall h q, transient (server h q).

Lemma busy_settles {A} (q : Request) (k : Response -> result A) (w : World) :
  settle (fst (request server (session client) q w)) k = Raise RetryError.
Proof.
  change (session client) with _create_session.
  unfold request. fold retry_strategy.
  rewrite (urlopen_busy server q busy). reflexivity.
Qed.

(** X22. When the server answers 429 or 503 to every attempt, every
    command that gets as far as the network ends the same way: the
    client gives up with [RetryError], [main] writes
    ["Network Error: " + str(e)] to standard error, not an API error,
    and exits with status 1. *)
Theorem main_reports_busy_server (args : Command) (c : Console)
    (hdrs : dict str) :
  _admin_headers client = Ok hdrs ->
  ready read_file start_date_of args ->
  fst (main' args c) = Exited 1
  /\ stderr (snd (main' args c))
     = stderr c
       ++ [[Text (lit "Network Error: ");
            Text (str_of_failure (ClientError RetryError))]].
Proof.
  intros Hh Hr.
  assert (K : forall c',
             command' args c = (Failed (ClientError RetryError), c') ->
             stderr c' = stderr c ->
             fst (main' args c) = Exited 1
             /\ stderr (snd (main' args c))
                = stderr c
                  ++ [[Text (lit "Network Error: ");
                       Text (str_of_failure (ClientError RetryError))]]).
  { intros c' Hc He. unfold main. rewrite Hc. cbn. rewrite He.
    split; reflexivity. }
  assert (C : forall A (m : M A) B (k : A -> P B) c0,
             fst (m (world c0)) = Raise RetryError ->
             exists c',
               pbind (call m) k c0 = (Failed (ClientError RetryError), c')
               /\ stderr c' = stderr c0).
  { intros A m B k c0 Hm. rewrite pbind_call.
    destruct (m (world c0)) as [[a|e] w]; cbn in Hm; [discriminate|].
    injection Hm as ->. eexists. split; reflexivity. }
  destruct args as [|key_id key_file|key_id|action subject days limit
                    |new_key_id key_file old_key_id grace];
    cbn [ready] in Hr; unfold command in K.
  - edestruct C as [c' [Hc He]]; [|apply (K c' Hc He)].
    rewrite (list_keys_eq server client (world c) Hh). apply busy_settles.
  - destruct Hr as [Hf Hv].
    destruct (read_file key_file) as [armored|] eqn:Er; [|contradiction].
    unfold upload_command, read in K. rewrite Er in K.
    rewrite pbind_pret, pbind_out in K.
    edestruct C as [c' [Hc He]]; [|apply (K c' Hc He)].
    cbn [world].
    rewrite (upload_key_eq server client key_id armored _ Hv Hh).
    apply busy_settles.
  - unfold delete_command in K. rewrite pbind_out in K.
    edestruct C as [c' [Hc He]]; [|apply (K c' Hc He)].
    cbn [world].
    rewrite (delete_key_eq server client key_id _ Hr Hh).
    apply busy_settles.
  - destruct (start_date_of days) as [start_date|] eqn:Ed; [|contradiction].
    unfold audit_command in K. rewrite Ed, pbind_pret in K.
    edestruct C as [c' [Hc He]]; [|apply (K c' Hc He)].
    rewrite (get_audit_logs_eq server client action subject
               (Some start_date) None limit 0 (world c) Hh).
    apply busy_settles.
  - destruct Hr as [Hf Hv].
    destruct (read_file key_file) as [armored|] eqn:Er; [|contradiction].
    unfold rotate_command, read in K. rewrite Er, pbind_pret in K.
    edestruct C as [c' [Hc He]]; [|apply (K c' Hc He)].
    apply rotate_keys_upload_fails.
    rewrite (upload_key_eq server client new_key_id armored _ Hv Hh).
    apply busy_settles.
Qed.

End MainBusy.

(** [list] against a server that is always unavailable. *)
Lemma main_reports_busy_server_witness :
  let server := Mock.scripted [] (Mock.answer 503 None) in
  fst (Mock.main server Mock.environ CmdList) = Exited 1
  /\ stderr (snd (Mock.main server Mock.environ CmdList))
     = stderr Mock.console
       ++ [[Text (lit "Network Error: ");
            Text (Mock.message (ClientError RetryError))]].
Proof.
  intros server.
  refine (@main_reports_busy_server server Mock.environ Mock.files
            Mock.clock Mock.dumps Mock.message Mock.pad Mock.nonzero
            _ CmdList Mock.console _ eq_refl I).
  intros h q. right. unfold server, Mock.scripted.
  destruct (List.length (attempts h)) as [|n]; [|destruct n]; reflexivity.
Defined.
